(** * Cicada modem driver: circular buffer and SIM session engine

    A shallow embedding of

    - [src/src/modules/circularbuffer.h]   (class [CircularBuffer])
    - [src/cicada/commdevices/simcommdevice.cpp] (class [SimCommDevice])

    Machine integers are [Z] with the wrap-around of their C++ type
    written out; arrays are lists indexed with stdpp's lookup and insert;
    C strings are lists of [ascii] ended by the NUL character.

    Part I holds the definitions, Part II the lemmas about them. *)

From Stdlib Require Import ZArith Lia List Ascii String Bool.
From stdpp Require Import base list.
Import ListNotations.
Local Open Scope Z_scope.

(** * Part I: definitions *)

(** ** Fixed-width integers *)

(** [uint16_t]: arithmetic modulo 2^16.  The counters and counts of the
    driver have the type [Size], whose declaration is not part of the
    sources at hand; the spec gives the counts of its interface as 16-bit
    unsigned numbers, and [Size] is taken to be [uint16_t]. *)
Definition u16 (z : Z) : Z := z mod 65536.

(** [uint8_t]: arithmetic modulo 2^8. *)
Definition u8 (z : Z) : Z := z mod 256.

(** [int] on the 32-bit targets of the driver.  Signed overflow is
    undefined behaviour: [int_arith] has no result there. *)
Definition INT_MAX : Z := 2147483647.

Definition INT_MIN : Z := -2147483648.

Definition int_arith (z : Z) : option Z :=
  if (INT_MIN <=? z) && (z <=? INT_MAX) then Some z else None.

(** ** The circular buffer ([circularbuffer.h]) *)

Module CircularBuffer.

Section Ring.

(** The template parameters: the element type, with [T0] the
    value-initialised element that [_buffer()] fills the array with, and
    the capacity. *)
Context {T : Type}.
Variable T0 : T.
Variable BUFFER_SIZE : Z.

Record t : Type := Build
  { _writeHead : Z;
    _readHead : Z;
    _availableData : Z;
    _buffer : list T }.

(** The constructor. *)
Definition empty : t :=
  {| _writeHead := 0; _readHead := 0; _availableData := 0;
     _buffer := replicate (Z.to_nat BUFFER_SIZE) T0 |}.

(** [incrementOrResetHead]: [head++; if (head >= BUFFER_SIZE) head = 0]. *)
Definition incrementOrResetHead (head : Z) : Z :=
  let head := u16 (head + 1) in
  if BUFFER_SIZE <=? head then 0 else head.

Definition availableData (r : t) : Z := _availableData r.

Definition availableSpace (r : t) : Z := u16 (BUFFER_SIZE - _availableData r).

Definition size (_ : t) : Z := BUFFER_SIZE.

Definition isEmpty (r : t) : bool := _availableData r =? 0.

Definition isFull (r : t) : bool := _availableData r =? BUFFER_SIZE.

(** [_buffer[_writeHead] = x; incrementOrResetHead(_writeHead)]: the two
    statements every push performs per element.  An index outside the
    array (undefined behaviour in C++) leaves the list as it is; the
    invariant [wf] below keeps both heads inside the array. *)
Definition store (x : T) (r : t) : t :=
  {| _writeHead := incrementOrResetHead (_writeHead r);
     _readHead := _readHead r;
     _availableData := _availableData r;
     _buffer := <[Z.to_nat (_writeHead r) := x]> (_buffer r) |}.

(** [x = _buffer[_readHead]; incrementOrResetHead(_readHead)]. *)
Definition fetch (r : t) : T * t :=
  (nth (Z.to_nat (_readHead r)) (_buffer r) T0,
   {| _writeHead := _writeHead r;
      _readHead := incrementOrResetHead (_readHead r);
      _availableData := _availableData r;
      _buffer := _buffer r |}).

Definition set_availableData (a : Z) (r : t) : t :=
  {| _writeHead := _writeHead r; _readHead := _readHead r;
     _availableData := a; _buffer := _buffer r |}.

(** The [while (writeCount < size)] loop of the bulk push, run over the
    elements [data[0] .. data[size-1]] it copies. *)
Fixpoint push_loop (data : list T) (r : t) : t :=
  match data with
  | [] => r
  | x :: data' => push_loop data' (store x r)
  end.

(** [push(const T* data, uint16_t size)]: returns [writeCount].  The
    caller's array [data] holds at least [size] elements. *)
Definition push_bulk (data : list T) (size : Z) (r : t) : Z * t :=
  let size := if availableSpace r <? size then availableSpace r else size in
  let copied := take (Z.to_nat size) data in
  let writeCount := Z.of_nat (length copied) in
  let r := push_loop copied r in
  (writeCount, set_availableData (u16 (_availableData r + writeCount)) r).

(** [push(T data)]. *)
Definition push (x : T) (r : t) : t :=
  let r := store x r in
  if _availableData r <? BUFFER_SIZE
  then set_availableData (u16 (_availableData r + 1)) r
  else r.

(** The [while (readCount < size)] loop of the bulk pull; [n] is the
    number of iterations left. *)
Fixpoint pull_loop (n : nat) (r : t) : list T * t :=
  match n with
  | O => ([], r)
  | S n' =>
      let (x, r) := fetch r in
      let (xs, r) := pull_loop n' r in
      (x :: xs, r)
  end.

(** [pull(T* data, uint16_t size)]: returns [readCount] and the elements
    written to [data]. *)
Definition pull_bulk (size : Z) (r : t) : Z * list T * t :=
  let size := if availableData r <? size then availableData r else size in
  let (out, r) := pull_loop (Z.to_nat size) r in
  let readCount := Z.of_nat (length out) in
  (readCount, out, set_availableData (u16 (_availableData r - readCount)) r).

(** [pull()]. *)
Definition pull (r : t) : T * t :=
  let (x, r) := fetch r in
  (x, if 0 <? _availableData r
      then set_availableData (u16 (_availableData r - 1)) r
      else r).

(** [n] calls of [pull()] in a row: the elements returned, in order, and
    the ring left. *)
Fixpoint pull_n (n : nat) (r : t) : list T * t :=
  match n with
  | O => ([], r)
  | S n' =>
      let (x, r) := pull r in
      let (xs, r) := pull_n n' r in
      (x :: xs, r)
  end.

(** [read()]. *)
Definition read (r : t) : T := nth (Z.to_nat (_readHead r)) (_buffer r) T0.

(** [flush()]. *)
Definition flush (r : t) : t :=
  {| _writeHead := 0; _readHead := 0; _availableData := 0;
     _buffer := _buffer r |}.

(** *** Well-formed rings *)

(** What the constructor establishes and every member function keeps:
    both heads index the array and the count is between 0 and the
    capacity. *)
Record wf (r : t) : Prop := WF
  { wf_writeHead : 0 <= _writeHead r < BUFFER_SIZE;
    wf_readHead : 0 <= _readHead r < BUFFER_SIZE;
    wf_available : 0 <= _availableData r <= BUFFER_SIZE;
    wf_buffer : Z.of_nat (length (_buffer r)) = BUFFER_SIZE }.

(** The write head is where the unread elements end.  The bulk
    operations keep this; a single-element push on a full ring and a
    single-element pull on an empty ring break it. *)
Definition coherent (r : t) : Prop :=
  _writeHead r = (_readHead r + _availableData r) mod BUFFER_SIZE.

(** The slot that is [k] places after the read head. *)
Definition slot (r : t) (k : nat) : T :=
  nth (Z.to_nat ((_readHead r + Z.of_nat k) mod BUFFER_SIZE)) (_buffer r) T0.

(** The [n] slots from the read head on, in reading order. *)
Definition slots_from (r : t) (n : nat) : list T := map (slot r) (seq 0 n).

(** The unread elements, oldest first. *)
Definition contents (r : t) : list T :=
  slots_from r (Z.to_nat (_availableData r)).

(** The operations of the class, for statements that range over all of
    them. *)
Inductive op : Type :=
| OpPushBulk (data : list T) (size : Z)
| OpPush (x : T)
| OpPullBulk (size : Z)
| OpPull
| OpRead
| OpFlush.

Definition run_op (o : op) (r : t) : t :=
  match o with
  | OpPushBulk data size => snd (push_bulk data size r)
  | OpPush x => push x r
  | OpPullBulk size => snd (pull_bulk size r)
  | OpPull => snd (pull r)
  | OpRead => r
  | OpFlush => flush r
  end.

(** Arguments an operation can be called with: a bulk push is given an
    array of at least [size] elements. *)
Definition op_ok (o : op) : Prop :=
  match o with
  | OpPushBulk data size => 0 <= size <= Z.of_nat (length data)
  | _ => True
  end.

Definition run_ops (os : list op) (r : t) : t := fold_left (fun r o => run_op o r) os r.

End Ring.

Arguments t : clear implicits.
Arguments op : clear implicits.

End CircularBuffer.

(** ** Characters and C strings *)

Definition NUL : ascii := "000"%char.
Definition LF : ascii := "010"%char.
Definition CR : ascii := "013"%char.
Definition GT : ascii := ">"%char.
Definition QUOTE : ascii := "034"%char.

(** The characters of a string literal, without the closing NUL. *)
Definition lit (s : string) : list ascii := list_ascii_of_string s.

(** The C string stored at the start of an array: the characters before
    the first NUL.  The end of the list counts as a NUL. *)
Fixpoint cstr (a : list ascii) : list ascii :=
  match a with
  | [] => []
  | c :: a' => if Ascii.eqb c NUL then [] else c :: cstr a'
  end.

(** [strncmp(a, b, n) == 0]. *)
Fixpoint strncmp0 (a b : list ascii) (n : nat) : bool :=
  match n with
  | O => true
  | S n' =>
      let ca := hd NUL a in
      let cb := hd NUL b in
      if Ascii.eqb ca cb
      then if Ascii.eqb ca NUL then true else strncmp0 (tl a) (tl b) n'
      else false
  end.

Definition is_digit (c : ascii) : bool :=
  (48 <=? Z.of_nat (nat_of_ascii c)) && (Z.of_nat (nat_of_ascii c) <=? 57).

Definition digit_val (c : ascii) : Z := Z.of_nat (nat_of_ascii c) - 48.

Definition digit_char (d : Z) : ascii := ascii_of_nat (Z.to_nat (48 + d)).

(** [isspace] in the C locale. *)
Definition is_space (c : ascii) : bool :=
  let n := Z.of_nat (nat_of_ascii c) in (n =? 32) || ((9 <=? n) && (n <=? 13)).

(** The value of the longest run of decimal digits at the start of [s],
    continuing from [acc]. *)
Fixpoint scan_digits (acc : Z) (s : list ascii) : Z :=
  match s with
  | c :: s' => if is_digit c then scan_digits (10 * acc + digit_val c) s' else acc
  | [] => acc
  end.

Fixpoint skip_spaces (s : list ascii) : list ascii :=
  match s with
  | c :: s' => if is_space c then skip_spaces s' else s
  | [] => []
  end.

(** [sscanf(s, "%d", &x)]: the value stored in [x], or [None] when no
    conversion takes place ([x] is then left as it was) or the digits
    exceed the range of [int]. *)
Definition sscanf_d (s : list ascii) : option Z :=
  let s := skip_spaces s in
  let '(sign, s) :=
    match s with
    | c :: s' => if Ascii.eqb c "-"%char then (-1, s')
                 else if Ascii.eqb c "+"%char then (1, s') else (1, s)
    | [] => (1, s)
    end in
  if is_digit (hd NUL s) then int_arith (sign * scan_digits 0 s) else None.

(** The decimal digits of [n], most significant first; [fuel] bounds
    their number. *)
Fixpoint utoa_aux (fuel : nat) (n : Z) (acc : list ascii) : list ascii :=
  match fuel with
  | O => acc
  | S fuel' =>
      let acc := digit_char (n mod 10) :: acc in
      if n / 10 =? 0 then acc else utoa_aux fuel' (n / 10) acc
  end.

(** The ten digits a 32-bit [unsigned] has at most. *)
Definition utoa (n : Z) : list ascii := utoa_aux 10 n [].

(** [snprintf(buf, size, "%u", n)]: the C string left in [buf], which is
    cut to [size - 1] characters. *)
Definition snprintf_u (size : Z) (n : Z) : list ascii :=
  take (Z.to_nat (size - 1)) (utoa n).

(** *** Quoted tokens of a line *)

(** The number of occurrences of [c] in [l]. *)
Fixpoint count_char (c : ascii) (l : list ascii) : Z :=
  match l with
  | [] => 0
  | x :: l' => (if Ascii.eqb x c then 1 else 0) + count_char c l'
  end.

(** What follows the [n]-th double quote of [l]. *)
Fixpoint after_quotes (n : nat) (l : list ascii) {struct l} : list ascii :=
  match n, l with
  | O, _ => l
  | S _, [] => []
  | S n', c :: l' =>
      if Ascii.eqb c QUOTE then after_quotes n' l' else after_quotes n l'
  end.

(** What precedes the first double quote of [l]. *)
Fixpoint until_quote (l : list ascii) : list ascii :=
  match l with
  | [] => []
  | c :: l' => if Ascii.eqb c QUOTE then [] else c :: until_quote l'
  end.

(** The token between the third and the fourth double quote of a line:
    in a DNS reply, the first quoted token after the host name. *)
Definition third_token (line : list ascii) : list ascii :=
  until_quote (after_quotes 3 line).

(** A double quote turned into a NUL, any other character kept. *)
Definition blank (c : ascii) : ascii := if Ascii.eqb c QUOTE then NUL else c.

(** ** The serial device under the engine *)

(** Modelled from the spec: the interface [IBufferedSerial], whose
    declaration is not part of the sources at hand; these are the
    operations the driver calls on [_serial] (the spec's downward
    interface: [bytesAvailable()], [spaceAvailable()], [read() -> byte],
    [read(buf, max) -> n], [write(bytes) -> n], [flushReceiveBuffers()]). *)
Class IBufferedSerial (S : Type) : Type :=
  { bytesAvailable : S -> Z;
    spaceAvailable : S -> Z;
    (* read() *)
    read : S -> ascii * S;
    (* read(buf, maxSize): the count and the bytes stored in buf *)
    readBuf : Z -> S -> Z * list ascii * S;
    (* write of a NUL-terminated string, given the C string to send *)
    write : list ascii -> S -> Z * S;
    (* write(uint8_t) *)
    writeByte : ascii -> S -> S;
    flushReceiveBuffers : S -> S }.

(** Modelled from the spec: a buffered UART whose receive and transmit
    queues follow the byte-stream contract of the rings.  [rx] holds the
    bytes received and not yet read, oldest first; [tx] the bytes
    accepted for transmission so far; [txSpace] the free space of the
    transmit queue.  A write accepts what fits and drops the rest. *)
Record BufferedSerial : Type := MkSerial
  { rx : list ascii;
    tx : list ascii;
    txSpace : Z }.

Definition set_rx (input : list ascii) (u : BufferedSerial) : BufferedSerial :=
  {| rx := input; tx := tx u; txSpace := txSpace u |}.

Definition bs_write (data : list ascii) (u : BufferedSerial) : Z * BufferedSerial :=
  let sent := take (Z.to_nat (txSpace u)) data in
  (Z.of_nat (length sent),
   {| rx := rx u; tx := tx u ++ sent;
      txSpace := txSpace u - Z.of_nat (length sent) |}).

Definition bs_read (u : BufferedSerial) : ascii * BufferedSerial :=
  (hd NUL (rx u), set_rx (tl (rx u)) u).

Definition bs_readBuf (maxSize : Z) (u : BufferedSerial)
  : Z * list ascii * BufferedSerial :=
  let got := take (Z.to_nat maxSize) (rx u) in
  (Z.of_nat (length got), got, set_rx (drop (Z.to_nat maxSize) (rx u)) u).

#[export] Instance BufferedSerial_serial : IBufferedSerial BufferedSerial :=
  {| bytesAvailable u := Z.of_nat (length (rx u));
     spaceAvailable u := txSpace u;
     read := bs_read;
     readBuf := bs_readBuf;
     write := bs_write;
     writeByte c u := snd (bs_write [c] u);
     flushReceiveBuffers := set_rx [] |}.

(** ** The SIM session engine ([simcommdevice.cpp]) *)

(** Modelled from the spec: the constants of [simcommdevice.h], which is
    not part of the sources at hand: the capacity of the line buffer, the
    masks of the flags packed in [_stateBooleans] and the request tag
    [noRequest]. *)
Class Header : Type :=
  { LINE_MAX_LENGTH : Z;
    LINE_READ : Z;
    RESET_PENDING : Z;
    SERIAL_LOCKED : Z;
    noRequest : ascii }.

(** Modelled from the spec: the connection phase, declared with
    [IPCommDevice] outside the sources at hand. *)
Inductive ConnectState : Type :=
| notConnected
| intermediate
| connecting
| connected
| generalError
| dnsError
| connectionError.

Definition MIN_SPACE_AVAILABLE : Z := 22.

Module SimCommDevice.

Section Engine.

Context {S : Type} {serial : IBufferedSerial S} {header : Header}.

(** Modelled from the spec: the members of [SimCommDevice] and of its
    base [IPCommDevice], whose declarations are not part of the sources
    at hand; these are the members the functions below use.  [_lbFill] is
    as wide as [LINE_MAX_LENGTH] needs; [_ip] is the C string held by the
    session IP field; [_readBuffer] and [_writeBuffer] are the two
    application-facing rings, circular buffers of bytes that follow the
    contract of [CircularBuffer], kept with their capacities
    ([bytesAvailable()] on such a ring is its count of unread bytes). *)
Record t : Type := Build
  { _serial : S;
    _readBufferSize : Z;
    _writeBufferSize : Z;
    _readBuffer : CircularBuffer.t ascii;
    _writeBuffer : CircularBuffer.t ascii;
    _lineBuffer : list ascii;
    _lbFill : Z;
    _sendState : Z;
    _replyState : Z;
    _connectState : ConnectState;
    _bytesToWrite : Z;
    _bytesToReceive : Z;
    _bytesToRead : Z;
    _waitForReply : option string;
    _stateBooleans : Z;
    _rssi : Z;
    _idStringBuffer : list ascii;
    _ip : list ascii }.

Definition set_serial (x : S) (s : t) : t :=
  Build x (_readBufferSize s) (_writeBufferSize s) (_readBuffer s)
    (_writeBuffer s) (_lineBuffer s) (_lbFill s) (_sendState s) (_replyState s)
    (_connectState s) (_bytesToWrite s) (_bytesToReceive s) (_bytesToRead s)
    (_waitForReply s) (_stateBooleans s) (_rssi s) (_idStringBuffer s) (_ip s).

Definition set_writeBuffer (x : CircularBuffer.t ascii) (s : t) : t :=
  Build (_serial s) (_readBufferSize s) (_writeBufferSize s) (_readBuffer s)
    x (_lineBuffer s) (_lbFill s) (_sendState s) (_replyState s)
    (_connectState s) (_bytesToWrite s) (_bytesToReceive s) (_bytesToRead s)
    (_waitForReply s) (_stateBooleans s) (_rssi s) (_idStringBuffer s) (_ip s).

Definition set_lineBuffer (x : list ascii) (s : t) : t :=
  Build (_serial s) (_readBufferSize s) (_writeBufferSize s) (_readBuffer s)
    (_writeBuffer s) x (_lbFill s) (_sendState s) (_replyState s)
    (_connectState s) (_bytesToWrite s) (_bytesToReceive s) (_bytesToRead s)
    (_waitForReply s) (_stateBooleans s) (_rssi s) (_idStringBuffer s) (_ip s).

Definition set_lbFill (x : Z) (s : t) : t :=
  Build (_serial s) (_readBufferSize s) (_writeBufferSize s) (_readBuffer s)
    (_writeBuffer s) (_lineBuffer s) x (_sendState s) (_replyState s)
    (_connectState s) (_bytesToWrite s) (_bytesToReceive s) (_bytesToRead s)
    (_waitForReply s) (_stateBooleans s) (_rssi s) (_idStringBuffer s) (_ip s).

Definition set_connectState (x : ConnectState) (s : t) : t :=
  Build (_serial s) (_readBufferSize s) (_writeBufferSize s) (_readBuffer s)
    (_writeBuffer s) (_lineBuffer s) (_lbFill s) (_sendState s) (_replyState s)
    x (_bytesToWrite s) (_bytesToReceive s) (_bytesToRead s)
    (_waitForReply s) (_stateBooleans s) (_rssi s) (_idStringBuffer s) (_ip s).

Definition set_bytesToWrite (x : Z) (s : t) : t :=
  Build (_serial s) (_readBufferSize s) (_writeBufferSize s) (_readBuffer s)
    (_writeBuffer s) (_lineBuffer s) (_lbFill s) (_sendState s) (_replyState s)
    (_connectState s) x (_bytesToReceive s) (_bytesToRead s)
    (_waitForReply s) (_stateBooleans s) (_rssi s) (_idStringBuffer s) (_ip s).

Definition set_bytesToReceive (x : Z) (s : t) : t :=
  Build (_serial s) (_readBufferSize s) (_writeBufferSize s) (_readBuffer s)
    (_writeBuffer s) (_lineBuffer s) (_lbFill s) (_sendState s) (_replyState s)
    (_connectState s) (_bytesToWrite s) x (_bytesToRead s)
    (_waitForReply s) (_stateBooleans s) (_rssi s) (_idStringBuffer s) (_ip s).

Definition set_bytesToRead (x : Z) (s : t) : t :=
  Build (_serial s) (_readBufferSize s) (_writeBufferSize s) (_readBuffer s)
    (_writeBuffer s) (_lineBuffer s) (_lbFill s) (_sendState s) (_replyState s)
    (_connectState s) (_bytesToWrite s) (_bytesToReceive s) x
    (_waitForReply s) (_stateBooleans s) (_rssi s) (_idStringBuffer s) (_ip s).

Definition set_waitForReply (x : option string) (s : t) : t :=
  Build (_serial s) (_readBufferSize s) (_writeBufferSize s) (_readBuffer s)
    (_writeBuffer s) (_lineBuffer s) (_lbFill s) (_sendState s) (_replyState s)
    (_connectState s) (_bytesToWrite s) (_bytesToReceive s) (_bytesToRead s)
    x (_stateBooleans s) (_rssi s) (_idStringBuffer s) (_ip s).

Definition set_stateBooleans (x : Z) (s : t) : t :=
  Build (_serial s) (_readBufferSize s) (_writeBufferSize s) (_readBuffer s)
    (_writeBuffer s) (_lineBuffer s) (_lbFill s) (_sendState s) (_replyState s)
    (_connectState s) (_bytesToWrite s) (_bytesToReceive s) (_bytesToRead s)
    (_waitForReply s) x (_rssi s) (_idStringBuffer s) (_ip s).

Definition set_ip (x : list ascii) (s : t) : t :=
  Build (_serial s) (_readBufferSize s) (_writeBufferSize s) (_readBuffer s)
    (_writeBuffer s) (_lineBuffer s) (_lbFill s) (_sendState s) (_replyState s)
    (_connectState s) (_bytesToWrite s) (_bytesToReceive s) (_bytesToRead s)
    (_waitForReply s) (_stateBooleans s) (_rssi s) (_idStringBuffer s) x.

(** [_stateBooleans & FLAG], as the condition of an [if]. *)
Definition flag (mask : Z) (s : t) : bool :=
  negb (Z.land (_stateBooleans s) mask =? 0).


(** [serialLock()]. *)
Definition serialLock (s : t) : bool * t :=
  if (match _waitForReply s with Some _ => true | None => false end)
     || negb (_replyState s =? 0)
  then (false, s)
  else (true, set_stateBooleans (Z.lor (_stateBooleans s) SERIAL_LOCKED) s).

(** [serialUnlock()]. *)
Definition serialUnlock (s : t) : t :=
  set_stateBooleans (Z.land (_stateBooleans s) (Z.lnot SERIAL_LOCKED)) s.

(** [serialWrite(data)]. *)
Definition serialWrite (data : list ascii) (s : t) : Z * t :=
  if flag SERIAL_LOCKED s
  then let (n, u) := write (cstr data) (_serial s) in (n, set_serial u s)
  else (0, s).

(** [serialRead(data, maxSize)]: the count, the bytes stored in [data]
    and the state. *)
Definition serialRead (maxSize : Z) (s : t) : Z * list ascii * t :=
  if flag SERIAL_LOCKED s
  then let '(n, got, u) := readBuf maxSize (_serial s) in (n, got, set_serial u s)
  else (0, [], s).

(** The [while (_serial.bytesAvailable())] loop of [fillLineBuffer]: each
    unit of [fuel] pays for one test of the loop condition, and [None] is
    a loop still running when the fuel is spent.  A store outside
    [_lineBuffer] is undefined behaviour in C++ and leaves the list as it
    is here; the array is declared with [LINE_MAX_LENGTH + 1] elements and
    [_lbFill] stays below [LINE_MAX_LENGTH] between calls. *)
Fixpoint fillLineBuffer_loop (fuel : nat) (s : t) : option (bool * t) :=
  match fuel with
  | O => None
  | Datatypes.S fuel' =>
      if bytesAvailable (_serial s) =? 0 then Some (false, s)
      else
        let (c, u) := read (_serial s) in
        let s := set_serial u s in
        let s := set_lineBuffer (<[Z.to_nat (_lbFill s) := c]> (_lineBuffer s)) s in
        let s := set_lbFill (_lbFill s + 1) s in
        if Ascii.eqb c LF || Ascii.eqb c GT || (_lbFill s =? LINE_MAX_LENGTH)
        then
          let s := set_lineBuffer (<[Z.to_nat (_lbFill s) := NUL]> (_lineBuffer s)) s in
          let s := set_lbFill 0 s in
          Some (true, s)
        else fillLineBuffer_loop fuel' s
  end.

(** [fillLineBuffer()]. *)
Definition fillLineBuffer (fuel : nat) (s : t) : option (bool * t) :=
  if flag LINE_READ s then fillLineBuffer_loop fuel s else Some (false, s).

(** The first loop of [parseDnsReply], over [uint8_t i, q]:
    [while (_lineBuffer[i]) if (_lineBuffer[i++] == QUOTE) q++;].
    [None] is a read outside the array or a loop that never ends: [i]
    wraps at 256, so a loop that has not met a NUL after 256 characters
    meets none later. *)
Fixpoint count_quotes (fuel : nat) (buf : list ascii) (i q : Z) : option Z :=
  match fuel with
  | O => None
  | Datatypes.S fuel' =>
      match buf !! Z.to_nat i with
      | None => None
      | Some c =>
          if Ascii.eqb c NUL then Some q
          else count_quotes fuel' buf (u8 (i + 1))
                 (if Ascii.eqb c QUOTE then u8 (q + 1) else q)
      end
  end.

(** The second loop: [while (q < 3) if (_lineBuffer[i++] == QUOTE) q++;].
    The result is [i] at the exit. *)
Fixpoint skip_quotes (fuel : nat) (buf : list ascii) (i q : Z) : option Z :=
  match fuel with
  | O => None
  | Datatypes.S fuel' =>
      if q <? 3 then
        match buf !! Z.to_nat i with
        | None => None
        | Some c =>
            skip_quotes fuel' buf (u8 (i + 1))
              (if Ascii.eqb c QUOTE then u8 (q + 1) else q)
        end
      else Some i
  end.

(** The third loop:
    [while (_lineBuffer[i]) { if (_lineBuffer[i] == QUOTE) _lineBuffer[i] = 0; i++; }].
    The result is the array at the exit. *)
Fixpoint blank_quotes (fuel : nat) (buf : list ascii) (i : Z) : option (list ascii) :=
  match fuel with
  | O => None
  | Datatypes.S fuel' =>
      match buf !! Z.to_nat i with
      | None => None
      | Some c =>
          if Ascii.eqb c NUL then Some buf
          else blank_quotes fuel'
                 (if Ascii.eqb c QUOTE then <[Z.to_nat i := NUL]> buf else buf)
                 (u8 (i + 1))
      end
  end.

(** [parseDnsReply()].  [None] is undefined behaviour or a loop that does
    not end.  The three loops get the fuel that lets every terminating
    run finish: a run of the first that meets no NUL in 256 steps, of the
    second that meets no third quote in three rounds of 256, or of the
    third that meets no NUL in two rounds of 256 (the first round may
    still turn a quote into the NUL that ends the second), repeats
    forever. *)
Definition parseDnsReply (s : t) : option (bool * t) :=
  if strncmp0 (_lineBuffer s) (lit "+CDNSGIP: 1" ++ [NUL]) 11 then
    match count_quotes 257 (_lineBuffer s) 0 0 with
    | None => None
    | Some q =>
        if (q <? 4) || (10 <? q) then Some (false, set_connectState dnsError s)
        else
          match skip_quotes 769 (_lineBuffer s) 0 0 with
          | None => None
          | Some i =>
              match blank_quotes 513 (_lineBuffer s) i with
              | None => None
              | Some buf =>
                  let s := set_lineBuffer buf s in
                  let tmpStr := drop (Z.to_nat i) (_lineBuffer s) in
                  Some (true, set_ip (cstr tmpStr) s)
              end
          end
    end
  else if strncmp0 (_lineBuffer s) (lit "+CDNSGIP: 0" ++ [NUL]) 11 then
    Some (false, set_stateBooleans (Z.lor (_stateBooleans s) RESET_PENDING) s)
  else Some (false, s).

(** [_bytesToReceive += n] and the like: the [Size] operand is promoted
    to [int], the sum is an [int] and is stored back modulo 2^16. *)
Definition size_add (a n : Z) : option Z :=
  match int_arith (a + n) with Some r => Some (u16 r) | None => None end.

Definition size_sub (a n : Z) : option Z :=
  match int_arith (a - n) with Some r => Some (u16 r) | None => None end.

(** [parseCiprxget4()].  [None] is undefined behaviour: the local
    [int bytesToReceive] is read without a value when [sscanf] converts
    nothing. *)
Definition parseCiprxget4 (s : t) : option (bool * t) :=
  if strncmp0 (_lineBuffer s) (lit "+CIPRXGET: 4,0," ++ [NUL]) 15 then
    match sscanf_d (drop 15 (_lineBuffer s)) with
    | None => None
    | Some bytesToReceive =>
        match size_add (_bytesToReceive s) bytesToReceive with
        | None => None
        | Some r => Some (true, set_bytesToReceive r s)
        end
    end
  else Some (false, s).

(** [parseCiprxget2()]. *)
Definition parseCiprxget2 (s : t) : option (bool * t) :=
  if strncmp0 (_lineBuffer s) (lit "+CIPRXGET: 2,0," ++ [NUL]) 15 then
    match sscanf_d (drop 15 (_lineBuffer s)) with
    | None => None
    | Some bytesToReceive =>
        match size_sub (_bytesToReceive s) bytesToReceive,
              size_add (_bytesToRead s) bytesToReceive with
        | Some r, Some d =>
            let s := set_bytesToReceive r s in
            let s := set_bytesToRead d s in
            Some (true,
                  set_stateBooleans (Z.land (_stateBooleans s) (Z.lnot LINE_READ)) s)
        | _, _ => None
        end
    end
  else Some (false, s).

(** [prepareSending()].  [_writeBuffer.bytesAvailable()] is the ring's
    count of unread elements. *)
Definition prepareSending (s : t) : bool * t :=
  if spaceAvailable (_serial s) <? MIN_SPACE_AVAILABLE then (false, s)
  else
    let s := set_bytesToWrite (CircularBuffer.availableData (_writeBuffer s)) s in
    let s :=
      if spaceAvailable (_serial s) - MIN_SPACE_AVAILABLE <? _bytesToWrite s
      then set_bytesToWrite (u16 (spaceAvailable (_serial s) - MIN_SPACE_AVAILABLE)) s
      else s in
    let s := set_serial (snd (write (lit "AT+CIPSEND=0,") (_serial s))) s in
    let sizeStr := snprintf_u 6 (_bytesToWrite s) in
    let s := set_serial (snd (write sizeStr (_serial s))) s in
    let s := set_waitForReply (Some ">"%string) s in
    (true, s).

(** [sendData()]: [while (_bytesToWrite--) _serial.write(_writeBuffer.pull());].
    Each unit of [fuel] pays for one test of the loop condition, which
    also decrements the counter. *)
Fixpoint sendData (fuel : nat) (s : t) : option t :=
  match fuel with
  | O => None
  | Datatypes.S fuel' =>
      let c := _bytesToWrite s in
      let s := set_bytesToWrite (u16 (c - 1)) s in
      if c =? 0 then Some s
      else
        let (x, r) := CircularBuffer.pull NUL (_writeBufferSize s) (_writeBuffer s) in
        let s := set_writeBuffer r s in
        let s := set_serial (writeByte x (_serial s)) s in
        sendData fuel' s
  end.

(** The bytes [sendData] hands to the UART, one [write] each. *)
Definition write_all (xs : list ascii) (u : S) : S :=
  fold_left (fun u x => writeByte x u) xs u.

(** The characters that end a line: the line feed and the prompt. *)
Definition is_terminator (c : ascii) : Prop := c = LF \/ c = GT.

(** What holds of the line reader between two calls: the cursor is
    inside the line, the array has room for the line and its NUL, and no
    character collected so far ends a line. *)
Definition line_inv (s : t) : Prop :=
  0 <= _lbFill s < LINE_MAX_LENGTH /\
  LINE_MAX_LENGTH < Z.of_nat (length (_lineBuffer s)) /\
  Forall (fun c => ~ is_terminator c) (take (Z.to_nat (_lbFill s)) (_lineBuffer s)).

End Engine.

Arguments t : clear implicits.

End SimCommDevice.

(** ** A configuration to run the engine on *)

(** A line buffer of 60 characters and one bit of the flag word per
    flag. *)
Definition sample_header : Header :=
  {| LINE_MAX_LENGTH := 60; LINE_READ := 1; RESET_PENDING := 32;
     SERIAL_LOCKED := 64; noRequest := "004"%char |}.

(** An array holding the C string [l] in [n + 1] elements. *)
Definition c_array (n : nat) (l : list ascii) : list ascii :=
  l ++ replicate (n + 1 - length l) NUL.

(** The engine as its constructor leaves it, over the UART [u], with
    rings of eight bytes, and then with [line] in the line buffer and
    [out] pushed into the write ring. *)
Definition sample_device (u : BufferedSerial) (line out : list ascii)
  : SimCommDevice.t BufferedSerial :=
  {| SimCommDevice._serial := u;
     SimCommDevice._readBufferSize := 8;
     SimCommDevice._writeBufferSize := 8;
     SimCommDevice._readBuffer := CircularBuffer.empty NUL 8;
     SimCommDevice._writeBuffer :=
       snd (CircularBuffer.push_bulk 8 out (Z.of_nat (length out))
              (CircularBuffer.empty NUL 8));
     SimCommDevice._lineBuffer := c_array 60 line;
     SimCommDevice._lbFill := 0;
     SimCommDevice._sendState := 0;
     SimCommDevice._replyState := 0;
     SimCommDevice._connectState := connecting;
     SimCommDevice._bytesToWrite := 0;
     SimCommDevice._bytesToReceive := 0;
     SimCommDevice._bytesToRead := 0;
     SimCommDevice._waitForReply := None;
     SimCommDevice._stateBooleans := 1;
     SimCommDevice._rssi := 99;
     SimCommDevice._idStringBuffer := c_array 23 [];
     SimCommDevice._ip := [] |}.

(** The reply [+CDNSGIP: 1,<q>host<q>,<q>1.2.3.4<q>] with its line end,
    [<q>] being the double quote, and what follows [+CDNSGIP: 1] in it. *)
Definition dns_reply_tail : list ascii :=
  lit "," ++ [QUOTE] ++ lit "host" ++ [QUOTE] ++ lit "," ++ [QUOTE] ++
  lit "1.2.3.4" ++ [QUOTE] ++ [CR; LF].

Definition dns_reply : list ascii := lit "+CDNSGIP: 1" ++ dns_reply_tail.

(** An idle UART with [n] bytes of transmit space and [input] waiting to
    be read. *)
Definition sample_uart (input : list ascii) (n : Z) : BufferedSerial :=
  {| rx := input; tx := []; txSpace := n |}.

(** ** The circular buffer as a queue *)

Module RingQueue.

Section Queue.

Context {T : Type}.
Variable T0 : T.
Variable BUFFER_SIZE : Z.

(** What an operation does to the list of unread elements of a ring of
    capacity [BUFFER_SIZE] when the ring behaves as a queue. *)
Definition queue_step (o : CircularBuffer.op T) (q : list T) : list T :=
  match o with
  | CircularBuffer.OpPushBulk data size =>
      q ++ take (Z.to_nat (Z.min size (BUFFER_SIZE - Z.of_nat (length q)))) data
  | CircularBuffer.OpPush x => q ++ [x]
  | CircularBuffer.OpPullBulk size => drop (Z.to_nat (Z.min size (Z.of_nat (length q)))) q
  | CircularBuffer.OpPull => tl q
  | CircularBuffer.OpRead => q
  | CircularBuffer.OpFlush => []
  end.

(** The calls that keep within the room of the ring: a single-element
    push finds a free slot and a single-element pull finds an element. *)
Definition in_room (o : CircularBuffer.op T) (r : CircularBuffer.t T) : Prop :=
  match o with
  | CircularBuffer.OpPushBulk data size => 0 <= size <= Z.of_nat (length data)
  | CircularBuffer.OpPush _ => CircularBuffer._availableData r < BUFFER_SIZE
  | CircularBuffer.OpPull => 0 < CircularBuffer._availableData r
  | _ => True
  end.

(** Every call of a sequence keeps within the room, at the ring it
    finds. *)
Fixpoint all_in_room (os : list (CircularBuffer.op T)) (r : CircularBuffer.t T) : Prop :=
  match os with
  | [] => True
  | o :: os' =>
      in_room o r /\ all_in_room os' (CircularBuffer.run_op T0 BUFFER_SIZE o r)
  end.

(** Bulk pushes of the chunks of a list, one after the other, each with
    its full length. *)
Fixpoint push_chunks (chunks : list (list T)) (r : CircularBuffer.t T)
  : CircularBuffer.t T :=
  match chunks with
  | [] => r
  | c :: chunks' =>
      push_chunks chunks'
        (snd (CircularBuffer.push_bulk BUFFER_SIZE c (Z.of_nat (length c)) r))
  end.

End Queue.

End RingQueue.

(** ** The rest of the session engine ([simcommdevice.cpp]) *)

(** [unsigned int] on the 32-bit targets of the driver. *)
Definition UINT_MAX : Z := 4294967295.

(** [sscanf(s, "%u", &x)]: [Some (Some v)] when [v] is stored in [x],
    [Some None] when no conversion takes place ([x] is left as it was and
    the call does not return 1), [None] when the behaviour is undefined:
    the digits exceed the range of [unsigned int].  After a minus sign
    the value is negated in the unsigned type, as [strtoul] does: [-1]
    is read as [UINT_MAX]. *)
Definition sscanf_u (s : list ascii) : option (option Z) :=
  let s := skip_spaces s in
  let '(minus, s) :=
    match s with
    | c :: s' => if Ascii.eqb c "-"%char then (true, s')
                 else if Ascii.eqb c "+"%char then (false, s') else (false, s)
    | [] => (false, s)
    end in
  if is_digit (hd NUL s) then
    let v := scan_digits 0 s in
    if v <=? UINT_MAX
    then Some (Some (if minus then (UINT_MAX + 1 - v) mod (UINT_MAX + 1) else v))
    else None
  else Some None.

(** Modelled from the spec: further constants of [simcommdevice.h], which
    is not part of the sources at hand: the capacity of the identity
    buffer, the masks of four more flags and the tags of the identity
    requests. *)
Class EngineConstants : Type :=
  { IDSTRING_MAX_LENGTH : Z;
    IP_CONNECTED : Z;
    DATA_PENDING : Z;
    DISCONNECT_PENDING : Z;
    CONNECT_PENDING : Z;
    manufacturer : ascii;
    model : ascii;
    imei : ascii;
    imsi : ascii }.

(** Modelled from the spec: two more operations of [IBufferedSerial],
    used by [sendCiprxget2]: [readBufferSize()] and
    [write(data, size)]. *)
Class IBufferedSerialWindow (S : Type) : Type :=
  { readBufferSize : S -> Z;
    writeBuf : list ascii -> Z -> S -> Z * S }.

(** The buffered UART with a receive queue of [capacity] bytes. *)
Definition BufferedSerial_window (capacity : Z) : IBufferedSerialWindow BufferedSerial :=
  {| readBufferSize _ := capacity;
     writeBuf data size u := bs_write (take (Z.to_nat size) data) u |}.

Module SimEngine.

Import SimCommDevice.

Section Engine.

Context {S : Type} {serial : IBufferedSerial S} {window : IBufferedSerialWindow S}
        {header : Header} {constants : EngineConstants}.

Definition set_readBuffer (x : CircularBuffer.t ascii) (s : t S) : t S :=
  SimCommDevice.Build (_serial s) (_readBufferSize s) (_writeBufferSize s) x
    (_writeBuffer s) (_lineBuffer s) (_lbFill s) (_sendState s) (_replyState s)
    (_connectState s) (_bytesToWrite s) (_bytesToReceive s) (_bytesToRead s)
    (_waitForReply s) (_stateBooleans s) (_rssi s) (_idStringBuffer s) (_ip s).

Definition set_sendState (x : Z) (s : t S) : t S :=
  SimCommDevice.Build (_serial s) (_readBufferSize s) (_writeBufferSize s)
    (_readBuffer s) (_writeBuffer s) (_lineBuffer s) (_lbFill s) x (_replyState s)
    (_connectState s) (_bytesToWrite s) (_bytesToReceive s) (_bytesToRead s)
    (_waitForReply s) (_stateBooleans s) (_rssi s) (_idStringBuffer s) (_ip s).

Definition set_rssi (x : Z) (s : t S) : t S :=
  SimCommDevice.Build (_serial s) (_readBufferSize s) (_writeBufferSize s)
    (_readBuffer s) (_writeBuffer s) (_lineBuffer s) (_lbFill s) (_sendState s)
    (_replyState s) (_connectState s) (_bytesToWrite s) (_bytesToReceive s)
    (_bytesToRead s) (_waitForReply s) (_stateBooleans s) x (_idStringBuffer s)
    (_ip s).

Definition set_idStringBuffer (x : list ascii) (s : t S) : t S :=
  SimCommDevice.Build (_serial s) (_readBufferSize s) (_writeBufferSize s)
    (_readBuffer s) (_writeBuffer s) (_lineBuffer s) (_lbFill s) (_sendState s)
    (_replyState s) (_connectState s) (_bytesToWrite s) (_bytesToReceive s)
    (_bytesToRead s) (_waitForReply s) (_stateBooleans s) (_rssi s) x (_ip s).

(** [requestRSSI()]: [_rssi = UINT8_MAX]. *)
Definition requestRSSI (s : t S) : t S := set_rssi 255 s.

(** [getRSSI()]. *)
Definition getRSSI (s : t S) : Z := _rssi s.

(** [requestIDString(type)]. *)
Definition requestIDString (type : ascii) (s : t S) : t S :=
  set_idStringBuffer (<[1%nat := type]> (<[0%nat := NUL]> (_idStringBuffer s))) s.

(** [getIDString()]. *)
Definition getIDString (s : t S) : list ascii := _idStringBuffer s.

(** [parseCsq()].  [_rssi] is the [uint8_t] that [getRSSI] returns: the
    [unsigned int] read is stored modulo 2^8.  [None] is undefined
    behaviour in [sscanf]. *)
Definition parseCsq (s : t S) : option (bool * t S) :=
  if strncmp0 (_lineBuffer s) (lit "+CSQ: " ++ [NUL]) 6 then
    match sscanf_u (drop 6 (_lineBuffer s)) with
    | None => None
    | Some (Some rssi) => Some (true, set_rssi (u8 rssi) s)
    | Some None => Some (true, s)
    end
  else Some (false, s).

(** The loop of [parseIDReply]:
    [while ( *src != CR && copiedChars < IDSTRING_MAX_LENGTH - 1)
       _idStringBuffer[copiedChars++] = *src++;]
    with [src] the rest of the line buffer.  The loop reads [*src] before
    it looks at the count; [None] is a read past the end of the array.  A
    store outside [_idStringBuffer] leaves the list as it is; the array
    is declared with [IDSTRING_MAX_LENGTH] elements. *)
Fixpoint copy_id (src dst : list ascii) (copiedChars : Z) : option (list ascii * Z) :=
  match src with
  | [] => None
  | c :: src' =>
      if negb (Ascii.eqb c CR) && (copiedChars <? IDSTRING_MAX_LENGTH - 1)
      then copy_id src' (<[Z.to_nat copiedChars := c]> dst) (copiedChars + 1)
      else Some (dst, copiedChars)
  end.

(** [parseIDReply()]. *)
Definition parseIDReply (s : t S) : option (bool * t S) :=
  if strncmp0 (_lineBuffer s) (lit "AT" ++ [NUL]) 2
     || Ascii.eqb (hd NUL (_lineBuffer s)) CR
  then Some (false, s)
  else
    match copy_id (_lineBuffer s) (_idStringBuffer s) 0 with
    | None => None
    | Some (dst, copiedChars) =>
        Some (true, set_idStringBuffer (<[Z.to_nat copiedChars := NUL]> dst) s)
    end.

(** The loop of [flushReadBuffer]:
    [while (_bytesToRead && _serial.bytesAvailable()) { _serial.read(); _bytesToRead--; }].
    Each unit of [fuel] pays for one test of the loop condition. *)
Fixpoint flushReadBuffer_loop (fuel : nat) (s : t S) : option (t S) :=
  match fuel with
  | O => None
  | Datatypes.S fuel' =>
      if negb (_bytesToRead s =? 0) && negb (bytesAvailable (_serial s) =? 0)
      then
        let (_, u) := read (_serial s) in
        let s := set_serial u s in
        flushReadBuffer_loop fuel' (set_bytesToRead (u16 (_bytesToRead s - 1)) s)
      else Some s
  end.

(** [flushReadBuffer()]. *)
Definition flushReadBuffer (fuel : nat) (s : t S) : option (t S) :=
  match flushReadBuffer_loop fuel s with
  | None => None
  | Some s =>
      let s := set_bytesToReceive 0 s in
      Some (if _bytesToRead s =? 0
            then set_stateBooleans (Z.lor (_stateBooleans s) LINE_READ) s
            else s)
  end.

(** [handleDisconnect(nextState)]. *)
Definition handleDisconnect (nextState : Z) (s : t S) : bool * t S :=
  if flag DISCONNECT_PENDING s then
    let s := set_stateBooleans
               (Z.land (_stateBooleans s) (Z.lnot DISCONNECT_PENDING)) s in
    (true, set_sendState nextState s)
  else (false, s).

(** [handleConnect(nextState)]. *)
Definition handleConnect (nextState : Z) (s : t S) : bool * t S :=
  if flag CONNECT_PENDING s then
    let s := set_stateBooleans
               (Z.land (_stateBooleans s) (Z.lnot CONNECT_PENDING)) s in
    (true, set_sendState nextState s)
  else (false, s).

(** [sendDnsQuery()].  [_host], a member of [IPCommDevice], is given as
    the array that holds the host name. *)
Definition sendDnsQuery (_host : list ascii) (s : t S) : bool * t S :=
  if spaceAvailable (_serial s) <? Z.of_nat (length (cstr _host)) + 20
  then (false, s)
  else
    let s := set_serial (snd (write (lit "AT+CDNSGIP=" ++ [QUOTE]) (_serial s))) s in
    let s := set_serial (snd (write (cstr _host) (_serial s))) s in
    let s := set_serial (snd (write [QUOTE; CR; LF] (_serial s))) s in
    (true, s).

(** [sendCiprxget2()].  [_modemMaxReceiveSize], a member set by the
    dialect, is given as an argument; [_readBuffer.spaceAvailable()] is
    the free space of the read ring.  [sprintf] with [%u] writes all the
    digits of its argument, five at most for a [Size]. *)
Definition sendCiprxget2 (_modemMaxReceiveSize : Z) (s : t S) : bool * t S :=
  if (8 <? readBufferSize (_serial s) - bytesAvailable (_serial s))
     && (0 <? CircularBuffer.availableSpace (_readBufferSize s) (_readBuffer s))
  then
    let bytesToReceive :=
      u16 (readBufferSize (_serial s) - bytesAvailable (_serial s) - 8) in
    let bytesToReceive :=
      if _bytesToReceive s <? bytesToReceive then _bytesToReceive s
      else bytesToReceive in
    let bytesToReceive :=
      if CircularBuffer.availableSpace (_readBufferSize s) (_readBuffer s)
         <? bytesToReceive
      then CircularBuffer.availableSpace (_readBufferSize s) (_readBuffer s)
      else bytesToReceive in
    let bytesToReceive :=
      if _modemMaxReceiveSize <? bytesToReceive then _modemMaxReceiveSize
      else bytesToReceive in
    let s := set_serial (snd (writeBuf (lit "AT+CIPRXGET=2,0," ++ [NUL]) 16 (_serial s))) s in
    let s := set_serial (snd (write (utoa bytesToReceive) (_serial s))) s in
    let s := set_serial (snd (write [CR; LF] (_serial s))) s in
    (true, s)
  else (false, s).

(** [checkConnectionState(closeVariant)], [closeVariant] being the array
    that holds the close notification of the dialect. *)
Definition checkConnectionState (closeVariant : list ascii) (s : t S) : t S :=
  if strncmp0 (_lineBuffer s) (lit "+CIPRXGET: 1,0" ++ [NUL]) 14 then
    set_stateBooleans (Z.lor (_stateBooleans s) DATA_PENDING) s
  else if strncmp0 (_lineBuffer s) closeVariant (length (cstr closeVariant)) then
    let s := set_waitForReply None s in
    set_stateBooleans (Z.land (_stateBooleans s) (Z.lnot IP_CONNECTED)) s
  else s.

(** The [while (_bytesToRead)] loop of [receive]:
    [_readBuffer.push(_serial.read()); _bytesToRead--;].  Each unit of
    [fuel] pays for one test of the loop condition. *)
Fixpoint receive_loop (fuel : nat) (s : t S) : option (t S) :=
  match fuel with
  | O => None
  | Datatypes.S fuel' =>
      if _bytesToRead s =? 0 then Some s
      else
        let (c, u) := read (_serial s) in
        let s := set_serial u s in
        let s := set_readBuffer
                   (CircularBuffer.push (_readBufferSize s) c (_readBuffer s)) s in
        receive_loop fuel' (set_bytesToRead (u16 (_bytesToRead s - 1)) s)
  end.

(** [receive()]. *)
Definition receive (fuel : nat) (s : t S) : option (bool * t S) :=
  if _bytesToRead s <=? bytesAvailable (_serial s) then
    match receive_loop fuel s with
    | None => None
    | Some s =>
        Some (true, set_stateBooleans (Z.lor (_stateBooleans s) LINE_READ) s)
    end
  else Some (false, s).

(** [sendCommand(cmd)], [cmd] being the array that holds the command. *)
Definition sendCommand (cmd : list ascii) (s : t S) : t S :=
  let s := set_serial (snd (write (cstr cmd) (_serial s))) s in
  set_serial (snd (write [CR; LF] (_serial s))) s.

(** [sendIDRequest()].  The cases of the [switch] are tried in the order
    of the source. *)
Definition sendIDRequest (s : t S) : bool * t S :=
  if negb (Ascii.eqb (nth 1 (_idStringBuffer s) NUL) noRequest)
     && Ascii.eqb (nth 0 (_idStringBuffer s) NUL) NUL
     && flag LINE_READ s
  then
    let type := nth 1 (_idStringBuffer s) NUL in
    let s := set_idStringBuffer (<[1%nat := noRequest]> (_idStringBuffer s)) s in
    if Ascii.eqb type manufacturer then (true, sendCommand (lit "AT+CGMI" ++ [NUL]) s)
    else if Ascii.eqb type model then (true, sendCommand (lit "AT+CGMM" ++ [NUL]) s)
    else if Ascii.eqb type imei then (true, sendCommand (lit "AT+CGSN" ++ [NUL]) s)
    else if Ascii.eqb type imsi then (true, sendCommand (lit "AT+CIMI" ++ [NUL]) s)
    else (false, s)
  else (false, s).

End Engine.

End SimEngine.

(** Constants to run the rest of the engine on: an identity buffer of 24
    characters, one bit per flag and one tag per request. *)
Definition sample_constants : EngineConstants :=
  {| IDSTRING_MAX_LENGTH := 24; IP_CONNECTED := 2; DATA_PENDING := 4;
     DISCONNECT_PENDING := 8; CONNECT_PENDING := 16;
     manufacturer := "000"%char; model := "001"%char; imei := "002"%char;
     imsi := "003"%char |}.

(** * Part II: lemmas *)

(** ** Arithmetic *)

Lemma u16_small z : 0 <= z < 65536 -> u16 z = z.
Proof. intros Hz. unfold u16. now apply Z.mod_small. Qed.

Lemma u8_small z : 0 <= z < 256 -> u8 z = z.
Proof. intros Hz. unfold u8. now apply Z.mod_small. Qed.

(** Reduction of a number that overshoots the modulus at most once. *)
Lemma mod_once n x : 0 < n -> 0 <= x < 2 * n ->
  x mod n = if x <? n then x else x - n.
Proof.
  intros Hn Hx. destruct (x <? n) eqn:E.
  - apply Z.ltb_lt in E. apply Z.mod_small. lia.
  - apply Z.ltb_ge in E.
    replace x with ((x - n) + 1 * n) at 1 by lia.
    rewrite Z.mod_add by lia. apply Z.mod_small. lia.
Qed.

(** Two offsets from the same head reach different slots of the ring. *)
Lemma ring_slots_apart n h j k :
  0 < n -> 0 <= h < n -> 0 <= j < k -> k < n ->
  (h + j) mod n <> (h + k) mod n.
Proof.
  intros Hn Hh Hj Hk.
  rewrite !mod_once by lia.
  destruct (h + j <? n) eqn:E1, (h + k <? n) eqn:E2;
    try apply Z.ltb_lt in E1; try apply Z.ltb_ge in E1;
    try apply Z.ltb_lt in E2; try apply Z.ltb_ge in E2; lia.
Qed.

(** ** The circular buffer *)

Module RingFacts.

Import CircularBuffer.

Section Facts.

Context {T : Type}.
Variable T0 : T.
Variable N : Z.
Hypothesis HN : 0 < N < 65536.

Local Abbreviation ring := (CircularBuffer.t T).
Local Abbreviation incr := (incrementOrResetHead N).

Lemma incr_mod h : 0 <= h < N -> incr h = (h + 1) mod N.
Proof.
  intros Hh. unfold incrementOrResetHead.
  rewrite u16_small by lia.
  destruct (N <=? h + 1) eqn:E.
  - apply Z.leb_le in E. replace (h + 1) with N by lia.
    now rewrite Z.mod_same by lia.
  - apply Z.leb_gt in E. now rewrite Z.mod_small by lia.
Qed.

Lemma incr_range h : 0 <= h < N -> 0 <= incr h < N.
Proof. intros Hh. rewrite incr_mod by done. apply Z.mod_pos_bound. lia. Qed.

Lemma wf_empty : wf N (empty T0 N).
Proof.
  split; simpl; try lia.
  rewrite length_replicate. lia.
Qed.

Lemma wf_store x (r : ring) : wf N r -> wf N (store N x r).
Proof.
  intros [Hw Hr Ha Hb]. split; simpl; auto using incr_range.
  now rewrite length_insert.
Qed.

Lemma wf_fetch (r : ring) : wf N r -> wf N (snd (fetch T0 N r)).
Proof. intros [Hw Hr Ha Hb]. split; simpl; auto using incr_range. Qed.

Lemma wf_set_availableData a (r : ring) :
  wf N r -> 0 <= a <= N -> wf N (set_availableData a r).
Proof. intros [Hw Hr Ha Hb] Hrange. split; simpl; auto. Qed.

Lemma push_loop_frame xs : forall r : ring,
  _readHead (push_loop N xs r) = _readHead r /\
  _availableData (push_loop N xs r) = _availableData r.
Proof.
  induction xs as [|x xs IH]; intros r; simpl; [done|].
  destruct (IH (store N x r)) as [-> ->]. done.
Qed.

Lemma wf_push_loop xs : forall r : ring, wf N r -> wf N (push_loop N xs r).
Proof.
  induction xs as [|x xs IH]; intros r Hr; simpl; auto using wf_store.
Qed.

Lemma pull_loop_frame n : forall r : ring,
  _writeHead (snd (pull_loop T0 N n r)) = _writeHead r /\
  _availableData (snd (pull_loop T0 N n r)) = _availableData r /\
  _buffer (snd (pull_loop T0 N n r)) = _buffer r /\
  length (fst (pull_loop T0 N n r)) = n.
Proof.
  induction n as [|n IH]; intros r; simpl; [done|].
  specialize (IH (snd (fetch T0 N r))).
  unfold fetch in *. simpl in *.
  destruct (pull_loop T0 N n _) as [xs r']. simpl in *.
  destruct IH as (-> & -> & -> & ->). done.
Qed.

Lemma wf_pull_loop n : forall r : ring,
  wf N r -> wf N (snd (pull_loop T0 N n r)).
Proof.
  induction n as [|n IH]; intros r Hr; simpl; [done|].
  specialize (IH _ (wf_fetch r Hr)).
  unfold fetch in *. simpl in *.
  destruct (pull_loop T0 N n _) as [xs r']. done.
Qed.

Lemma availableSpace_eq (r : ring) :
  wf N r -> availableSpace N r = N - _availableData r.
Proof.
  intros [_ _ Ha _]. unfold availableSpace. apply u16_small. lia.
Qed.

(** The count a bulk push copies: the request, cut to the free space. *)
Lemma push_bulk_count data size (r : ring) :
  wf N r -> 0 <= size <= Z.of_nat (length data) ->
  fst (push_bulk N data size r) = Z.min size (availableSpace N r).
Proof.
  intros Hr Hs. unfold push_bulk. simpl.
  rewrite availableSpace_eq by done.
  destruct Hr as [_ _ Ha _].
  rewrite length_take.
  destruct (N - _availableData r <? size) eqn:E;
    [apply Z.ltb_lt in E | apply Z.ltb_ge in E]; lia.
Qed.

Lemma push_bulk_available data size (r : ring) :
  wf N r -> 0 <= size ->
  _availableData (snd (push_bulk N data size r)) =
    _availableData r + fst (push_bulk N data size r) /\
  _availableData r + fst (push_bulk N data size r) <= N.
Proof.
  intros Hr Hs. unfold push_bulk. simpl.
  rewrite availableSpace_eq by done.
  destruct (push_loop_frame (take (Z.to_nat
     (if N - _availableData r <? size then N - _availableData r else size)) data) r)
    as [_ ->].
  destruct Hr as [_ _ Ha _].
  rewrite length_take.
  assert (Hle : _availableData r + Z.of_nat (Z.to_nat
     (if N - _availableData r <? size then N - _availableData r else size)
     `min` length data) <= N).
  { destruct (N - _availableData r <? size) eqn:E;
      [apply Z.ltb_lt in E | apply Z.ltb_ge in E]; lia. }
  split; [|exact Hle].
  apply u16_small. lia.
Qed.

Lemma wf_push_bulk data size (r : ring) :
  wf N r -> 0 <= size -> wf N (snd (push_bulk N data size r)).
Proof.
  intros Hr Hs.
  pose proof (push_bulk_available data size r Hr Hs) as [Ha Hle].
  assert (H0 : 0 <= fst (push_bulk N data size r)) by (simpl; lia).
  destruct (wf_available _ _ Hr) as [Hlo _].
  unfold push_bulk in *. simpl in *.
  split; simpl; try apply (wf_push_loop _ r Hr).
  rewrite Ha. lia.
Qed.

Lemma wf_push x (r : ring) : wf N r -> wf N (push N x r).
Proof.
  intros Hr. unfold push.
  pose proof (wf_store x r Hr) as Hs.
  destruct (_availableData (store N x r) <? N) eqn:E; [|done].
  apply Z.ltb_lt in E. destruct (wf_available _ _ Hs).
  apply wf_set_availableData; [done|].
  rewrite u16_small by lia. lia.
Qed.

Lemma wf_pull (r : ring) : wf N r -> wf N (snd (pull T0 N r)).
Proof.
  intros Hr. unfold pull.
  pose proof (wf_fetch r Hr) as Hs. unfold fetch in *. simpl in *.
  destruct (0 <? _availableData r) eqn:E; [|done].
  apply Z.ltb_lt in E. destruct (wf_available _ _ Hr).
  apply wf_set_availableData; [done|]. simpl.
  rewrite u16_small by lia. lia.
Qed.

Lemma wf_pull_bulk size (r : ring) : wf N r -> wf N (snd (pull_bulk T0 N size r)).
Proof.
  intros Hr. unfold pull_bulk, availableData.
  set (n := if _availableData r <? size then _availableData r else size).
  pose proof (wf_pull_loop (Z.to_nat n) r Hr) as Hs.
  pose proof (pull_loop_frame (Z.to_nat n) r) as (_ & Ha & _ & Hlen).
  destruct (pull_loop T0 N (Z.to_nat n) r) as [out r']. simpl in *.
  destruct (wf_available _ _ Hr).
  assert (Hn : n <= _availableData r).
  { subst n. destruct (_availableData r <? size) eqn:E;
      [apply Z.ltb_lt in E | apply Z.ltb_ge in E]; lia. }
  apply wf_set_availableData; [done|].
  rewrite Ha, Hlen, u16_small by lia. lia.
Qed.

Lemma wf_flush (r : ring) : wf N r -> wf N (flush r).
Proof. intros [Hw Hr Ha Hb]. split; simpl; auto; lia. Qed.

Lemma wf_run_op (o : op T) (r : ring) :
  (match o with OpPushBulk _ size => 0 <= size | _ => True end) ->
  wf N r -> wf N (run_op T0 N o r).
Proof.
  intros Ho Hr. destruct o; simpl in *.
  - now apply wf_push_bulk.
  - now apply wf_push.
  - now apply wf_pull_bulk.
  - now apply wf_pull.
  - exact Hr.
  - now apply wf_flush.
Qed.

(** *** The unread elements *)

Lemma slots_from_set_availableData a (r : ring) n :
  slots_from T0 N (set_availableData a r) n = slots_from T0 N r n.
Proof. reflexivity. Qed.

Lemma slot_zero (r : ring) : wf N r -> slot T0 N r 0 = fst (fetch T0 N r).
Proof.
  intros [_ Hr _ _]. unfold slot, fetch. simpl.
  now rewrite Z.add_0_r, Z.mod_small by lia.
Qed.

Lemma slot_fetch (r : ring) k :
  wf N r -> slot T0 N (snd (fetch T0 N r)) k = slot T0 N r (S k).
Proof.
  intros [_ Hr _ _]. unfold slot, fetch. simpl.
  rewrite incr_mod by done. rewrite Z.add_mod_idemp_l by lia.
  do 3 f_equal. lia.
Qed.

Lemma slots_from_fetch (r : ring) n :
  wf N r ->
  slots_from T0 N r (S n) =
    fst (fetch T0 N r) :: slots_from T0 N (snd (fetch T0 N r)) n.
Proof.
  intros Hr. unfold slots_from. cbn [seq map].
  rewrite slot_zero by done. f_equal.
  rewrite <- seq_shift, map_map. apply map_ext.
  intros k. now rewrite slot_fetch.
Qed.

Lemma slot_store_ne x (r : ring) k :
  wf N r -> (_readHead r + Z.of_nat k) mod N <> _writeHead r ->
  slot T0 N (store N x r) k = slot T0 N r k.
Proof.
  intros [Hw Hr _ _] Hne. unfold slot, store. cbn [_readHead _buffer].
  rewrite !nth_lookup, list_lookup_insert_ne; [done|].
  intros E. apply Hne. symmetry. apply Z2Nat.inj; [lia| |done].
  apply Z.mod_pos_bound. lia.
Qed.

Lemma slot_store_eq x (r : ring) k :
  wf N r -> (_readHead r + Z.of_nat k) mod N = _writeHead r ->
  slot T0 N (store N x r) k = x.
Proof.
  intros [Hw Hr _ Hb] He. unfold slot, store. cbn [_readHead _buffer].
  rewrite He, nth_lookup, list_lookup_insert_eq; [done|]. lia.
Qed.

Lemma slots_from_store x (r : ring) n :
  wf N r -> Z.of_nat n < N ->
  _writeHead r = (_readHead r + Z.of_nat n) mod N ->
  slots_from T0 N (store N x r) (S n) = slots_from T0 N r n ++ [x].
Proof.
  intros Hr Hn Hw. unfold slots_from.
  rewrite seq_S, map_app. cbn [map Nat.add]. f_equal.
  - apply map_ext_in. intros k Hk%in_seq.
    apply slot_store_ne; [done|]. rewrite Hw.
    destruct Hr as [_ Hrh _ _]. apply ring_slots_apart; lia.
  - now rewrite slot_store_eq.
Qed.

Lemma push_loop_slots xs : forall (r : ring) n,
  wf N r -> Z.of_nat n + Z.of_nat (length xs) <= N ->
  _writeHead r = (_readHead r + Z.of_nat n) mod N ->
  slots_from T0 N (push_loop N xs r) (n + length xs) = slots_from T0 N r n ++ xs /\
  _writeHead (push_loop N xs r) =
    (_readHead r + Z.of_nat n + Z.of_nat (length xs)) mod N.
Proof.
  induction xs as [|x xs IH]; intros r n Hr Hlen Hw.
  - cbn [push_loop length]. rewrite Nat.add_0_r, app_nil_r, Z.add_0_r. done.
  - cbn [push_loop length] in *.
    destruct (IH (store N x r) (S n)) as [IH1 IH2].
    + now apply wf_store.
    + lia.
    + cbn [store _writeHead _readHead].
      destruct (Hr) as [Hwh _ _ _].
      rewrite incr_mod by done. rewrite Hw, Z.add_mod_idemp_l by lia.
      f_equal. lia.
    + replace (n + S (length xs))%nat with (S n + length xs)%nat by lia.
      rewrite IH1, IH2.
      rewrite slots_from_store by (done || lia).
      rewrite <- app_assoc. split; [done|].
      cbn [store _readHead]. f_equal. lia.
Qed.

(** A bulk push into a coherent ring appends what it copies. *)
Lemma push_bulk_contents data size (r : ring) :
  wf N r -> coherent N r -> 0 <= size ->
  contents T0 N (snd (push_bulk N data size r)) =
    contents T0 N r ++ take (Z.to_nat (Z.min size (availableSpace N r))) data /\
  coherent N (snd (push_bulk N data size r)).
Proof.
  intros Hr Hc Hs.
  pose proof (push_bulk_available data size r Hr Hs) as [Ha Hle].
  unfold contents, coherent. rewrite Ha. clear Ha.
  unfold push_bulk in *. cbn [fst snd] in *.
  rewrite availableSpace_eq in * by done.
  set (n := if N - _availableData r <? size then N - _availableData r else size) in *.
  assert (Hn : n = Z.min size (N - _availableData r)).
  { subst n. destruct (N - _availableData r <? size) eqn:E;
      [apply Z.ltb_lt in E | apply Z.ltb_ge in E]; lia. }
  rewrite <- Hn.
  destruct (wf_available _ _ Hr) as [Hlo Hhi].
  destruct (push_loop_slots (take (Z.to_nat n) data) r
              (Z.to_nat (_availableData r))) as [H1 H2]; [done|lia| |].
  { rewrite Z2Nat.id by lia. exact Hc. }
  rewrite slots_from_set_availableData.
  cbn [set_availableData _writeHead _readHead _availableData].
  destruct (push_loop_frame (take (Z.to_nat n) data) r) as [-> _].
  rewrite Z2Nat.inj_add, Nat2Z.id by lia.
  rewrite H1, H2. rewrite Z2Nat.id by lia.
  split; [done|]. f_equal. lia.
Qed.

(** A push into a coherent ring that is not full appends the element. *)
Lemma push_contents x (r : ring) :
  wf N r -> coherent N r -> _availableData r < N ->
  contents T0 N (push N x r) = contents T0 N r ++ [x] /\
  coherent N (push N x r).
Proof.
  intros Hr Hc Hlt. unfold push, contents, coherent in *.
  cbn [store _availableData].
  destruct (wf_available _ _ Hr) as [Hlo Hhi].
  destruct (wf_writeHead _ _ Hr) as [Hw1 Hw2].
  rewrite (proj2 (Z.ltb_lt _ _) Hlt).
  rewrite u16_small by lia.
  cbn [set_availableData _availableData _writeHead _readHead].
  rewrite slots_from_set_availableData.
  replace (Z.to_nat (_availableData r + 1)) with (S (Z.to_nat (_availableData r))) by lia.
  rewrite slots_from_store; [|done|lia|now rewrite Z2Nat.id by lia].
  split; [done|]. cbn [store _writeHead _readHead].
  rewrite incr_mod by done. rewrite Hc, Z.add_mod_idemp_l by lia.
  f_equal. lia.
Qed.

(** A push into a coherent full ring stores at the read head: the
    element replaces the oldest one, in its place. *)
Lemma push_full_contents x (r : ring) :
  wf N r -> coherent N r -> _availableData r = N ->
  _writeHead r = _readHead r /\
  contents T0 N (push N x r) = x :: tl (contents T0 N r).
Proof.
  intros Hr Hc Hfull. unfold coherent in Hc.
  destruct (wf_readHead _ _ Hr) as [Hr1 Hr2].
  assert (Hwr : _writeHead r = _readHead r).
  { rewrite Hc, Hfull.
    replace (_readHead r + N) with (_readHead r + 1 * N) by lia.
    rewrite Z.mod_add by lia. apply Z.mod_small. lia. }
  split; [done|].
  unfold push, contents. cbn [store _availableData].
  rewrite Hfull, Z.ltb_irrefl.
  change (_availableData (store N x r)) with (_availableData r). rewrite Hfull.
  destruct (Z.to_nat N) as [|m] eqn:Em; [lia|].
  unfold slots_from. cbn [seq map tl].
  f_equal.
  - apply slot_store_eq; [done|].
    rewrite Z.add_0_r, Z.mod_small by lia. done.
  - apply map_ext_in. intros k Hk%in_seq.
    apply slot_store_ne; [done|]. rewrite Hwr.
    rewrite <- (Z.mod_small (_readHead r) N) at 2 by lia.
    rewrite <- (Z.add_0_r (_readHead r)) at 2.
    intros E. symmetry in E. revert E.
    apply ring_slots_apart; lia.
Qed.

(** A pull from a coherent ring that is not empty yields the oldest
    element and leaves the others. *)
Lemma pull_contents (r : ring) :
  wf N r -> coherent N r -> 0 < _availableData r ->
  contents T0 N r = fst (pull T0 N r) :: contents T0 N (snd (pull T0 N r)) /\
  coherent N (snd (pull T0 N r)) /\
  _availableData (snd (pull T0 N r)) = _availableData r - 1.
Proof.
  intros Hr Hc Hpos. unfold pull, contents, coherent in *.
  destruct (wf_available _ _ Hr) as [Hlo Hhi].
  destruct (wf_readHead _ _ Hr) as [Hr1 Hr2].
  pose proof (slots_from_fetch r (Z.to_nat (_availableData r - 1)) Hr) as Hs.
  replace (S (Z.to_nat (_availableData r - 1)))
    with (Z.to_nat (_availableData r)) in Hs by lia.
  unfold fetch in *. cbn [fst snd _availableData] in *.
  rewrite (proj2 (Z.ltb_lt _ _) Hpos).
  cbn [set_availableData _availableData _writeHead _readHead].
  rewrite u16_small by lia.
  rewrite slots_from_set_availableData.
  split; [exact Hs|]. split; [|done].
  rewrite incr_mod by done. rewrite Hc, Z.add_mod_idemp_l by lia.
  f_equal. lia.
Qed.

(** [n] pulls in a row from a coherent ring that holds at least [n]
    elements yield its [n] oldest elements, oldest first. *)
Lemma pull_n_contents n : forall r : ring,
  wf N r -> coherent N r -> Z.of_nat n <= _availableData r ->
  fst (pull_n T0 N n r) = take n (contents T0 N r) /\
  contents T0 N (snd (pull_n T0 N n r)) = drop n (contents T0 N r) /\
  _availableData (snd (pull_n T0 N n r)) = _availableData r - Z.of_nat n.
Proof.
  induction n as [|n IH]; intros r Hr Hc Hn.
  - cbn [pull_n fst snd take]. rewrite drop_0. repeat split; lia.
  - destruct (pull_contents r Hr Hc) as (Hcont & Hc' & Ha'); [lia|].
    pose proof (wf_pull r Hr) as Hr'.
    cbn [pull_n]. destruct (pull T0 N r) as [x r1]. cbn [fst snd] in *.
    destruct (IH r1 Hr' Hc') as (IH1 & IH2 & IH3); [lia|].
    destruct (pull_n T0 N n r1) as [xs r2]. cbn [fst snd] in *.
    rewrite Hcont. cbn [take drop]. subst xs.
    repeat split; [done|lia].
Qed.

Lemma wf_run_ops os : forall r : ring,
  Forall op_ok os -> wf N r -> wf N (run_ops T0 N os r).
Proof.
  induction os as [|o os IH]; intros r Hos Hr; [done|].
  inversion Hos as [|? ? Ho Hos']; subst.
  unfold run_ops in *. cbn [fold_left]. apply IH; [done|].
  apply wf_run_op; [|done]. destruct o; simpl in *; auto; lia.
Qed.

Lemma pull_empty_available (r : ring) :
  _availableData r = 0 -> _availableData (snd (pull T0 N r)) = 0.
Proof. intros H0. unfold pull. simpl. now rewrite H0. Qed.

Lemma push_full_available x (r : ring) :
  _availableData r = N -> _availableData (push N x r) = N.
Proof.
  intros Hfull. unfold push. cbn [store _availableData].
  now rewrite Hfull, Z.ltb_irrefl.
Qed.

Lemma push_frame x (r : ring) :
  _writeHead (push N x r) = incr (_writeHead r) /\
  _readHead (push N x r) = _readHead r /\
  _buffer (push N x r) = <[Z.to_nat (_writeHead r) := x]> (_buffer r).
Proof.
  unfold push. cbn [store _availableData].
  destruct (_availableData r <? N); done.
Qed.

End Facts.

(** C1 (as amended).  A single-element [push] stores the element at the
    write head, advances the write head by one slot (back to 0 at the
    capacity) and never moves the read head.  On a full ring it leaves
    [availableData] at the capacity [N]; when the ring is coherent the
    slot it stores to is the one at the read head, so the element takes
    the place of the oldest one.  On a ring that is not full it increments
    [availableData] by one and, when the ring is coherent, appends the
    element to the unread ones. *)
Theorem push_single_spec {T : Type} (T0 : T) (N : Z) (x : T)
    (r : CircularBuffer.t T) :
  0 < N < 65536 -> wf N r ->
  _writeHead (push N x r) = incrementOrResetHead N (_writeHead r) /\
  _readHead (push N x r) = _readHead r /\
  _buffer (push N x r) = <[Z.to_nat (_writeHead r) := x]> (_buffer r) /\
  (_availableData r = N ->
     _availableData (push N x r) = N /\
     (coherent N r ->
        _writeHead r = _readHead r /\
        contents T0 N (push N x r) = x :: tl (contents T0 N r))) /\
  (_availableData r < N ->
     _availableData (push N x r) = _availableData r + 1 /\
     (coherent N r ->
        contents T0 N (push N x r) = contents T0 N r ++ [x] /\
        coherent N (push N x r))).
Proof.
  intros HN Hr.
  destruct (push_frame N x r) as (Hw & Hrh & Hb).
  split; [exact Hw|]. split; [exact Hrh|]. split; [exact Hb|]. split.
  - intros Hfull. split; [now apply push_full_available|].
    intros Hc. now apply (push_full_contents T0 N HN x r).
  - intros Hlt. split.
    + unfold push. cbn [store _availableData].
      rewrite (proj2 (Z.ltb_lt _ _) Hlt). cbn [set_availableData _availableData].
      destruct (wf_available _ _ Hr). apply u16_small. lia.
    + intros Hc. now apply (push_contents T0 N HN x r).
Qed.

(** The ring of two characters after [push(a); push(b)]: full and
    coherent, with both heads at slot 0. *)
Lemma full_ring_wf :
  wf 2 (push 2 "b"%char (push 2 "a"%char (empty NUL 2))).
Proof. split; cbv; repeat split; solve [reflexivity | discriminate]. Defined.

Lemma push_single_spec_witness :
  let r := push 2 "b"%char (push 2 "a"%char (empty NUL 2)) in
  _availableData r = 2 /\ coherent 2 r /\
  _readHead (push 2 "c"%char r) = _readHead r /\
  _availableData (push 2 "c"%char r) = 2 /\
  contents NUL 2 (push 2 "c"%char r) = ["c"%char; "b"%char].
Proof.
  pose proof (push_single_spec NUL 2 "c"%char
                (push 2 "b"%char (push 2 "a"%char (empty NUL 2)))
                ltac:(lia) full_ring_wf) as (_ & Hrh & _ & Hfull & _).
  destruct (Hfull eq_refl) as [Ha Hc].
  destruct (Hc eq_refl) as [_ Hcont].
  repeat split; assumption.
Defined.

(** C1 as stated fails: on the full ring holding [a; b] the push of [c]
    leaves the read head where it was, one slot short of the advance the
    claim asks for, and the next [pull()] returns [c], the newest
    element, before [b].  That pull leaves a ring that is not full, with
    [b] unread at the write head: there the push of [d] does not append,
    it stores [d] over [b]. *)
Lemma push_full_readHead_cex :
  let r := push 2 "b"%char (push 2 "a"%char (empty NUL 2)) in
  isFull 2 r = true /\
  contents NUL 2 r = ["a"%char; "b"%char] /\
  _readHead r = 0 /\
  incrementOrResetHead 2 (_readHead r) = 1 /\
  _readHead (push 2 "c"%char r) = 0 /\
  _readHead (push 2 "c"%char r) <> incrementOrResetHead 2 (_readHead r) /\
  fst (pull NUL 2 (push 2 "c"%char r)) = "c"%char /\
  let r1 := snd (pull NUL 2 (push 2 "c"%char r)) in
  _availableData r1 = 1 /\
  contents NUL 2 r1 = ["b"%char] /\
  contents NUL 2 (push 2 "d"%char r1) = ["d"; "c"]%char.
Proof. cbv. repeat split; discriminate. Qed.

(** C9 (as amended).  From the constructor on, every operation keeps the
    ring well formed, so [0 <= availableData <= N] always holds.  A bulk
    push copies [min(size, availableSpace())] elements and adds that
    count to [availableData]; into a coherent ring it appends them to the
    unread elements, none of which it overwrites.  [pull()] on an empty
    ring leaves [availableData] at 0 and [push(x)] on a full ring leaves
    it at [N]. *)
Theorem availableData_bounds {T : Type} (T0 : T) (N : Z) :
  0 < N < 65536 ->
  wf N (empty T0 N) /\
  (forall (o : op T) (r : CircularBuffer.t T),
     op_ok o -> wf N r ->
     wf N (run_op T0 N o r) /\ 0 <= _availableData (run_op T0 N o r) <= N) /\
  (forall os : list (op T),
     Forall op_ok os ->
     0 <= _availableData (run_ops T0 N os (empty T0 N)) <= N) /\
  (forall data size (r : CircularBuffer.t T),
     wf N r -> 0 <= size <= Z.of_nat (length data) ->
     let n := Z.min size (availableSpace N r) in
     fst (push_bulk N data size r) = n /\
     _availableData (snd (push_bulk N data size r)) = _availableData r + n /\
     (coherent N r ->
        contents T0 N (snd (push_bulk N data size r)) =
          contents T0 N r ++ take (Z.to_nat n) data /\
        coherent N (snd (push_bulk N data size r)))) /\
  (forall r : CircularBuffer.t T,
     _availableData r = 0 -> _availableData (snd (pull T0 N r)) = 0) /\
  (forall x (r : CircularBuffer.t T),
     _availableData r = N -> _availableData (push N x r) = N).
Proof.
  intros HN. split; [apply wf_empty; lia|].
  split.
  { intros o r Ho Hr.
    assert (Hw : wf N (run_op T0 N o r)).
    { apply wf_run_op; [done| |done]. destruct o; simpl in *; auto; lia. }
    split; [done|]. apply (wf_available _ _ Hw). }
  split.
  { intros os Hos. apply (wf_available N).
    apply wf_run_ops; [done|done|]. now apply wf_empty. }
  split.
  { intros data size r Hr Hs n.
    pose proof (push_bulk_count N HN data size r Hr Hs) as Hcount.
    destruct (push_bulk_available N HN data size r Hr) as [Ha _]; [lia|].
    split; [done|]. split; [now rewrite Ha, Hcount|].
    intros Hc. apply (push_bulk_contents T0 N HN); [done|done|lia]. }
  split.
  - intros r. apply pull_empty_available.
  - intros x r. apply push_full_available.
Qed.

Lemma availableData_bounds_witness :
  let r := push 2 "a"%char (empty NUL 2) in
  wf 2 r /\
  fst (push_bulk 2 ["b"; "c"]%char 2 r) = 1 /\
  _availableData (snd (push_bulk 2 ["b"; "c"]%char 2 r)) = 2 /\
  contents NUL 2 (snd (push_bulk 2 ["b"; "c"]%char 2 r)) = ["a"; "b"]%char.
Proof.
  destruct (availableData_bounds NUL 2 ltac:(lia)) as (_ & Hop & _ & Hbulk & _).
  assert (Hwf : wf 2 (push 2 "a"%char (empty NUL 2))).
  { apply (Hop (OpPush "a"%char) (empty NUL 2) I).
    split; cbv; repeat split; solve [reflexivity | discriminate]. }
  destruct (Hbulk ["b"; "c"]%char 2 _ Hwf ltac:(simpl; lia)) as (Hn & Ha & Hc).
  destruct (Hc eq_refl) as [Hcont _].
  repeat split; try apply Hwf; assumption.
Defined.

(** C9 as stated fails for the bulk push: after [push(a); push(b);
    push(c); pull()] on a ring of two elements the one unread element is
    [b] and one slot is free; the bulk push of [d] fits the free space
    and yet is stored over [b], which is lost. *)
Lemma push_bulk_overwrites_cex :
  let r := run_ops NUL 2 [OpPush "a"; OpPush "b"; OpPush "c"; OpPull]%char
             (empty NUL 2) in
  wf 2 r /\
  contents NUL 2 r = ["b"%char] /\
  availableSpace 2 r = 1 /\
  fst (push_bulk 2 ["d"%char] 1 r) = 1 /\
  contents NUL 2 (snd (push_bulk 2 ["d"%char] 1 r)) = ["d"; "c"]%char /\
  ~ In "b"%char (_buffer (snd (push_bulk 2 ["d"%char] 1 r))).
Proof.
  cbv zeta.
  split; [split; cbv; repeat split; solve [reflexivity | discriminate]|].
  repeat split; try reflexivity.
  cbv. intros [E|[E|[]]]; discriminate.
Qed.

End RingFacts.

(** ** Decimal numbers in C strings *)

Lemma digit_cases d : 0 <= d <= 9 ->
  d = 0 \/ d = 1 \/ d = 2 \/ d = 3 \/ d = 4 \/ d = 5 \/ d = 6 \/ d = 7 \/
  d = 8 \/ d = 9.
Proof. lia. Qed.

Lemma digit_char_props d : 0 <= d <= 9 ->
  is_digit (digit_char d) = true /\
  digit_val (digit_char d) = d /\
  is_space (digit_char d) = false /\
  Ascii.eqb (digit_char d) "-"%char = false /\
  Ascii.eqb (digit_char d) "+"%char = false.
Proof.
  intros Hd.
  destruct (digit_cases d Hd) as [->|[->|[->|[->|[->|[->|[->|[->|[->| ->]]]]]]]]];
    repeat split; reflexivity.
Qed.

Lemma mod10_range n : 0 <= n mod 10 <= 9.
Proof. pose proof (Z.mod_pos_bound n 10). lia. Qed.

Lemma utoa_aux_app fuel : forall n acc rest,
  utoa_aux fuel n acc ++ rest = utoa_aux fuel n (acc ++ rest).
Proof.
  induction fuel as [|fuel IH]; intros n acc rest; simpl; [done|].
  destruct (n / 10 =? 0); [done|]. now rewrite IH.
Qed.

(** Reading back the digits written for [n] gives [n]. *)
Lemma scan_utoa_aux fuel : forall n acc,
  0 <= n < 10 ^ Z.of_nat fuel ->
  scan_digits 0 (utoa_aux fuel n acc) = scan_digits n acc.
Proof.
  induction fuel as [|fuel IH]; intros n acc Hn.
  - simpl in *. now replace n with 0 by lia.
  - cbn [utoa_aux].
    destruct (digit_char_props (n mod 10) (mod10_range n)) as (Hd & Hv & _).
    destruct (n / 10 =? 0) eqn:E.
    + apply Z.eqb_eq in E. cbn [scan_digits]. rewrite Hd, Hv.
      f_equal. pose proof (Z.div_mod n 10). lia.
    + apply Z.eqb_neq in E.
      rewrite IH.
      * cbn [scan_digits]. rewrite Hd, Hv. f_equal.
        pose proof (Z.div_mod n 10). lia.
      * rewrite Nat2Z.inj_succ, Z.pow_succ_r in Hn by lia.
        split; [apply Z.div_pos; lia|].
        apply Z.div_lt_upper_bound; lia.
Qed.

Lemma utoa_aux_head fuel : forall n acc,
  exists d tl, utoa_aux (S fuel) n acc = digit_char d :: tl /\ 0 <= d <= 9.
Proof.
  induction fuel as [|fuel IH]; intros n acc.
  - exists (n mod 10). simpl.
    destruct (n / 10 =? 0); eexists; split; eauto using mod10_range.
  - change (utoa_aux (S (S fuel)) n acc) with
      (if n / 10 =? 0 then digit_char (n mod 10) :: acc
       else utoa_aux (S fuel) (n / 10) (digit_char (n mod 10) :: acc)).
    destruct (n / 10 =? 0).
    + exists (n mod 10). eexists; split; eauto using mod10_range.
    + apply IH.
Qed.

Lemma scan_digits_stop acc rest :
  is_digit (hd NUL rest) = false -> scan_digits acc rest = acc.
Proof. destruct rest as [|c rest]; simpl; [done|]. now intros ->. Qed.

(** [sscanf] with [%d] reads back what [%u] printed. *)
Lemma sscanf_utoa n rest :
  0 <= n <= INT_MAX -> is_digit (hd NUL rest) = false ->
  sscanf_d (utoa n ++ rest) = Some n.
Proof.
  intros Hn Hrest. unfold sscanf_d, utoa.
  destruct (utoa_aux_head 9 n []) as (d & tl & E & Hd).
  destruct (digit_char_props d Hd) as (Hdig & _ & Hsp & Hminus & Hplus).
  assert (Hscan : scan_digits 0 (utoa_aux 10 n [] ++ rest) = n).
  { rewrite utoa_aux_app. cbn [app]. rewrite scan_utoa_aux.
    - now apply scan_digits_stop.
    - unfold INT_MAX in Hn. change (10 ^ Z.of_nat 10) with 10000000000. lia. }
  rewrite E in *. cbn [app skip_spaces] in *.
  rewrite Hsp, Hminus, Hplus. cbn [hd]. rewrite Hdig, Hscan.
  rewrite Z.mul_1_l. unfold int_arith, INT_MIN.
  destruct (Z.leb_spec (-2147483648) n), (Z.leb_spec n INT_MAX); simpl; (done || lia).
Qed.

(** [%u] into six bytes keeps all the digits of a 16-bit number. *)
Lemma snprintf_u_value n :
  0 <= n < 65536 -> snprintf_u 6 n = utoa n /\ scan_digits 0 (snprintf_u 6 n) = n.
Proof.
  intros Hn.
  assert (E : utoa n = utoa_aux 5 n []).
  { unfold utoa.
    assert (H5 : forall m acc, 0 <= m < 10 -> forall f, utoa_aux (S f) m acc =
                   digit_char (m mod 10) :: acc).
    { intros m acc Hm f. cbn [utoa_aux].
      now rewrite Z.div_small by lia. }
    assert (Hstep : forall f m acc, 10 <= m -> utoa_aux (S f) m acc =
                      utoa_aux f (m / 10) (digit_char (m mod 10) :: acc)).
    { intros f m acc Hm. cbn [utoa_aux].
      destruct (m / 10 =? 0) eqn:E; [|done].
      apply Z.eqb_eq in E. pose proof (Z.div_mod m 10).
      pose proof (Z.mod_pos_bound m 10). lia. }
    assert (Hdiv : forall m k, 0 <= m < 10 * k -> 0 <= m / 10 < k).
    { intros m k Hm. split; [apply Z.div_pos; lia|].
      apply Z.div_lt_upper_bound; lia. }
    destruct (Z.lt_ge_cases n 10) as [H1|H1]; [now rewrite !H5 by lia|].
    rewrite (Hstep 9%nat), (Hstep 4%nat) by lia.
    pose proof (Hdiv n 10000 ltac:(lia)) as Hn1.
    destruct (Z.lt_ge_cases (n / 10) 10) as [H2|H2]; [now rewrite !H5 by lia|].
    rewrite (Hstep 8%nat), (Hstep 3%nat) by lia.
    pose proof (Hdiv (n / 10) 1000 ltac:(lia)) as Hn2.
    destruct (Z.lt_ge_cases (n / 10 / 10) 10) as [H3|H3]; [now rewrite !H5 by lia|].
    rewrite (Hstep 7%nat), (Hstep 2%nat) by lia.
    pose proof (Hdiv (n / 10 / 10) 100 ltac:(lia)) as Hn3.
    destruct (Z.lt_ge_cases (n / 10 / 10 / 10) 10) as [H4|H4];
      [now rewrite !H5 by lia|].
    rewrite (Hstep 6%nat), (Hstep 1%nat) by lia.
    pose proof (Hdiv (n / 10 / 10 / 10) 10 ltac:(lia)) as Hn4.
    now rewrite !H5 by lia. }
  assert (Hlen : forall f m acc, (length (utoa_aux f m acc) <= f + length acc)%nat).
  { induction f as [|f IH]; intros m acc; cbn [utoa_aux]; [lia|].
    destruct (m / 10 =? 0); [simpl; lia|].
    specialize (IH (m / 10) (digit_char (m mod 10) :: acc)). simpl in IH. lia. }
  assert (Hs : snprintf_u 6 n = utoa n).
  { unfold snprintf_u. apply take_ge. rewrite E.
    specialize (Hlen 5%nat n []). simpl in *. lia. }
  split; [done|]. rewrite Hs. unfold utoa.
  rewrite scan_utoa_aux by (change (10 ^ Z.of_nat 10) with 10000000000; lia).
  reflexivity.
Qed.

(** ** The flag word *)

Lemma land_lor_mask w m : Z.land (Z.lor w m) m = m.
Proof.
  apply Z.bits_inj'. intros i Hi.
  rewrite Z.land_spec, Z.lor_spec.
  destruct (Z.testbit w i), (Z.testbit m i); reflexivity.
Qed.

Lemma land_lnot_mask w m : Z.land (Z.land w (Z.lnot m)) m = 0.
Proof.
  apply Z.bits_inj'. intros i Hi.
  rewrite !Z.land_spec, Z.lnot_spec, Z.bits_0 by done.
  destruct (Z.testbit w i), (Z.testbit m i); reflexivity.
Qed.

(** ** The session engine *)

Module SimFacts.

Import SimCommDevice.

Section Generic.

Context {S : Type} {serial : IBufferedSerial S} {header : Header}.

Local Abbreviation device := (SimCommDevice.t S).

(** Reduces the setters and projections of the device record. *)
Ltac simpl_device :=
  cbn [set_serial set_writeBuffer set_lineBuffer set_lbFill set_connectState
       set_bytesToWrite set_bytesToReceive set_bytesToRead set_waitForReply
       set_stateBooleans set_ip
       _serial _readBufferSize _writeBufferSize _readBuffer _writeBuffer
       _lineBuffer _lbFill _sendState _replyState _connectState _bytesToWrite
       _bytesToReceive _bytesToRead _waitForReply _stateBooleans _rssi
       _idStringBuffer _ip] in *.

Lemma flag_clear mask (s : device) :
  Z.land (_stateBooleans s) mask = 0 -> flag mask s = false.
Proof. intros E. unfold flag. now rewrite E. Qed.

Lemma serialLock_refused (s : device) :
  _waitForReply s <> None \/ _replyState s <> 0 -> serialLock s = (false, s).
Proof.
  intros Hbusy. unfold serialLock.
  destruct (_waitForReply s) as [w|]; [done|]. cbn [orb].
  destruct Hbusy as [Hw|Hr]; [done|].
  now rewrite (proj2 (Z.eqb_neq _ _) Hr).
Qed.

Lemma serialLock_granted (s : device) :
  _waitForReply s = None -> _replyState s = 0 ->
  serialLock s =
    (true, set_stateBooleans (Z.lor (_stateBooleans s) SERIAL_LOCKED) s).
Proof. intros Hw Hr. unfold serialLock. now rewrite Hw, Hr. Qed.

Lemma size_add_ok a n :
  INT_MIN <= a + n <= INT_MAX -> size_add a n = Some (u16 (a + n)).
Proof.
  intros Hr. unfold size_add, int_arith.
  destruct (Z.leb_spec INT_MIN (a + n)), (Z.leb_spec (a + n) INT_MAX);
    simpl; (done || lia).
Qed.

Lemma size_sub_ok a n :
  INT_MIN <= a - n <= INT_MAX -> size_sub a n = Some (u16 (a - n)).
Proof.
  intros Hr. unfold size_sub, int_arith.
  destruct (Z.leb_spec INT_MIN (a - n)), (Z.leb_spec (a - n) INT_MAX);
    simpl; (done || lia).
Qed.

Lemma parseCiprxget4_announce (s : device) n rest :
  0 <= n <= INT_MAX - 65535 -> is_digit (hd NUL rest) = false ->
  0 <= _bytesToReceive s < 65536 ->
  _lineBuffer s = lit "+CIPRXGET: 4,0," ++ utoa n ++ rest ->
  parseCiprxget4 s =
    Some (true, set_bytesToReceive (u16 (_bytesToReceive s + n)) s).
Proof.
  intros Hn Hrest Ha Hline. unfold parseCiprxget4. rewrite Hline.
  change (strncmp0 _ _ 15) with true. cbn iota.
  change (drop 15 _) with (utoa n ++ rest).
  rewrite sscanf_utoa by (done || lia).
  rewrite size_add_ok; [done|]. unfold INT_MIN, INT_MAX in *. lia.
Qed.

Lemma parseCiprxget2_grant (s : device) n rest :
  0 <= n <= INT_MAX - 65535 -> is_digit (hd NUL rest) = false ->
  0 <= _bytesToReceive s < 65536 -> 0 <= _bytesToRead s < 65536 ->
  _lineBuffer s = lit "+CIPRXGET: 2,0," ++ utoa n ++ rest ->
  parseCiprxget2 s =
    Some (true,
          set_stateBooleans (Z.land (_stateBooleans s) (Z.lnot LINE_READ))
            (set_bytesToRead (u16 (_bytesToRead s + n))
               (set_bytesToReceive (u16 (_bytesToReceive s - n)) s))).
Proof.
  intros Hn Hrest Ha Hb Hline. unfold parseCiprxget2. rewrite Hline.
  change (strncmp0 _ _ 15) with true. cbn iota.
  change (drop 15 _) with (utoa n ++ rest).
  rewrite sscanf_utoa by (done || lia).
  rewrite size_sub_ok, size_add_ok; [done| |]; unfold INT_MIN, INT_MAX in *; lia.
Qed.

Lemma parseDnsReply_zero (s : device) rest :
  _lineBuffer s = lit "+CDNSGIP: 0" ++ rest ->
  parseDnsReply s =
    Some (false, set_stateBooleans (Z.lor (_stateBooleans s) RESET_PENDING) s).
Proof.
  intros Hline. unfold parseDnsReply. rewrite Hline.
  change (strncmp0 _ (lit "+CDNSGIP: 1" ++ [NUL]) 11) with false.
  change (strncmp0 _ (lit "+CDNSGIP: 0" ++ [NUL]) 11) with true.
  reflexivity.
Qed.

Lemma prepareSending_no_space (s : device) :
  spaceAvailable (_serial s) < MIN_SPACE_AVAILABLE -> prepareSending s = (false, s).
Proof.
  intros Hlt. unfold prepareSending. now rewrite (proj2 (Z.ltb_lt _ _) Hlt).
Qed.

Lemma prepareSending_emits (s : device) :
  MIN_SPACE_AVAILABLE <= spaceAvailable (_serial s) < 65536 ->
  let n := Z.min (CircularBuffer.availableData (_writeBuffer s))
                 (spaceAvailable (_serial s) - MIN_SPACE_AVAILABLE) in
  prepareSending s =
    (true,
     set_waitForReply (Some ">"%string)
       (set_serial
          (snd (write (snprintf_u 6 n)
                  (snd (write (lit "AT+CIPSEND=0,") (_serial s)))))
          (set_bytesToWrite n s))).
Proof.
  intros Hsp n. unfold prepareSending.
  rewrite (proj2 (Z.ltb_ge _ _) (proj1 Hsp)).
  cbn [set_bytesToWrite _serial _bytesToWrite].
  destruct (Z.ltb_spec (spaceAvailable (_serial s) - MIN_SPACE_AVAILABLE)
              (CircularBuffer.availableData (_writeBuffer s))) as [Hlt|Hge].
  - assert (En : n = spaceAvailable (_serial s) - MIN_SPACE_AVAILABLE)
      by (subst n; lia).
    rewrite u16_small by (unfold MIN_SPACE_AVAILABLE in *; lia).
    rewrite En. destruct s; reflexivity.
  - assert (En : n = CircularBuffer.availableData (_writeBuffer s))
      by (subst n; lia).
    rewrite En. destruct s; reflexivity.
Qed.

Lemma sendData_run n : forall fuel (s : device),
  _bytesToWrite s = Z.of_nat n -> Z.of_nat n < 65536 -> (n < fuel)%nat ->
  sendData fuel s =
    Some (set_bytesToWrite 65535
            (set_serial
               (write_all
                  (fst (CircularBuffer.pull_n NUL (_writeBufferSize s) n (_writeBuffer s)))
                  (_serial s))
               (set_writeBuffer
                  (snd (CircularBuffer.pull_n NUL (_writeBufferSize s) n (_writeBuffer s)))
                  s))).
Proof.
  induction n as [|n IH]; intros fuel s Hb Hn Hfuel;
    (destruct fuel as [|fuel]; [lia|]); cbn [sendData]; rewrite Hb.
  - cbn [Z.of_nat Z.eqb CircularBuffer.pull_n fst snd write_all fold_left].
    destruct s; reflexivity.
  - rewrite (proj2 (Z.eqb_neq _ _)) by lia.
    cbn [set_bytesToWrite _writeBufferSize _writeBuffer _serial].
    cbn [CircularBuffer.pull_n].
    destruct (CircularBuffer.pull NUL (_writeBufferSize s) (_writeBuffer s))
      as [x r] eqn:Ep.
    rewrite IH.
    + destruct s. simpl_device.
      destruct (CircularBuffer.pull_n NUL _ n r) as [xs r'].
      reflexivity.
    + simpl_device. rewrite u16_small by lia. lia.
    + lia.
    + lia.
Qed.

(** After [prepareSending], [bytesToWrite] is at most the count of the
    write ring; [sendData] then moves to the UART the oldest
    [bytesToWrite] bytes of the ring, in order, and takes them out of the
    ring. *)
Lemma sendData_sends_oldest (s : device) (fuel : nat) :
  0 < _writeBufferSize s < 65536 ->
  CircularBuffer.wf (_writeBufferSize s) (_writeBuffer s) ->
  CircularBuffer.coherent (_writeBufferSize s) (_writeBuffer s) ->
  0 <= _bytesToWrite s <= CircularBuffer._availableData (_writeBuffer s) ->
  (Z.to_nat (_bytesToWrite s) < fuel)%nat ->
  exists s',
    sendData fuel s = Some s' /\
    _serial s' =
      write_all (take (Z.to_nat (_bytesToWrite s))
                   (CircularBuffer.contents NUL (_writeBufferSize s) (_writeBuffer s)))
        (_serial s) /\
    CircularBuffer.contents NUL (_writeBufferSize s) (_writeBuffer s') =
      drop (Z.to_nat (_bytesToWrite s))
        (CircularBuffer.contents NUL (_writeBufferSize s) (_writeBuffer s)).
Proof.
  intros HN Hwf Hc Hb Hfuel.
  destruct (CircularBuffer.wf_available _ _ Hwf) as [_ Hhi].
  destruct (RingFacts.pull_n_contents NUL (_writeBufferSize s) HN
              (Z.to_nat (_bytesToWrite s)) (_writeBuffer s) Hwf Hc)
    as (Hout & Hrest & _); [lia|].
  eexists. split.
  - apply (sendData_run (Z.to_nat (_bytesToWrite s))); [lia|lia|exact Hfuel].
  - simpl_device. rewrite Hout, Hrest. done.
Qed.


(** C8.  [serialLock] returns false and leaves the state as it is
    whenever [waitForReply] is not null or [replyState] is not zero; in
    every other state it returns true and sets [SERIAL_LOCKED] in the flag
    word, changing nothing else. *)
Theorem serialLock_spec (s : device) :
  (_waitForReply s <> None \/ _replyState s <> 0 -> serialLock s = (false, s)) /\
  (_waitForReply s = None /\ _replyState s = 0 ->
     serialLock s =
       (true, set_stateBooleans (Z.lor (_stateBooleans s) SERIAL_LOCKED) s) /\
     Z.land (_stateBooleans (snd (serialLock s))) SERIAL_LOCKED = SERIAL_LOCKED).
Proof.
  split.
  - apply serialLock_refused.
  - intros [Hw Hr]. rewrite (serialLock_granted s Hw Hr).
    split; [done|]. apply land_lor_mask.
Qed.

(** C10.  With [SERIAL_LOCKED] clear, [serialWrite] and [serialRead]
    return 0 and hand back the state, serial device included, as they
    found it, whatever the implementation of the serial interface. *)
Theorem serial_io_needs_lock (s : device) (data : list ascii) (maxSize : Z) :
  Z.land (_stateBooleans s) SERIAL_LOCKED = 0 ->
  serialWrite data s = (0, s) /\ serialRead maxSize s = (0, [], s).
Proof.
  intros Hclear. unfold serialWrite, serialRead.
  now rewrite (flag_clear _ _ Hclear).
Qed.

(** C3 (as amended).  On a line that begins with [+CDNSGIP: 0],
    [parseDnsReply] returns false and sets [RESET_PENDING] in the flag
    word; the connection phase and every other member stay as they
    were. *)
Theorem parseDnsReply_failure (s : device) (rest : list ascii) :
  _lineBuffer s = lit "+CDNSGIP: 0" ++ rest ->
  parseDnsReply s =
    Some (false, set_stateBooleans (Z.lor (_stateBooleans s) RESET_PENDING) s) /\
  Z.land (Z.lor (_stateBooleans s) RESET_PENDING) RESET_PENDING = RESET_PENDING /\
  _connectState (set_stateBooleans (Z.lor (_stateBooleans s) RESET_PENDING) s) =
    _connectState s.
Proof.
  intros Hline. split; [now apply parseDnsReply_zero with rest|].
  split; [apply land_lor_mask|reflexivity].
Qed.

(** C5 (as amended).  On the line [+CIPRXGET: 4,0,N], [parseCiprxget4]
    returns true and replaces [bytesToReceive] by
    [(bytesToReceive + N) mod 2^16], which is [bytesToReceive + N] when
    that is below 65536; every other member stays as it was.  On the line
    [+CIPRXGET: 2,0,N], [parseCiprxget2] returns true, replaces
    [bytesToReceive] by [(bytesToReceive - N) mod 2^16], which is
    [bytesToReceive - N] when [N <= bytesToReceive], replaces
    [bytesToRead] by [(bytesToRead + N) mod 2^16], which is
    [bytesToRead + N] when that is below 65536, and clears [LINE_READ];
    the other flags and every other member stay as they were. *)
Theorem receive_accounting (s : device) (n : Z) (rest : list ascii) :
  0 <= n <= INT_MAX - 65535 -> is_digit (hd NUL rest) = false ->
  0 <= _bytesToReceive s < 65536 -> 0 <= _bytesToRead s < 65536 ->
  (_lineBuffer s = lit "+CIPRXGET: 4,0," ++ utoa n ++ rest ->
     exists s',
       parseCiprxget4 s = Some (true, s') /\
       _bytesToReceive s' = (_bytesToReceive s + n) mod 65536 /\
       (_bytesToReceive s + n < 65536 ->
          _bytesToReceive s' = _bytesToReceive s + n) /\
       s' = SimCommDevice.Build (_serial s) (_readBufferSize s)
              (_writeBufferSize s) (_readBuffer s) (_writeBuffer s)
              (_lineBuffer s) (_lbFill s) (_sendState s) (_replyState s)
              (_connectState s) (_bytesToWrite s)
              ((_bytesToReceive s + n) mod 65536) (_bytesToRead s)
              (_waitForReply s) (_stateBooleans s) (_rssi s)
              (_idStringBuffer s) (_ip s)) /\
  (_lineBuffer s = lit "+CIPRXGET: 2,0," ++ utoa n ++ rest ->
     exists s',
       parseCiprxget2 s = Some (true, s') /\
       _bytesToReceive s' = (_bytesToReceive s - n) mod 65536 /\
       (n <= _bytesToReceive s -> _bytesToReceive s' = _bytesToReceive s - n) /\
       _bytesToRead s' = (_bytesToRead s + n) mod 65536 /\
       (_bytesToRead s + n < 65536 -> _bytesToRead s' = _bytesToRead s + n) /\
       Z.land (_stateBooleans s') LINE_READ = 0 /\
       _stateBooleans s' = Z.land (_stateBooleans s) (Z.lnot LINE_READ) /\
       s' = SimCommDevice.Build (_serial s) (_readBufferSize s)
              (_writeBufferSize s) (_readBuffer s) (_writeBuffer s)
              (_lineBuffer s) (_lbFill s) (_sendState s) (_replyState s)
              (_connectState s) (_bytesToWrite s)
              ((_bytesToReceive s - n) mod 65536)
              ((_bytesToRead s + n) mod 65536)
              (_waitForReply s)
              (Z.land (_stateBooleans s) (Z.lnot LINE_READ)) (_rssi s)
              (_idStringBuffer s) (_ip s)).
Proof.
  intros Hn Hrest Ha Hb. split.
  - intros Hline. eexists.
    split; [now apply (parseCiprxget4_announce s n rest)|].
    simpl_device. unfold u16.
    split; [reflexivity|]. split; [|reflexivity].
    intros Hfit. apply Z.mod_small. lia.
  - intros Hline. eexists.
    split; [now apply (parseCiprxget2_grant s n rest)|].
    simpl_device. unfold u16.
    split; [reflexivity|]. split; [intros Hfit; apply Z.mod_small; lia|].
    split; [reflexivity|]. split; [intros Hfit; apply Z.mod_small; lia|].
    split; [apply land_lnot_mask|]. split; reflexivity.
Qed.

(** C6 (as amended).  [prepareSending] returns false and leaves the
    state, UART included, as it is when the UART has fewer than 22 bytes
    of transmit space.  Otherwise it sets [bytesToWrite] to the smaller of
    the write ring's count and the space minus 22, writes
    [AT+CIPSEND=0,] and then the decimal digits of [bytesToWrite] to the
    UART, and no line end after them, sets [waitForReply] to [>] and
    returns true. *)
Theorem prepareSending_spec (s : device) :
  0 <= CircularBuffer.availableData (_writeBuffer s) ->
  0 <= spaceAvailable (_serial s) < 65536 ->
  (spaceAvailable (_serial s) < 22 -> prepareSending s = (false, s)) /\
  (22 <= spaceAvailable (_serial s) ->
     let n := Z.min (CircularBuffer.availableData (_writeBuffer s))
                    (spaceAvailable (_serial s) - 22) in
     prepareSending s =
       (true,
        set_waitForReply (Some ">"%string)
          (set_serial
             (snd (write (utoa n) (snd (write (lit "AT+CIPSEND=0,") (_serial s)))))
             (set_bytesToWrite n s))) /\
     scan_digits 0 (utoa n) = n).
Proof.
  intros Hav Hsp. split.
  - apply prepareSending_no_space.
  - intros Hroom n.
    assert (Hn : 0 <= n < 65536) by (subst n; lia).
    destruct (snprintf_u_value n Hn) as [Hs Hv].
    rewrite <- Hs. split; [|exact Hv].
    apply prepareSending_emits. unfold MIN_SPACE_AVAILABLE. lia.
Qed.

(** C2: what the code does.  [sendData] runs its loop body exactly
    [bytesToWrite] times, each time pulling one byte from the write ring
    and writing it to the UART; the test that ends the loop decrements the
    counter once more, so the call leaves [bytesToWrite] at 65535, the
    16-bit wrap of -1, and not at zero. *)
Theorem sendData_spec (s : device) (fuel : nat) :
  0 <= _bytesToWrite s < 65536 -> (Z.to_nat (_bytesToWrite s) < fuel)%nat ->
  let n := Z.to_nat (_bytesToWrite s) in
  let pulled := CircularBuffer.pull_n NUL (_writeBufferSize s) n (_writeBuffer s) in
  sendData fuel s =
    Some (set_bytesToWrite 65535
            (set_serial (write_all (fst pulled) (_serial s))
               (set_writeBuffer (snd pulled) s))) /\
  length (fst pulled) = n /\
  forall s', sendData fuel s = Some s' -> _bytesToWrite s' = 65535.
Proof.
  intros Hb Hfuel n pulled.
  assert (Hrun := sendData_run n fuel s ltac:(subst n; lia) ltac:(subst n; lia) Hfuel).
  split; [exact Hrun|]. split.
  - subst pulled. clear. generalize (_writeBuffer s).
    induction n as [|n IH]; intros r; cbn [CircularBuffer.pull_n]; [done|].
    destruct (CircularBuffer.pull NUL (_writeBufferSize s) r) as [x r1].
    specialize (IH r1).
    destruct (CircularBuffer.pull_n NUL (_writeBufferSize s) n r1) as [xs r2].
    simpl in *. now rewrite IH.
  - intros s' Hs'. rewrite Hrun in Hs'. now injection Hs' as <-.
Qed.

End Generic.

Lemma serialLock_spec_witness :
  let s := sample_device (sample_uart [] 64) [] [] in
  serialLock (header := sample_header) s =
    (true, set_stateBooleans 65 s) /\
  serialLock (header := sample_header) (set_waitForReply (Some "OK"%string) s) =
    (false, set_waitForReply (Some "OK"%string) s).
Proof.
  split.
  - apply (proj2 (serialLock_spec (header := sample_header)
                    (sample_device (sample_uart [] 64) [] []))).
    split; reflexivity.
  - apply (proj1 (serialLock_spec (header := sample_header)
                    (set_waitForReply (Some "OK"%string)
                       (sample_device (sample_uart [] 64) [] [])))).
    left. discriminate.
Defined.

Lemma serial_io_needs_lock_witness :
  let s := sample_device (sample_uart (lit "RING") 64) [] [] in
  serialWrite (header := sample_header) (lit "AT" ++ [NUL]) s = (0, s) /\
  serialRead (header := sample_header) 4 s = (0, [], s).
Proof.
  apply (serial_io_needs_lock (header := sample_header)
           (sample_device (sample_uart (lit "RING") 64) [] [])
           (lit "AT" ++ [NUL]) 4).
  reflexivity.
Defined.

Lemma parseDnsReply_failure_witness :
  let s := sample_device (sample_uart [] 64)
             (lit "+CDNSGIP: 0,8" ++ [CR; LF]) [] in
  parseDnsReply (header := sample_header) s = Some (false, set_stateBooleans 33 s).
Proof.
  apply (parseDnsReply_failure (header := sample_header)
           (sample_device (sample_uart [] 64) (lit "+CDNSGIP: 0,8" ++ [CR; LF]) [])
           (lit ",8" ++ [CR; LF] ++ replicate 46 NUL)).
  reflexivity.
Defined.

(** C3 as stated fails: while connecting, the reply [+CDNSGIP: 0,8] sets
    [RESET_PENDING] and leaves the phase at [connecting]; it does not
    become [dnsError]. *)
Lemma parseDnsReply_failure_phase_cex :
  let s := sample_device (sample_uart [] 64)
             (lit "+CDNSGIP: 0,8" ++ [CR; LF]) [] in
  exists s',
    parseDnsReply (header := sample_header) s = Some (false, s') /\
    _connectState s = connecting /\
    _connectState s' = connecting /\
    _connectState s' <> dnsError /\
    Z.land (_stateBooleans s') (RESET_PENDING (Header := sample_header)) <> 0.
Proof.
  eexists. split; [reflexivity|]. repeat split; discriminate.
Qed.

Lemma receive_accounting_witness :
  let s4 := sample_device (sample_uart [] 64)
              (lit "+CIPRXGET: 4,0,3" ++ [CR; LF]) [] in
  let s2 := set_bytesToReceive 3
              (sample_device (sample_uart [] 64)
                 (lit "+CIPRXGET: 2,0,3" ++ [CR; LF]) []) in
  (exists s', parseCiprxget4 s4 = Some (true, s') /\ _bytesToReceive s' = 3) /\
  (exists s', parseCiprxget2 (header := sample_header) s2 = Some (true, s') /\
              _bytesToReceive s' = 0 /\ _bytesToRead s' = 3 /\
              Z.land (_stateBooleans s') (LINE_READ (Header := sample_header)) = 0).
Proof.
  split.
  - destruct (proj1 (receive_accounting (header := sample_header)
                       (sample_device (sample_uart [] 64)
                          (lit "+CIPRXGET: 4,0,3" ++ [CR; LF]) [])
                       3 ([CR; LF] ++ replicate 43 NUL)
                       ltac:(vm_compute; split; discriminate) eq_refl
                       ltac:(vm_compute; split; [discriminate|reflexivity])
                       ltac:(vm_compute; split; [discriminate|reflexivity]))
                eq_refl) as (s' & Hrun & _ & Hexact & _).
    exists s'. split; [exact Hrun|]. exact (Hexact eq_refl).
  - destruct (proj2 (receive_accounting (header := sample_header)
                       (set_bytesToReceive 3
                          (sample_device (sample_uart [] 64)
                             (lit "+CIPRXGET: 2,0,3" ++ [CR; LF]) []))
                       3 ([CR; LF] ++ replicate 43 NUL)
                       ltac:(vm_compute; split; discriminate) eq_refl
                       ltac:(vm_compute; split; [discriminate|reflexivity])
                       ltac:(vm_compute; split; [discriminate|reflexivity]))
                eq_refl) as (s' & Hrun & _ & Hrecv & _ & Hread & Hflag & _).
    exists s'. split; [exact Hrun|].
    split; [exact (Hrecv ltac:(discriminate))|].
    split; [exact (Hread eq_refl)|exact Hflag].
Defined.

(** C5 as stated fails: the counters are 16 bits wide.  With
    [bytesToReceive] at 65000 the line [+CIPRXGET: 4,0,1000] leaves it at
    464, not at 66000; with [bytesToReceive] at 0 the line
    [+CIPRXGET: 2,0,3] leaves it at 65533, not at -3. *)
Lemma receive_accounting_wrap_cex :
  let s4 := set_bytesToReceive 65000
              (sample_device (sample_uart [] 64)
                 (lit "+CIPRXGET: 4,0,1000" ++ [CR; LF]) []) in
  let s2 := sample_device (sample_uart [] 64)
              (lit "+CIPRXGET: 2,0,3" ++ [CR; LF]) [] in
  (exists s', parseCiprxget4 s4 = Some (true, s') /\
              _bytesToReceive s4 = 65000 /\
              _bytesToReceive s' = 464 /\
              _bytesToReceive s' <> _bytesToReceive s4 + 1000) /\
  (exists s', parseCiprxget2 (header := sample_header) s2 = Some (true, s') /\
              _bytesToReceive s2 = 0 /\
              _bytesToReceive s' = 65533 /\
              _bytesToReceive s' <> _bytesToReceive s2 - 3).
Proof.
  split; eexists; (split; [reflexivity|]); repeat split; discriminate.
Qed.

Lemma prepareSending_spec_witness :
  let s := sample_device (sample_uart [] 64) [] (lit "hello") in
  exists s',
    prepareSending s = (true, s') /\
    _bytesToWrite s' = 5 /\
    tx (_serial s') = lit "AT+CIPSEND=0,5" /\
    _waitForReply s' = Some ">"%string.
Proof.
  destruct (prepareSending_spec
              (sample_device (sample_uart [] 64) [] (lit "hello"))
              ltac:(vm_compute; discriminate)
              ltac:(vm_compute; split; [discriminate|reflexivity]))
    as [_ Hemit].
  destruct (Hemit ltac:(vm_compute; discriminate)) as [Hrun _].
  eexists. split; [exact Hrun|]. repeat split; reflexivity.
Defined.

(** C6 as stated fails: with [hello] in the write ring and 64 bytes of
    transmit space, [prepareSending] hands the UART the 14 bytes
    [AT+CIPSEND=0,5] and stops; the carriage return and line feed of the
    claim are not among them. *)
Lemma prepareSending_no_line_end_cex :
  let s := sample_device (sample_uart [] 64) [] (lit "hello") in
  fst (prepareSending s) = true /\
  tx (_serial (snd (prepareSending s))) = lit "AT+CIPSEND=0,5" /\
  tx (_serial (snd (prepareSending s))) <>
    lit "AT+CIPSEND=0,5" ++ [CR; LF].
Proof. repeat split; discriminate. Qed.

Lemma sendData_spec_witness :
  let s := set_bytesToWrite 5
             (sample_device (sample_uart [] 64) [] (lit "hello")) in
  exists s',
    sendData 6 s = Some s' /\
    tx (_serial s') = lit "hello" /\
    _bytesToWrite s' = 65535.
Proof.
  destruct (sendData_spec
              (set_bytesToWrite 5
                 (sample_device (sample_uart [] 64) [] (lit "hello")))
              6 ltac:(vm_compute; split; [discriminate|reflexivity])
              ltac:(vm_compute; lia))
    as (Hrun & _ & _).
  eexists. split; [exact Hrun|]. split; reflexivity.
Defined.

End SimFacts.

(** ** The line reader, over the buffered UART *)

Module LineReader.

Import SimCommDevice.

Section Reader.

Context {header : Header}.

Local Abbreviation device := (SimCommDevice.t BufferedSerial).

Ltac simpl_device :=
  cbn [set_serial set_writeBuffer set_lineBuffer set_lbFill set_connectState
       set_bytesToWrite set_bytesToReceive set_bytesToRead set_waitForReply
       set_stateBooleans set_ip
       _serial _readBufferSize _writeBufferSize _readBuffer _writeBuffer
       _lineBuffer _lbFill _sendState _replyState _connectState _bytesToWrite
       _bytesToReceive _bytesToRead _waitForReply _stateBooleans _rssi
       _idStringBuffer _ip] in *.

Lemma terminator_test c :
  Ascii.eqb c LF || Ascii.eqb c GT = true <-> is_terminator c.
Proof.
  unfold is_terminator. rewrite orb_true_iff, !Ascii.eqb_eq. tauto.
Qed.

Lemma not_terminator_test c :
  Ascii.eqb c LF || Ascii.eqb c GT = false <-> ~ is_terminator c.
Proof.
  rewrite <- terminator_test. destruct (Ascii.eqb c LF || Ascii.eqb c GT); split;
    congruence.
Qed.

(** Storing at the cursor, with the array split at the cursor. *)
Lemma store_at_cursor (pre suf : list ascii) c :
  suf <> [] ->
  <[Z.to_nat (Z.of_nat (length pre)) := c]> (pre ++ suf) = pre ++ c :: tl suf.
Proof.
  intros Hs. rewrite Nat2Z.id. destruct suf as [|x suf]; [done|].
  rewrite insert_app_r_alt by lia. now rewrite Nat.sub_diag.
Qed.

(** One run of the loop of [fillLineBuffer], with the array split at the
    cursor into the characters collected so far and the free room. *)
Lemma fillLineBuffer_loop_run input : forall fuel (s : device) pre suf,
  rx (_serial s) = input ->
  _lineBuffer s = pre ++ suf ->
  _lbFill s = Z.of_nat (length pre) ->
  Z.of_nat (length pre) < LINE_MAX_LENGTH < Z.of_nat (length pre + length suf) ->
  (length input < fuel)%nat ->
  (exists line rest,
     input = line ++ rest /\ line <> [] /\
     (is_terminator (List.last line NUL) \/
      Z.of_nat (length pre + length line) = LINE_MAX_LENGTH) /\
     Forall (fun c => ~ is_terminator c) (removelast line) /\
     Z.of_nat (length pre + length line) <= LINE_MAX_LENGTH /\
     fillLineBuffer_loop fuel s =
       Some (true,
             set_lbFill 0
               (set_lineBuffer (pre ++ line ++ NUL :: drop (S (length line)) suf)
                  (set_serial (set_rx rest (_serial s)) s)))) \/
  (Forall (fun c => ~ is_terminator c) input /\
   Z.of_nat (length pre + length input) < LINE_MAX_LENGTH /\
   fillLineBuffer_loop fuel s =
     Some (false,
           set_lbFill (Z.of_nat (length pre + length input))
             (set_lineBuffer (pre ++ input ++ drop (length input) suf)
                (set_serial (set_rx [] (_serial s)) s)))).
Proof.
  induction input as [|c input IH]; intros fuel s pre suf Hrx Hbuf Hfill Hroom Hfuel;
    (destruct fuel as [|fuel]; [simpl in Hfuel; lia|]).
  - right. split; [constructor|]. split; [simpl; lia|].
    cbn [fillLineBuffer_loop bytesAvailable BufferedSerial_serial].
    rewrite Hrx. change (Z.of_nat (length (@nil ascii)) =? 0) with true.
    cbn [length app]. rewrite drop_0, Nat.add_0_r, <- Hfill, <- Hbuf, <- Hrx.
    destruct s as [[? ? ?] ? ? ? ? ? ? ? ? ? ? ? ? ? ? ? ? ?]. reflexivity.
  - assert (Hsuf : (2 <= length suf)%nat) by lia.
    destruct suf as [|x suf]; [simpl in Hsuf; lia|].
    cbn [fillLineBuffer_loop bytesAvailable read BufferedSerial_serial bs_read].
    rewrite Hrx. cbn [hd tl].
    rewrite (proj2 (Z.eqb_neq _ _)) by (simpl; lia).
    simpl_device. rewrite Hbuf, Hfill.
    rewrite store_at_cursor by done. cbn [tl].
    destruct (Ascii.eqb c LF || Ascii.eqb c GT) eqn:Et.
    + left. exists [c], input. cbn [orb app length List.last removelast].
      split; [done|]. split; [done|].
      split; [left; now apply terminator_test|].
      split; [constructor|]. split; [lia|].
      replace (Z.to_nat (Z.of_nat (length pre) + 1)) with (S (length pre)) by lia.
      rewrite (insert_app_r_alt pre) by lia.
      replace (S (length pre) - length pre)%nat with 1%nat by lia.
      destruct suf as [|y suf]; [simpl in Hsuf; lia|]. reflexivity.
    + cbn [orb].
      destruct (Z.eqb_spec (Z.of_nat (length pre) + 1) LINE_MAX_LENGTH) as [Ecap|Ecap].
      * left. exists [c], input. cbn [app length List.last removelast].
        split; [done|]. split; [done|].
        split; [right; lia|]. split; [constructor|]. split; [lia|].
        replace (Z.to_nat (Z.of_nat (length pre) + 1)) with (S (length pre)) by lia.
        rewrite (insert_app_r_alt pre) by lia.
        replace (S (length pre) - length pre)%nat with 1%nat by lia.
        destruct suf as [|y suf]; [simpl in Hsuf; lia|]. reflexivity.
      * apply not_terminator_test in Et.
        set (s1 := set_lbFill _ _).
        destruct (IH fuel s1 (pre ++ [c]) suf) as
          [(line & rest & Hin & Hne & Hlast & Hnone & Hle & Hrun)
          |(Hnone & Hlt & Hrun)].
        { reflexivity. }
        { subst s1. simpl_device. now rewrite <- app_assoc. }
        { subst s1. simpl_device. rewrite length_app. simpl. lia. }
        { rewrite length_app. simpl in *. lia. }
        { simpl in Hfuel. lia. }
        -- left. exists (c :: line), rest.
           rewrite length_app in *. cbn [length] in *.
           split; [now rewrite Hin|]. split; [done|].
           split.
           { destruct line as [|y line]; [done|].
             cbn [List.last] in *. destruct Hlast as [Hl|Hl]; [now left|right; lia]. }
           split.
           { destruct line as [|y line]; [done|].
             change (removelast (c :: y :: line)) with (c :: removelast (y :: line)).
             now constructor. }
           split; [lia|].
           rewrite Hrun. subst s1. simpl_device.
           rewrite <- !app_assoc. reflexivity.
        -- right. rewrite length_app in *. cbn [length] in *.
           split; [now constructor|]. split; [lia|].
           rewrite Hrun. subst s1.
           replace (length pre + 1 + length input)%nat
             with (length pre + S (length input))%nat by lia.
           rewrite <- !app_assoc.
           destruct s as [[? ? ?] ? ? ? ? ? ? ? ? ? ? ? ? ? ? ? ? ?]. reflexivity.
Qed.

(** C7 (as amended).  While [LINE_READ] is clear, [fillLineBuffer]
    consumes nothing and returns false.  While it is set, it returns true
    exactly when one of the bytes it consumes is a line feed or the
    prompt, or brings the cursor to [LINE_MAX_LENGTH]: it then has
    consumed the input up to and including that byte and no further, has
    written a NUL after the line and has reset the cursor to zero, and no
    character of the line before its last one is a terminator.  When no
    byte of the input meets the condition it consumes all of the input,
    keeps it in the line buffer under the advanced cursor and returns
    false. *)
Theorem fillLineBuffer_spec (s : device) (fuel : nat) :
  line_inv s ->
  (length (rx (_serial s)) < fuel)%nat ->
  (flag LINE_READ s = false -> fillLineBuffer fuel s = Some (false, s)) /\
  (flag LINE_READ s = true ->
   let input := rx (_serial s) in
   let held := take (Z.to_nat (_lbFill s)) (_lineBuffer s) in
   (exists line rest s',
      fillLineBuffer fuel s = Some (true, s') /\
      input = line ++ rest /\ line <> [] /\
      (is_terminator (List.last line NUL) \/
       _lbFill s + Z.of_nat (length line) = LINE_MAX_LENGTH) /\
      Forall (fun c => ~ is_terminator c) (removelast line) /\
      _lbFill s + Z.of_nat (length line) <= LINE_MAX_LENGTH /\
      rx (_serial s') = rest /\
      _lbFill s' = 0 /\
      take (length held + length line + 1) (_lineBuffer s') =
        held ++ line ++ [NUL] /\
      Forall (fun c => ~ is_terminator c) (removelast (held ++ line)) /\
      line_inv s') \/
   (exists s',
      fillLineBuffer fuel s = Some (false, s') /\
      Forall (fun c => ~ is_terminator c) input /\
      _lbFill s + Z.of_nat (length input) < LINE_MAX_LENGTH /\
      rx (_serial s') = [] /\
      _lbFill s' = _lbFill s + Z.of_nat (length input) /\
      take (Z.to_nat (_lbFill s')) (_lineBuffer s') = held ++ input /\
      line_inv s')).
Proof.
  intros (Hfill & Hlen & Hheld) Hfuel. split.
  { intros Hflag. unfold fillLineBuffer. now rewrite Hflag. }
  intros Hflag input held.
  set (f := Z.to_nat (_lbFill s)) in *.
  assert (Hf : (f < length (_lineBuffer s))%nat) by lia.
  assert (Hpre : length held = f) by (subst held; rewrite length_take; lia).
  assert (Hsuf : (length (drop f (_lineBuffer s)) = length (_lineBuffer s) - f)%nat)
    by apply length_drop.
  unfold fillLineBuffer. rewrite Hflag.
  destruct (fillLineBuffer_loop_run input fuel s held (drop f (_lineBuffer s)))
    as [(line & rest & Hin & Hne & Hlast & Hnone & Hle & Hrun)
       |(Hnone & Hlt & Hrun)].
  { reflexivity. }
  { subst held. now rewrite take_drop. }
  { lia. }
  { lia. }
  { exact Hfuel. }
  - left. exists line, rest. eexists. split; [exact Hrun|].
    simpl_device. cbn [set_rx rx].
    split; [done|]. split; [done|].
    split; [destruct Hlast; [now left|right; lia]|].
    split; [done|]. split; [lia|]. split; [done|]. split; [done|].
    split.
    { replace (held ++ line ++ NUL :: drop (S (length line)) (drop f (_lineBuffer s)))
        with ((held ++ line ++ [NUL]) ++
              drop (S (length line)) (drop f (_lineBuffer s)))
        by (now rewrite <- !app_assoc).
      replace (length held + length line + 1)%nat
        with (length (held ++ line ++ [NUL]))
        by (rewrite !length_app; simpl; lia).
      apply take_app_length. }
    split.
    { rewrite removelast_app by done. apply Forall_app. split; done. }
    unfold line_inv. simpl_device. split; [lia|]. split; [|constructor].
    rewrite !length_app. cbn [length]. rewrite !length_drop. lia.
  - right. eexists. split; [exact Hrun|].
    simpl_device. cbn [set_rx rx].
    split; [done|]. split; [lia|]. split; [done|]. split; [lia|].
    assert (Htake : take (Z.to_nat (Z.of_nat (length held + length input)))
              (held ++ input ++ drop (length input) (drop f (_lineBuffer s))) =
            held ++ input).
    { rewrite Nat2Z.id, app_assoc.
      replace (length held + length input)%nat with (length (held ++ input))
        by now rewrite length_app.
      apply take_app_length. }
    split; [exact Htake|].
    unfold line_inv. simpl_device. split; [lia|]. split.
    + rewrite !length_app, !length_drop. lia.
    + rewrite Htake. apply Forall_app. split; done.
Qed.

End Reader.

Lemma sample_line_inv :
  line_inv (header := sample_header)
    (sample_device (sample_uart (lit "OK" ++ [CR; LF] ++ lit "ab") 64) [] []).
Proof.
  split; [simpl; lia|]. split; [vm_compute; reflexivity|constructor].
Defined.

Lemma fillLineBuffer_spec_witness :
  exists s',
    fillLineBuffer (header := sample_header) 7
      (sample_device (sample_uart (lit "OK" ++ [CR; LF] ++ lit "ab") 64) [] [])
      = Some (true, s') /\
    rx (_serial s') = lit "ab" /\
    cstr (_lineBuffer s') = lit "OK" ++ [CR; LF].
Proof.
  destruct (proj2 (fillLineBuffer_spec (header := sample_header)
                     (sample_device
                        (sample_uart (lit "OK" ++ [CR; LF] ++ lit "ab") 64) [] [])
                     7 sample_line_inv ltac:(simpl; lia)) eq_refl)
    as [(line & rest & s' & Hrun & _)|(s' & Hrun & _)].
  - exists s'. split; [exact Hrun|].
    vm_compute in Hrun. injection Hrun as <-. split; reflexivity.
  - vm_compute in Hrun. discriminate Hrun.
Defined.

(** C7 as stated fails: with [LINE_READ] clear and the bytes [ab]
    waiting, neither a terminator, [fillLineBuffer] returns false and
    consumes none of them. *)
Lemma fillLineBuffer_gate_cex :
  let s := set_stateBooleans 0
             (sample_device (sample_uart (lit "ab") 64) [] []) in
  Forall (fun c => ~ is_terminator c) (rx (_serial s)) /\
  fillLineBuffer (header := sample_header) 3 s = Some (false, s) /\
  rx (_serial s) = lit "ab" /\
  rx (_serial s) <> [].
Proof.
  split; [repeat constructor; intros [E|E]; discriminate E|].
  repeat split; discriminate.
Qed.


End LineReader.

(** ** The DNS reply *)

Module DnsReply.

Import SimCommDevice.

Lemma count_char_range c l : 0 <= count_char c l <= Z.of_nat (length l).
Proof.
  induction l as [|x l IH]; cbn [count_char length]; [lia|].
  destruct (Ascii.eqb x c); lia.
Qed.

(** The first loop counts the quotes of the C string in the array. *)
Lemma count_quotes_run post : forall pre q fuel tail,
  Forall (fun c => c <> NUL) post ->
  (length pre + length post <= 255)%nat ->
  (length post < fuel)%nat ->
  0 <= q -> q + count_char QUOTE post <= 255 ->
  count_quotes fuel (pre ++ post ++ NUL :: tail) (Z.of_nat (length pre)) q =
    Some (q + count_char QUOTE post).
Proof.
  induction post as [|c post IH]; intros pre q fuel tail Hnul Hlen Hfuel Hq Hcount;
    (destruct fuel as [|fuel]; [simpl in Hfuel; lia|]);
    cbn [count_quotes app]; rewrite Nat2Z.id, list_lookup_middle by done.
  - cbn [count_char]. rewrite Ascii.eqb_refl. f_equal. lia.
  - inversion Hnul as [|? ? Hc Hnul']; subst.
    rewrite (proj2 (Ascii.eqb_neq _ _) Hc).
    cbn [count_char length] in *.
    pose proof (count_char_range QUOTE post) as Hr.
    rewrite (u8_small (Z.of_nat (length pre) + 1)) by lia.
    replace (pre ++ c :: post ++ NUL :: tail)
      with ((pre ++ [c]) ++ post ++ NUL :: tail) by now rewrite <- app_assoc.
    replace (Z.of_nat (length pre) + 1) with (Z.of_nat (length (pre ++ [c])))
      by (rewrite length_app; simpl; lia).
    rewrite IH.
    + destruct (Ascii.eqb c QUOTE); [rewrite u8_small by lia|]; f_equal; lia.
    + done.
    + rewrite length_app. simpl. lia.
    + simpl in Hfuel. lia.
    + destruct (Ascii.eqb c QUOTE); [rewrite u8_small by lia|]; lia.
    + destruct (Ascii.eqb c QUOTE); [rewrite u8_small by lia|]; lia.
Qed.

Lemma after_quotes_suffix post : forall k,
  exists mid, post = mid ++ after_quotes k post.
Proof.
  induction post as [|c post IH]; intros k.
  - exists []. now destruct k.
  - destruct k as [|k]; [now exists []|]. cbn [after_quotes].
    destruct (Ascii.eqb c QUOTE).
    + destruct (IH k) as [mid Hmid]. exists (c :: mid). cbn [app]. now f_equal.
    + destruct (IH (S k)) as [mid Hmid]. exists (c :: mid). cbn [app]. now f_equal.
Qed.

(** The second loop stops right after the third quote. *)
Lemma skip_quotes_run post : forall pre k fuel tail,
  (k <= 3)%nat -> Z.of_nat k <= count_char QUOTE post ->
  (length pre + length post <= 255)%nat ->
  (length post < fuel)%nat ->
  exists mid,
    post = mid ++ after_quotes k post /\
    skip_quotes fuel (pre ++ post ++ tail) (Z.of_nat (length pre)) (3 - Z.of_nat k) =
      Some (Z.of_nat (length pre + length mid)).
Proof.
  induction post as [|c post IH]; intros pre k fuel tail Hk Hcount Hlen Hfuel;
    (destruct fuel as [|fuel]; [simpl in Hfuel; lia|]).
  - cbn [count_char] in Hcount. assert (k = 0%nat) as -> by lia.
    exists []. cbn [after_quotes app length skip_quotes Z.of_nat Z.sub Z.opp Z.add].
    rewrite Nat.add_0_r. done.
  - destruct k as [|k].
    + exists []. cbn [after_quotes app length skip_quotes].
      change (3 - Z.of_nat 0 <? 3) with false. cbn iota.
      rewrite Nat.add_0_r. done.
    + cbn [skip_quotes app after_quotes].
      rewrite (proj2 (Z.ltb_lt _ _)) by lia.
      rewrite Nat2Z.id, list_lookup_middle by done.
      cbn [count_char length] in *.
      rewrite (u8_small (Z.of_nat (length pre) + 1)) by lia.
      replace (pre ++ c :: post ++ tail)
        with ((pre ++ [c]) ++ post ++ tail) by now rewrite <- app_assoc.
      replace (Z.of_nat (length pre) + 1) with (Z.of_nat (length (pre ++ [c])))
        by (rewrite length_app; simpl; lia).
      destruct (Ascii.eqb c QUOTE).
      * rewrite u8_small by lia.
        replace (3 - Z.of_nat (S k) + 1) with (3 - Z.of_nat k) by lia.
        destruct (IH (pre ++ [c]) k fuel tail) as (mid & Hmid & Hrun);
          [lia|lia|rewrite length_app; simpl; lia|simpl in Hfuel; lia|].
        exists (c :: mid). split; [cbn [app]; now f_equal|].
        rewrite Hrun. f_equal. rewrite length_app. simpl. lia.
      * destruct (IH (pre ++ [c]) (S k) fuel tail) as (mid & Hmid & Hrun);
          [lia|lia|rewrite length_app; simpl; lia|simpl in Hfuel; lia|].
        exists (c :: mid). split; [cbn [app]; now f_equal|].
        rewrite Hrun. f_equal. rewrite length_app. simpl. lia.
Qed.

(** The third loop turns every quote from the cursor on into a NUL. *)
Lemma blank_quotes_run post : forall pre fuel tail,
  Forall (fun c => c <> NUL) post ->
  (length pre + length post <= 255)%nat ->
  (length post < fuel)%nat ->
  blank_quotes fuel (pre ++ post ++ NUL :: tail) (Z.of_nat (length pre)) =
    Some (pre ++ map blank post ++ NUL :: tail).
Proof.
  induction post as [|c post IH]; intros pre fuel tail Hnul Hlen Hfuel;
    (destruct fuel as [|fuel]; [simpl in Hfuel; lia|]);
    cbn [blank_quotes app map]; rewrite Nat2Z.id, list_lookup_middle by done.
  - now rewrite Ascii.eqb_refl.
  - inversion Hnul as [|? ? Hc Hnul']; subst.
    rewrite (proj2 (Ascii.eqb_neq _ _) Hc).
    cbn [length] in *.
    rewrite (u8_small (Z.of_nat (length pre) + 1)) by lia.
    assert (Hbuf : (if Ascii.eqb c QUOTE
                    then <[length pre := NUL]> (pre ++ c :: post ++ NUL :: tail)
                    else pre ++ c :: post ++ NUL :: tail) =
                   (pre ++ [blank c]) ++ post ++ NUL :: tail).
    { unfold blank. destruct (Ascii.eqb c QUOTE).
      - rewrite insert_app_r_alt, Nat.sub_diag by lia.
        now rewrite <- app_assoc.
      - now rewrite <- app_assoc. }
    rewrite Hbuf.
    replace (Z.of_nat (length pre) + 1) with (Z.of_nat (length (pre ++ [blank c])))
      by (rewrite length_app; simpl; lia).
    rewrite IH.
    + now rewrite <- app_assoc.
    + done.
    + rewrite length_app. simpl. lia.
    + simpl in Hfuel. lia.
Qed.

(** [strcpy] from the cursor then copies up to the first NUL: what was
    the next quote. *)
Lemma cstr_blank post : forall tail,
  Forall (fun c => c <> NUL) post ->
  cstr (map blank post ++ NUL :: tail) = until_quote post.
Proof.
  induction post as [|c post IH]; intros tail Hnul; [done|].
  inversion Hnul as [|? ? Hc Hnul']; subst.
  cbn [map app cstr until_quote].
  assert (Hb : blank c = if Ascii.eqb c QUOTE then NUL else c) by reflexivity.
  rewrite Hb. destruct (Ascii.eqb c QUOTE) eqn:E; [done|].
  rewrite (proj2 (Ascii.eqb_neq _ _) Hc). f_equal. now apply IH.
Qed.

Section Parser.

Context {S : Type} {serial : IBufferedSerial S} {header : Header}.

Local Abbreviation device := (SimCommDevice.t S).

Lemma parseDnsReply_line (s : device) (line junk : list ascii) :
  _lineBuffer s = line ++ NUL :: junk ->
  Forall (fun c => c <> NUL) line ->
  (length line <= 255)%nat ->
  strncmp0 (_lineBuffer s) (lit "+CDNSGIP: 1" ++ [NUL]) 11 = true ->
  (count_char QUOTE line < 4 \/ 10 < count_char QUOTE line ->
     parseDnsReply s = Some (false, set_connectState dnsError s)) /\
  (4 <= count_char QUOTE line <= 10 ->
     exists buf,
       parseDnsReply s =
         Some (true, set_ip (third_token line) (set_lineBuffer buf s)) /\
       length buf = length (_lineBuffer s)).
Proof.
  intros Hbuf Hnul Hlen Hstart.
  pose proof (count_char_range QUOTE line) as Hrange.
  assert (Hcount : count_quotes 257 (_lineBuffer s) 0 0 =
                   Some (count_char QUOTE line)).
  { rewrite Hbuf.
    apply (count_quotes_run line [] 0 257 junk); [done| | |done|lia].
    - cbn [length Nat.add]. exact Hlen.
    - lia. }
  unfold parseDnsReply. rewrite Hstart, Hcount. split.
  - intros [Hlt|Hgt].
    + now rewrite (proj2 (Z.ltb_lt _ _) Hlt).
    + rewrite (proj2 (Z.ltb_lt _ _) Hgt). now rewrite orb_true_r.
  - intros [Hlo Hhi].
    rewrite (proj2 (Z.ltb_ge _ _) Hlo), (proj2 (Z.ltb_ge _ _) Hhi). cbn [orb].
    destruct (skip_quotes_run line [] 3 769 (NUL :: junk)) as (mid & Hmid & Hskip);
      [lia|change (Z.of_nat 3) with 3; lia|cbn [length Nat.add]; exact Hlen|lia|].
    cbn [app length Nat.add] in Hskip.
    change (3 - Z.of_nat 3) with 0 in Hskip.
    change (Z.of_nat 0) with 0 in Hskip.
    rewrite Hbuf, Hskip.
    assert (Hafter : Forall (fun c => c <> NUL) (after_quotes 3 line)).
    { rewrite Hmid in Hnul. now apply Forall_app in Hnul as [_ ?]. }
    assert (Hsplit : line ++ NUL :: junk =
                     mid ++ after_quotes 3 line ++ NUL :: junk).
    { rewrite app_assoc. now rewrite <- Hmid. }
    assert (Hblank : blank_quotes 513 (line ++ NUL :: junk)
                       (Z.of_nat (length mid)) =
                     Some (mid ++ map blank (after_quotes 3 line) ++ NUL :: junk)).
    { rewrite Hsplit. apply blank_quotes_run; [done| |].
      - rewrite <- length_app, <- Hmid. exact Hlen.
      - rewrite Hmid, length_app in Hlen. lia. }
    exists (mid ++ map blank (after_quotes 3 line) ++ NUL :: junk).
    rewrite Hblank. split.
    + cbn [set_lineBuffer _lineBuffer]. rewrite Nat2Z.id, drop_app_length.
      rewrite cstr_blank by done. reflexivity.
    + rewrite Hsplit. rewrite !length_app, length_map. reflexivity.
Qed.

(** C4.  For a line that begins with [+CDNSGIP: 1]: with fewer than 4 or
    more than 10 double quotes in the line, [parseDnsReply] sets the phase
    to [dnsError] and returns false, and nothing else changes, the IP
    field included; otherwise it returns true with the token between the
    third and the fourth quote in the IP field, the phase as it was, and
    nothing changed besides but the contents of the line buffer. *)
Theorem parseDnsReply_spec (s : device) (rest junk : list ascii) :
  _lineBuffer s = (lit "+CDNSGIP: 1" ++ rest) ++ NUL :: junk ->
  Forall (fun c => c <> NUL) rest ->
  (length (lit "+CDNSGIP: 1" ++ rest) <= 255)%nat ->
  (count_char QUOTE (lit "+CDNSGIP: 1" ++ rest) < 4 \/
   10 < count_char QUOTE (lit "+CDNSGIP: 1" ++ rest) ->
     exists s',
       parseDnsReply s = Some (false, s') /\
       _connectState s' = dnsError /\
       _ip s' = _ip s /\
       s' = set_connectState dnsError s) /\
  (4 <= count_char QUOTE (lit "+CDNSGIP: 1" ++ rest) <= 10 ->
     exists s' buf,
       parseDnsReply s = Some (true, s') /\
       _ip s' = third_token (lit "+CDNSGIP: 1" ++ rest) /\
       _connectState s' = _connectState s /\
       _lineBuffer s' = buf /\
       length buf = length (_lineBuffer s) /\
       s' = set_ip (third_token (lit "+CDNSGIP: 1" ++ rest))
              (set_lineBuffer buf s)).
Proof.
  intros Hbuf Hrest Hlen.
  destruct (parseDnsReply_line s (lit "+CDNSGIP: 1" ++ rest) junk) as [Hbad Hgood].
  - exact Hbuf.
  - apply Forall_app. split; [|done]. repeat constructor; discriminate.
  - exact Hlen.
  - rewrite Hbuf. reflexivity.
  - split.
    + intros Hq. eexists. split; [now apply Hbad|].
      repeat split; reflexivity.
    + intros Hq. destruct (Hgood Hq) as (buf & Hrun & Hlenbuf).
      eexists. exists buf. split; [exact Hrun|].
      split; [reflexivity|]. split; [reflexivity|]. split; [reflexivity|].
      split; [exact Hlenbuf|reflexivity].
Qed.

End Parser.

Lemma parseDnsReply_spec_witness :
  let good := sample_device (sample_uart [] 64) dns_reply [] in
  let bad := sample_device (sample_uart [] 64)
               (lit "+CDNSGIP: 1," ++ [QUOTE] ++ lit "host" ++ [QUOTE; CR; LF]) [] in
  (exists s',
     parseDnsReply (header := sample_header) good = Some (true, s') /\
     _ip s' = lit "1.2.3.4" /\ _connectState s' = connecting) /\
  (exists s',
     parseDnsReply (header := sample_header) bad = Some (false, s') /\
     _connectState s' = dnsError /\ _ip s' = []).
Proof.
  split.
  - destruct (parseDnsReply_spec (header := sample_header)
                (sample_device (sample_uart [] 64) dns_reply [])
                dns_reply_tail (replicate 30 NUL) eq_refl
                ltac:(repeat constructor; discriminate)
                ltac:(vm_compute; lia)) as [_ Hgood].
    destruct (Hgood ltac:(vm_compute; split; discriminate))
      as (s' & buf & Hrun & Hip & Hphase & _).
    exists s'. split; [exact Hrun|]. split; [exact Hip|exact Hphase].
  - destruct (parseDnsReply_spec (header := sample_header)
                (sample_device (sample_uart [] 64)
                   (lit "+CDNSGIP: 1," ++ [QUOTE] ++ lit "host" ++ [QUOTE; CR; LF]) [])
                (lit "," ++ [QUOTE] ++ lit "host" ++ [QUOTE; CR; LF])
                (replicate 40 NUL) eq_refl
                ltac:(repeat constructor; discriminate)
                ltac:(vm_compute; lia)) as [Hbad _].
    destruct (Hbad ltac:(left; vm_compute; reflexivity))
      as (s' & Hrun & Hphase & Hip & _).
    exists s'. split; [exact Hrun|]. split; [exact Hphase|exact Hip].
Defined.

End DnsReply.

(** * Part III: further properties of the code *)

(** ** The circular buffer as a queue *)

Module RingExtra.

Import CircularBuffer RingQueue.

Section Facts.

Context {T : Type}.
Variable T0 : T.
Variable N : Z.
Hypothesis HN : 0 < N < 65536.

Local Abbreviation ring := (CircularBuffer.t T).

Lemma length_slots_from (r : ring) n : length (slots_from T0 N r n) = n.
Proof. unfold slots_from. now rewrite length_map, length_seq. Qed.

Lemma length_contents (r : ring) :
  length (contents T0 N r) = Z.to_nat (_availableData r).
Proof. apply length_slots_from. Qed.

(** The elements a run of the pull loop yields are the first slots from
    the read head on, and the ring it leaves starts at the next one. *)
Lemma pull_loop_split n : forall (r : ring) m,
  wf N r ->
  slots_from T0 N r (n + m) =
    fst (pull_loop T0 N n r) ++ slots_from T0 N (snd (pull_loop T0 N n r)) m /\
  _readHead (snd (pull_loop T0 N n r)) = (_readHead r + Z.of_nat n) mod N.
Proof.
  induction n as [|n IH]; intros r m Hr.
  - cbn [pull_loop fst snd Nat.add app]. split; [done|].
    destruct Hr as [_ Hrh _ _]. now rewrite Z.add_0_r, Z.mod_small by lia.
  - cbn [Nat.add]. rewrite (RingFacts.slots_from_fetch T0 N HN) by done.
    destruct (IH _ m (RingFacts.wf_fetch T0 N HN r Hr)) as [IH1 IH2].
    cbn [pull_loop]. unfold fetch in *. cbn [fst snd] in *.
    destruct (pull_loop T0 N n _) as [xs r']. cbn [fst snd] in *.
    rewrite IH1. split; [done|].
    rewrite IH2. cbn [_readHead]. destruct Hr as [_ Hrh _ _].
    rewrite (RingFacts.incr_mod N HN) by done.
    rewrite Z.add_mod_idemp_l by lia. f_equal. lia.
Qed.

(** A bulk pull from a coherent ring takes its oldest elements. *)
Lemma pull_bulk_contents size (r : ring) :
  wf N r -> coherent N r ->
  let k := Z.to_nat (Z.min size (_availableData r)) in
  fst (fst (pull_bulk T0 N size r)) = Z.of_nat k /\
  snd (fst (pull_bulk T0 N size r)) = take k (contents T0 N r) /\
  contents T0 N (snd (pull_bulk T0 N size r)) = drop k (contents T0 N r) /\
  coherent N (snd (pull_bulk T0 N size r)) /\
  wf N (snd (pull_bulk T0 N size r)).
Proof.
  intros Hr Hc k.
  pose proof (RingFacts.wf_pull_bulk T0 N HN size r Hr) as Hwf.
  unfold pull_bulk, availableData in *.
  assert (Hk : Z.to_nat (if _availableData r <? size then _availableData r else size)
               = k).
  { subst k. destruct (Z.ltb_spec (_availableData r) size); f_equal; lia. }
  rewrite Hk in *.
  destruct (wf_available _ _ Hr) as [Hlo Hhi].
  assert (Hka : (k <= Z.to_nat (_availableData r))%nat) by (subst k; lia).
  destruct (pull_loop_split k r (Z.to_nat (_availableData r) - k) Hr) as [Hs Hrh].
  pose proof (RingFacts.pull_loop_frame T0 N k r) as (Hw & Ha & _ & Hlen).
  destruct (pull_loop T0 N k r) as [out r'] eqn:E. cbn [fst snd] in *.
  replace (k + (Z.to_nat (_availableData r) - k))%nat
    with (Z.to_nat (_availableData r)) in Hs by lia.
  assert (Hav : u16 (_availableData r' - Z.of_nat (length out)) =
                _availableData r - Z.of_nat k).
  { rewrite Ha, Hlen. apply u16_small. lia. }
  split; [now rewrite Hlen|].
  assert (Hcont : contents T0 N r =
                  out ++ contents T0 N
                    (set_availableData (u16 (_availableData r' - Z.of_nat (length out))) r')).
  { unfold contents at 1. rewrite Hs. f_equal. unfold contents.
    cbn [set_availableData _availableData]. rewrite Hav.
    rewrite RingFacts.slots_from_set_availableData. f_equal. lia. }
  split; [|split; [|split; [|exact Hwf]]].
  - rewrite Hcont, <- Hlen. now rewrite take_app_length.
  - rewrite Hcont. rewrite <- Hlen. now rewrite drop_app_length.
  - unfold coherent in *. cbn [set_availableData _writeHead _readHead _availableData].
    rewrite Hav, Hw, Hrh, Hc. rewrite Z.add_mod_idemp_l by lia. f_equal. lia.
Qed.

Lemma contents_flush (r : ring) :
  contents T0 N (flush r) = [] /\ coherent N (flush r).
Proof.
  split; [reflexivity|]. unfold coherent. cbn. now rewrite Z.mod_0_l by lia.
Qed.

(** One call within the room of a coherent ring acts on the unread
    elements as on a queue and leaves the ring coherent. *)
Lemma run_op_queue (o : op T) (r : ring) :
  wf N r -> coherent N r -> in_room N o r ->
  contents T0 N (run_op T0 N o r) = queue_step N o (contents T0 N r) /\
  coherent N (run_op T0 N o r) /\
  wf N (run_op T0 N o r).
Proof.
  intros Hr Hc Ho.
  destruct (wf_available _ _ Hr) as [Hlo Hhi].
  assert (Hlen : Z.of_nat (length (contents T0 N r)) = _availableData r)
    by (rewrite length_contents; lia).
  destruct o as [data size|x|size| | |]; cbn [run_op queue_step in_room] in *.
  - destruct (RingFacts.push_bulk_contents T0 N HN data size r Hr Hc) as [H1 H2];
      [lia|].
    rewrite H1, Hlen, (RingFacts.availableSpace_eq N HN) by done.
    split; [done|]. split; [done|]. apply (RingFacts.wf_push_bulk N HN); [done|lia].
  - destruct (RingFacts.push_contents T0 N HN x r Hr Hc Ho) as [H1 H2].
    split; [done|]. split; [done|]. now apply (RingFacts.wf_push N HN).
  - destruct (pull_bulk_contents size r Hr Hc) as (_ & _ & H1 & H2 & H3).
    rewrite H1, Hlen. done.
  - destruct (RingFacts.pull_contents T0 N HN r Hr Hc Ho) as (H1 & H2 & _).
    rewrite H1. cbn [tl]. split; [done|]. split; [done|].
    now apply (RingFacts.wf_pull T0 N HN).
  - done.
  - destruct (contents_flush r) as [H1 H2]. split; [done|]. split; [done|].
    now apply (RingFacts.wf_flush N HN).
Qed.

Lemma run_ops_queue os : forall r : ring,
  wf N r -> coherent N r -> all_in_room T0 N os r ->
  contents T0 N (run_ops T0 N os r) =
    fold_left (fun q o => queue_step N o q) os (contents T0 N r) /\
  coherent N (run_ops T0 N os r) /\
  wf N (run_ops T0 N os r).
Proof.
  induction os as [|o os IH]; intros r Hr Hc Hos; [done|].
  destruct Hos as [Ho Hos].
  destruct (run_op_queue o r Hr Hc Ho) as (H1 & H2 & H3).
  unfold run_ops in *. cbn [fold_left]. rewrite <- H1. now apply IH.
Qed.

Lemma read_oldest (r : ring) :
  wf N r -> 0 < _availableData r ->
  read T0 r = hd T0 (contents T0 N r) /\
  fst (pull T0 N r) = hd T0 (contents T0 N r).
Proof.
  intros Hr Hpos. unfold contents.
  replace (Z.to_nat (_availableData r)) with (S (Z.to_nat (_availableData r - 1)))
    by lia.
  rewrite (RingFacts.slots_from_fetch T0 N HN) by done. cbn [hd].
  split; reflexivity.
Qed.

Lemma push_chunks_contents chunks : forall r : ring,
  wf N r -> coherent N r ->
  _availableData r + Z.of_nat (length (concat chunks)) <= N ->
  contents T0 N (push_chunks N chunks r) = contents T0 N r ++ concat chunks /\
  coherent N (push_chunks N chunks r) /\
  wf N (push_chunks N chunks r) /\
  _availableData (push_chunks N chunks r) =
    _availableData r + Z.of_nat (length (concat chunks)).
Proof.
  induction chunks as [|c chunks IH]; intros r Hr Hc Hfit.
  - cbn [push_chunks concat length]. rewrite app_nil_r.
    split; [done|]. split; [done|]. split; [done|]. cbn. lia.
  - cbn [push_chunks concat] in *. rewrite length_app in Hfit.
    destruct (wf_available _ _ Hr) as [Hlo Hhi].
    destruct (RingFacts.push_bulk_contents T0 N HN c (Z.of_nat (length c)) r Hr Hc)
      as [H1 H2]; [lia|].
    pose proof (RingFacts.wf_push_bulk N HN c (Z.of_nat (length c)) r Hr
                  ltac:(lia)) as H3.
    destruct (RingFacts.push_bulk_available N HN c (Z.of_nat (length c)) r Hr
                ltac:(lia)) as [H4 _].
    pose proof (RingFacts.push_bulk_count N HN c (Z.of_nat (length c)) r Hr
                  ltac:(lia)) as H5.
    rewrite (RingFacts.availableSpace_eq N HN) in H1, H5 by done.
    rewrite Z.min_l in H1, H5 by lia. rewrite Nat2Z.id, firstn_all in H1.
    rewrite H5 in H4.
    destruct (IH _ H3 H2) as (I1 & I2 & I3 & I4); [lia|].
    rewrite I1, H1, I4, H4, length_app, <- app_assoc.
    split; [done|]. split; [done|]. split; [done|]. lia.
Qed.

Lemma pull_after_underflow x (r : ring) :
  1 < N -> wf N r -> coherent N r -> _availableData r = 0 ->
  fst (pull T0 N (push N x (snd (pull T0 N r)))) =
    nth (Z.to_nat ((_readHead r + 1) mod N)) (_buffer r) T0 /\
  _availableData (snd (pull T0 N (push N x (snd (pull T0 N r))))) = 0 /\
  _buffer (push N x (snd (pull T0 N r))) !! Z.to_nat (_readHead r) = Some x.
Proof.
  intros H1 Hr Hc Hempty. unfold coherent in Hc.
  destruct Hr as [Hw Hrh _ Hb].
  destruct r as [wh rh a buf].
  cbn [_writeHead _readHead _availableData _buffer] in *. subst a.
  rewrite Z.add_0_r, Z.mod_small in Hc by lia. subst wh.
  assert (Hlt : (0 <? N) = true) by (apply Z.ltb_lt; lia).
  unfold pull, push, fetch, store.
  cbn [fst snd _availableData _readHead _writeHead _buffer set_availableData].
  change (0 <? 0) with false. cbn iota.
  cbn [fst snd _availableData _readHead _writeHead _buffer set_availableData].
  rewrite Hlt.
  cbn [fst snd _availableData _readHead _writeHead _buffer set_availableData].
  change (u16 (0 + 1)) with 1. change (0 <? 1) with true. cbn iota.
  cbn [fst snd _availableData _readHead _writeHead _buffer set_availableData].
  change (u16 (1 - 1)) with 0.
  rewrite (RingFacts.incr_mod N HN) by done.
  split; [|split; [done|]].
  - rewrite !nth_lookup, list_lookup_insert_ne; [done|].
    intros E. apply Z2Nat.inj in E; [|lia|apply Z.mod_pos_bound; lia].
    rewrite mod_once in E by lia.
    destruct (rh + 1 <? N); lia.
  - apply list_lookup_insert_eq. lia.
Qed.

Lemma push_available (x : T) (r : ring) :
  wf N r -> _availableData r < N ->
  _availableData (push N x r) = _availableData r + 1.
Proof.
  intros Hr Hlt. unfold push. cbn [store _availableData].
  rewrite (proj2 (Z.ltb_lt _ _) Hlt). cbn [set_availableData _availableData].
  destruct (wf_available _ _ Hr). apply u16_small. lia.
Qed.

(** Single-element pushes of a list that fits the free space of a
    coherent ring append the list. *)
Lemma pushes_contents xs : forall r : ring,
  wf N r -> coherent N r ->
  _availableData r + Z.of_nat (length xs) <= N ->
  contents T0 N (run_ops T0 N (map OpPush xs) r) = contents T0 N r ++ xs /\
  coherent N (run_ops T0 N (map OpPush xs) r) /\
  wf N (run_ops T0 N (map OpPush xs) r).
Proof.
  induction xs as [|x xs IH]; intros r Hr Hc Hfit.
  - cbn. now rewrite app_nil_r.
  - cbn [length] in Hfit. unfold run_ops in *. cbn [map fold_left run_op].
    destruct (RingFacts.push_contents T0 N HN x r Hr Hc) as [H1 H2]; [lia|].
    destruct (IH (push N x r)) as (I1 & I2 & I3);
      [now apply (RingFacts.wf_push N HN)|done|rewrite push_available by (done || lia); lia|].
    rewrite I1, H1, <- app_assoc. done.
Qed.

End Facts.

(** X1.  After [flush()], whatever the ring was before, and so also from
    the constructor on, a sequence of calls in which no single-element
    push meets a full ring and no single-element pull an empty one keeps
    the ring coherent and acts on its unread elements as on a queue. *)
Theorem ring_is_queue {T : Type} (T0 : T) (N : Z) (r0 : CircularBuffer.t T)
    (os : list (op T)) :
  0 < N < 65536 -> wf N r0 -> all_in_room T0 N os (flush r0) ->
  contents T0 N (run_ops T0 N os (flush r0)) =
    fold_left (fun q o => queue_step N o q) os [] /\
  coherent N (run_ops T0 N os (flush r0)) /\
  0 <= _availableData (run_ops T0 N os (flush r0)) <= N.
Proof.
  intros HN Hr Hos.
  destruct (contents_flush T0 N HN r0) as [Hq Hc].
  destruct (run_ops_queue T0 N HN os (flush r0)) as (H1 & H2 & H3);
    [now apply (RingFacts.wf_flush N HN)|done|done|].
  rewrite Hq in H1. split; [done|]. split; [done|]. apply (wf_available _ _ H3).
Qed.

Lemma ring_is_queue_witness :
  contents NUL 2
    (run_ops NUL 2 [OpPush "a"; OpPushBulk ["b"; "c"] 2; OpPull; OpPush "d"]%char
       (flush (empty NUL 2))) = ["b"; "d"]%char.
Proof.
  apply (ring_is_queue NUL 2 (empty NUL 2)
           [OpPush "a"; OpPushBulk ["b"; "c"] 2; OpPull; OpPush "d"]%char).
  - lia.
  - split; cbv; repeat split; solve [reflexivity | discriminate].
  - cbv. repeat split; solve [reflexivity | discriminate].
Defined.

(** X2.  On a coherent ring a bulk pull returns as many elements as were
    asked for, cut to [availableData]; they are the oldest unread ones, in
    order, and they are gone from the ring afterwards.  [read()] and
    [pull()] both return the oldest unread element of a ring that holds
    one. *)
Theorem reads_return_oldest {T : Type} (T0 : T) (N : Z) (size : Z)
    (r : CircularBuffer.t T) :
  0 < N < 65536 -> wf N r -> coherent N r -> 0 <= size ->
  fst (fst (pull_bulk T0 N size r)) = Z.min size (_availableData r) /\
  snd (fst (pull_bulk T0 N size r)) =
    take (Z.to_nat (Z.min size (_availableData r))) (contents T0 N r) /\
  contents T0 N (snd (pull_bulk T0 N size r)) =
    drop (Z.to_nat (Z.min size (_availableData r))) (contents T0 N r) /\
  (0 < _availableData r ->
     read T0 r = hd T0 (contents T0 N r) /\
     fst (pull T0 N r) = hd T0 (contents T0 N r) /\
     contents T0 N (snd (pull T0 N r)) = tl (contents T0 N r)).
Proof.
  intros HN Hr Hc Hs.
  destruct (pull_bulk_contents T0 N HN size r Hr Hc) as (H1 & H2 & H3 & _).
  destruct (wf_available _ _ Hr) as [Hlo Hhi].
  split; [rewrite H1; lia|]. split; [done|]. split; [done|].
  intros Hpos. destruct (read_oldest T0 N HN r Hr Hpos) as [R1 R2].
  split; [done|]. split; [done|].
  destruct (RingFacts.pull_contents T0 N HN r Hr Hc Hpos) as (P1 & _).
  now rewrite P1.
Qed.

Lemma reads_return_oldest_witness :
  let r := snd (push_bulk 4 ["a"; "b"; "c"]%char 3 (empty NUL 4)) in
  snd (fst (pull_bulk NUL 4 2 r)) = ["a"; "b"]%char /\
  contents NUL 4 (snd (pull_bulk NUL 4 2 r)) = ["c"%char] /\
  read NUL r = "a"%char.
Proof.
  destruct (reads_return_oldest NUL 4 2
              (snd (push_bulk 4 ["a"; "b"; "c"]%char 3 (empty NUL 4))))
    as (_ & H2 & H3 & H4).
  - lia.
  - split; cbv; repeat split; solve [reflexivity | discriminate].
  - reflexivity.
  - lia.
  - destruct (H4 ltac:(cbv; reflexivity)) as (R & _).
    repeat split; assumption.
Defined.

(** X3.  The byte-stream law: after [flush()], bulk pushes of chunks whose
    total length is within the capacity, followed by one bulk pull of
    that total length, return the chunks joined in order and leave the
    ring empty. *)
Theorem byte_stream_law {T : Type} (T0 : T) (N : Z) (r0 : CircularBuffer.t T)
    (chunks : list (list T)) :
  0 < N < 65536 -> wf N r0 -> Z.of_nat (length (concat chunks)) <= N ->
  let total := Z.of_nat (length (concat chunks)) in
  let r := push_chunks N chunks (flush r0) in
  fst (fst (pull_bulk T0 N total r)) = total /\
  snd (fst (pull_bulk T0 N total r)) = concat chunks /\
  _availableData (snd (pull_bulk T0 N total r)) = 0 /\
  contents T0 N (snd (pull_bulk T0 N total r)) = [].
Proof.
  intros HN Hr Hfit total r.
  destruct (contents_flush T0 N HN r0) as [Hq Hc].
  destruct (push_chunks_contents T0 N HN chunks (flush r0)) as (H1 & H2 & H3 & H4);
    [now apply (RingFacts.wf_flush N HN)|done|cbn; lia|].
  rewrite Hq in H1. cbn [flush _availableData] in H4. fold r in H1, H2, H3, H4.
  destruct (pull_bulk_contents T0 N HN total r H3 H2) as (P1 & P2 & P3 & _ & P5).
  rewrite H4, Z.add_0_l, Z.min_id in P1, P2, P3. subst total.
  rewrite Nat2Z.id in P1, P2, P3. rewrite H1 in P2, P3.
  rewrite firstn_all in P2. rewrite drop_all in P3.
  split; [done|]. split; [done|]. split; [|done].
  pose proof (length_contents T0 N (snd (pull_bulk T0 N
                (Z.of_nat (length (concat chunks))) r))) as Hl.
  rewrite P3 in Hl. cbn [length] in Hl.
  destruct (wf_available _ _ P5). lia.
Qed.

Lemma byte_stream_law_witness :
  let r := push_chunks 8 [lit "AT"; lit "+"; lit "CSQ"] (flush (empty NUL 8)) in
  snd (fst (pull_bulk NUL 8 6 r)) = lit "AT+CSQ".
Proof.
  apply (byte_stream_law NUL 8 (empty NUL 8) [lit "AT"; lit "+"; lit "CSQ"]).
  - lia.
  - split; cbv; repeat split; solve [reflexivity | discriminate].
  - cbv. discriminate.
Defined.

(** X4.  [pull()] on an empty coherent ring of more than one slot puts
    the ring out of step: the element pushed next is stored in the ring,
    yet the [pull()] after that returns the stale content of the
    following slot instead and leaves [availableData] at zero, so the
    pushed element is not delivered. *)
Theorem underflow_loses_next_push {T : Type} (T0 : T) (N : Z) (x : T)
    (r : CircularBuffer.t T) :
  1 < N < 65536 -> wf N r -> coherent N r -> _availableData r = 0 ->
  fst (pull T0 N (push N x (snd (pull T0 N r)))) =
    nth (Z.to_nat ((_readHead r + 1) mod N)) (_buffer r) T0 /\
  _availableData (snd (pull T0 N (push N x (snd (pull T0 N r))))) = 0 /\
  _buffer (push N x (snd (pull T0 N r))) !! Z.to_nat (_readHead r) = Some x.
Proof.
  intros HN Hr Hc Hempty.
  apply (pull_after_underflow T0 N); (done || lia).
Qed.

Lemma underflow_loses_next_push_witness :
  fst (pull NUL 2 (push 2 "a"%char (snd (pull NUL 2 (empty NUL 2))))) = NUL.
Proof.
  apply (underflow_loses_next_push NUL 2 "a"%char (empty NUL 2)).
  - lia.
  - split; cbv; repeat split; solve [reflexivity | discriminate].
  - reflexivity.
  - reflexivity.
Defined.

End RingExtra.

(** ** The rest of the session engine *)

Lemma lor_lnot_mask w m : Z.land w m = 0 -> Z.land (Z.lor w m) (Z.lnot m) = w.
Proof.
  intros Hclear. apply Z.bits_inj'. intros i Hi.
  assert (Hbit : Z.testbit (Z.land w m) i = false) by (rewrite Hclear; apply Z.bits_0).
  rewrite Z.land_spec in Hbit.
  rewrite Z.land_spec, Z.lor_spec, Z.lnot_spec by done.
  destruct (Z.testbit w i), (Z.testbit m i); (reflexivity || discriminate).
Qed.

(** The clamp [if (b < a) a = b], as a minimum. *)
Lemma clamp_min a b : (if b <? a then b else a) = Z.min a b.
Proof. destruct (Z.ltb_spec b a); lia. Qed.

Lemma length_utoa_aux fuel : forall n acc,
  (length (utoa_aux fuel n acc) <= fuel + length acc)%nat.
Proof.
  induction fuel as [|fuel IH]; intros n acc; cbn [utoa_aux]; [lia|].
  destruct (n / 10 =? 0); [simpl; lia|].
  specialize (IH (n / 10) (digit_char (n mod 10) :: acc)). simpl in IH. lia.
Qed.

(** [sscanf] with [%u] reads back what [%u] printed. *)
Lemma sscanf_u_utoa n rest :
  0 <= n <= UINT_MAX -> is_digit (hd NUL rest) = false ->
  sscanf_u (utoa n ++ rest) = Some (Some n).
Proof.
  intros Hn Hrest. unfold sscanf_u, utoa.
  destruct (utoa_aux_head 9 n []) as (d & tl & E & Hd).
  destruct (digit_char_props d Hd) as (Hdig & _ & Hsp & Hminus & Hplus).
  assert (Hscan : scan_digits 0 (utoa_aux 10 n [] ++ rest) = n).
  { rewrite utoa_aux_app. cbn [app]. rewrite scan_utoa_aux.
    - now apply scan_digits_stop.
    - unfold UINT_MAX in Hn. change (10 ^ Z.of_nat 10) with 10000000000. lia. }
  rewrite E in *. cbn [app skip_spaces] in *.
  rewrite Hsp, Hminus, Hplus. cbn [hd]. rewrite Hdig, Hscan.
  now rewrite (proj2 (Z.leb_le _ _)) by lia.
Qed.

(** With nothing that starts a number in front, [%u] converts nothing. *)
Lemma sscanf_u_nothing c rest :
  is_space c = false -> is_digit c = false ->
  Ascii.eqb c "-"%char = false -> Ascii.eqb c "+"%char = false ->
  sscanf_u (c :: rest) = Some None.
Proof.
  intros Hsp Hdig Hminus Hplus. unfold sscanf_u. cbn [skip_spaces].
  now rewrite Hsp, Hminus, Hplus; cbn [hd]; rewrite Hdig.
Qed.

(** [strncmp] finds a string at the start of an array that begins with
    it, and only there. *)
Lemma strncmp0_starts p : forall rest tail,
  Forall (fun c => c <> NUL) p ->
  strncmp0 (p ++ rest) (p ++ tail) (length p) = true.
Proof.
  induction p as [|c p IH]; intros rest tail Hp; [done|].
  inversion Hp as [|? ? Hc Hp']; subst.
  cbn [length strncmp0 app hd tl]. rewrite Ascii.eqb_refl.
  rewrite (proj2 (Ascii.eqb_neq _ _) Hc). now apply IH.
Qed.

Lemma strncmp0_only_starts p : forall a tail,
  Forall (fun c => c <> NUL) p ->
  strncmp0 a (p ++ tail) (length p) = true -> take (length p) a = p.
Proof.
  induction p as [|c p IH]; intros a tail Hp Hcmp; [done|].
  inversion Hp as [|? ? Hc Hp']; subst.
  cbn [length strncmp0 app hd tl] in Hcmp.
  destruct a as [|x a]; cbn [hd tl] in Hcmp.
  - destruct (Ascii.eqb_spec NUL c); [congruence|discriminate].
  - destruct (Ascii.eqb_spec x c) as [->|]; [|discriminate].
    rewrite (proj2 (Ascii.eqb_neq _ _) Hc) in Hcmp.
    cbn [length firstn]. f_equal. now apply (IH a tail).
Qed.

Lemma cstr_app p : forall tail,
  Forall (fun c => c <> NUL) p -> cstr (p ++ NUL :: tail) = p.
Proof.
  induction p as [|c p IH]; intros tail Hp; [done|].
  inversion Hp as [|? ? Hc Hp']; subst. cbn [app cstr].
  rewrite (proj2 (Ascii.eqb_neq _ _) Hc). f_equal. now apply IH.
Qed.

Module EngineExtra.

Import SimCommDevice SimEngine.

Section Generic.

Context {S : Type} {serial : IBufferedSerial S} {window : IBufferedSerialWindow S}
        {header : Header} {constants : EngineConstants}.

Local Abbreviation device := (SimCommDevice.t S).

Ltac simpl_device :=
  cbn [set_serial set_writeBuffer set_lineBuffer set_lbFill set_connectState
       set_bytesToWrite set_bytesToReceive set_bytesToRead set_waitForReply
       set_stateBooleans set_ip set_readBuffer set_sendState set_rssi
       set_idStringBuffer
       _serial _readBufferSize _writeBufferSize _readBuffer _writeBuffer
       _lineBuffer _lbFill _sendState _replyState _connectState _bytesToWrite
       _bytesToReceive _bytesToRead _waitForReply _stateBooleans _rssi
       _idStringBuffer _ip] in *.

Lemma serialUnlock_clears (s : device) :
  Z.land (_stateBooleans (serialUnlock s)) SERIAL_LOCKED = 0.
Proof. unfold serialUnlock. simpl_device. apply land_lnot_mask. Qed.

Lemma serialUnlock_serialLock (s : device) :
  Z.land (_stateBooleans s) SERIAL_LOCKED = 0 ->
  _waitForReply s = None -> _replyState s = 0 ->
  serialUnlock (snd (serialLock s)) = s.
Proof.
  intros Hclear Hw Hr. rewrite (SimFacts.serialLock_granted s Hw Hr).
  unfold serialUnlock. cbn [snd]. simpl_device.
  rewrite lor_lnot_mask by done. destruct s; reflexivity.
Qed.

(** X5.  [serialUnlock] always clears [SERIAL_LOCKED]: after it,
    [serialWrite] and [serialRead] return 0 and leave the state alone.
    Unlocking after a granted lock gives back the state the lock was
    taken in, when the flag was clear there. *)
Theorem lock_unlock_round_trip (s : device) (data : list ascii) (maxSize : Z) :
  Z.land (_stateBooleans (serialUnlock s)) SERIAL_LOCKED = 0 /\
  serialWrite data (serialUnlock s) = (0, serialUnlock s) /\
  serialRead maxSize (serialUnlock s) = (0, [], serialUnlock s) /\
  (Z.land (_stateBooleans s) SERIAL_LOCKED = 0 ->
   _waitForReply s = None -> _replyState s = 0 ->
   fst (serialLock s) = true /\ serialUnlock (snd (serialLock s)) = s).
Proof.
  pose proof (serialUnlock_clears s) as Hc.
  split; [done|]. unfold serialWrite, serialRead.
  rewrite (SimFacts.flag_clear _ _ Hc).
  split; [done|]. split; [done|].
  intros Hclear Hw Hr. split; [|now apply serialUnlock_serialLock].
  now rewrite (SimFacts.serialLock_granted s Hw Hr).
Qed.

Lemma parseCsq_number (s : device) n rest :
  0 <= n <= UINT_MAX -> is_digit (hd NUL rest) = false ->
  _lineBuffer s = lit "+CSQ: " ++ utoa n ++ rest ->
  parseCsq s = Some (true, set_rssi (n mod 256) s).
Proof.
  intros Hn Hrest Hline. unfold parseCsq. rewrite Hline.
  change (strncmp0 _ _ 6) with true. cbn iota.
  change (drop 6 _) with (utoa n ++ rest).
  now rewrite sscanf_u_utoa.
Qed.

Lemma parseCsq_no_number (s : device) c rest :
  is_space c = false -> is_digit c = false ->
  Ascii.eqb c "-"%char = false -> Ascii.eqb c "+"%char = false ->
  _lineBuffer s = lit "+CSQ: " ++ c :: rest ->
  parseCsq s = Some (true, s).
Proof.
  intros Hsp Hdig Hminus Hplus Hline. unfold parseCsq. rewrite Hline.
  change (strncmp0 _ _ 6) with true. cbn iota.
  change (drop 6 _) with (c :: rest).
  now rewrite sscanf_u_nothing.
Qed.

(** X6.  [requestRSSI] makes [getRSSI] return 255 until a reply comes.  A
    line [+CSQ: <n>...] then makes [parseCsq] return true and [getRSSI]
    return [n] modulo 256, so [n] itself below 256; a line [+CSQ: ] with
    no number behind it is accepted as well and leaves the RSSI as it
    was. *)
Theorem rssi_request_reply (s : device) (n : Z) (c : ascii) (rest : list ascii) :
  0 <= n <= UINT_MAX -> is_digit (hd NUL rest) = false ->
  is_space c = false -> is_digit c = false ->
  Ascii.eqb c "-"%char = false -> Ascii.eqb c "+"%char = false ->
  getRSSI (requestRSSI s) = 255 /\
  (_lineBuffer s = lit "+CSQ: " ++ utoa n ++ rest ->
     exists s', parseCsq (requestRSSI s) = Some (true, s') /\
                getRSSI s' = n mod 256 /\
                (n < 256 -> getRSSI s' = n)) /\
  (_lineBuffer s = lit "+CSQ: " ++ c :: rest ->
     parseCsq (requestRSSI s) = Some (true, requestRSSI s)).
Proof.
  intros Hn Hrest Hsp Hdig Hminus Hplus. split; [reflexivity|]. split.
  - intros Hline. eexists. split.
    + apply (parseCsq_number (requestRSSI s) n rest); done.
    + unfold getRSSI. simpl_device. split; [done|].
      intros Hlt. apply Z.mod_small. lia.
  - intros Hline. now apply (parseCsq_no_number (requestRSSI s) c rest).
Qed.

Lemma handle_pending mask (w : Z) :
  (Z.land (Z.land w (Z.lnot mask)) mask =? 0) = true.
Proof. rewrite land_lnot_mask. reflexivity. Qed.

(** X7.  [handleDisconnect] and [handleConnect] take a pending request
    once: with the flag set the call returns true, stores the next send
    state and clears the flag, so that a second call returns false and
    changes nothing; with the flag clear the call returns false and
    changes nothing. *)
Theorem handle_pending_once (s : device) (next next' : Z) :
  (flag DISCONNECT_PENDING s = true ->
     fst (handleDisconnect next s) = true /\
     _sendState (snd (handleDisconnect next s)) = next /\
     handleDisconnect next' (snd (handleDisconnect next s)) =
       (false, snd (handleDisconnect next s))) /\
  (flag DISCONNECT_PENDING s = false -> handleDisconnect next s = (false, s)) /\
  (flag CONNECT_PENDING s = true ->
     fst (handleConnect next s) = true /\
     _sendState (snd (handleConnect next s)) = next /\
     handleConnect next' (snd (handleConnect next s)) =
       (false, snd (handleConnect next s))) /\
  (flag CONNECT_PENDING s = false -> handleConnect next s = (false, s)).
Proof.
  unfold handleDisconnect, handleConnect.
  split; [|split; [|split]].
  - intros ->. cbn [fst snd]. split; [done|]. split; [done|].
    unfold flag. simpl_device. now rewrite handle_pending.
  - now intros ->.
  - intros ->. cbn [fst snd]. split; [done|]. split; [done|].
    unfold flag. simpl_device. now rewrite handle_pending.
  - now intros ->.
Qed.

(** The copy loop of [parseIDReply], with the identity buffer split at
    the count: it copies up to the carriage return [c], or until the
    count reaches [IDSTRING_MAX_LENGTH - 1]. *)
Lemma copy_id_run a : forall pre suf c rest,
  Forall (fun x => x <> CR) a ->
  Z.of_nat (length pre + length a) <= IDSTRING_MAX_LENGTH - 1 ->
  c = CR \/ Z.of_nat (length pre + length a) = IDSTRING_MAX_LENGTH - 1 ->
  (length a <= length suf)%nat ->
  copy_id (a ++ c :: rest) (pre ++ suf) (Z.of_nat (length pre)) =
    Some (pre ++ a ++ drop (length a) suf, Z.of_nat (length pre + length a)).
Proof.
  induction a as [|x a IH]; intros pre suf c rest Ha Hfit Hstop Hsuf.
  - cbn [app copy_id length] in *. rewrite drop_0, Nat.add_0_r in *.
    destruct Hstop as [->|Hfull].
    + now rewrite Ascii.eqb_refl.
    + rewrite (proj2 (Z.ltb_ge _ _)) by lia. now rewrite andb_false_r.
  - inversion Ha as [|? ? Hx Ha']; subst.
    cbn [app copy_id length] in *.
    rewrite (proj2 (Ascii.eqb_neq _ _) Hx), (proj2 (Z.ltb_lt _ _)) by lia.
    cbn [negb andb].
    destruct suf as [|y suf]; [simpl in Hsuf; lia|].
    rewrite LineReader.store_at_cursor by done. cbn [tl drop].
    replace (pre ++ x :: suf) with ((pre ++ [x]) ++ suf) by now rewrite <- app_assoc.
    replace (Z.of_nat (length pre) + 1) with (Z.of_nat (length (pre ++ [x])))
      by (rewrite length_app; simpl; lia).
    rewrite IH.
    + rewrite <- app_assoc, length_app. cbn [app length]. do 3 f_equal. lia.
    + done.
    + rewrite length_app. simpl. lia.
    + rewrite length_app. simpl.
      destruct Hstop as [->|Hfull]; [now left|right; lia].
    + simpl in Hsuf. lia.
Qed.

Lemma parseIDReply_copies (s : device) (id rest : list ascii) :
  _lineBuffer s = id ++ CR :: rest ->
  Forall (fun x => x <> CR) id -> id <> [] -> take 2 id <> lit "AT" ->
  0 < IDSTRING_MAX_LENGTH ->
  Z.of_nat (length (_idStringBuffer s)) = IDSTRING_MAX_LENGTH ->
  let kept := take (Z.to_nat (IDSTRING_MAX_LENGTH - 1)) id in
  parseIDReply s =
    Some (true,
          set_idStringBuffer
            (kept ++ NUL :: drop (Datatypes.S (length kept)) (_idStringBuffer s)) s).
Proof.
  intros Hline Hid Hne Hecho Hmax Hlen kept.
  assert (Hat : strncmp0 (_lineBuffer s) (lit "AT" ++ [NUL]) 2 = false).
  { destruct (strncmp0 (_lineBuffer s) (lit "AT" ++ [NUL]) 2) eqn:E; [|done].
    apply (strncmp0_only_starts (lit "AT") _ [NUL]) in E;
      [|repeat constructor; discriminate].
    exfalso. rewrite Hline in E.
    destruct id as [|x [|y id]]; [done| |]; cbn in E.
    - injection E as _ E. discriminate E.
    - apply Hecho. exact E. }
  assert (Hcr : Ascii.eqb (hd NUL (_lineBuffer s)) CR = false).
  { rewrite Hline. destruct id as [|x id]; [done|].
    inversion Hid; subst. cbn [app hd]. now apply Ascii.eqb_neq. }
  unfold parseIDReply. rewrite Hat, Hcr. cbn [orb].
  assert (Hsplit : exists c tail,
            id ++ CR :: rest = kept ++ c :: tail /\
            (c = CR \/ Z.of_nat (length kept) = IDSTRING_MAX_LENGTH - 1)).
  { destruct (Nat.le_gt_cases (length id) (Z.to_nat (IDSTRING_MAX_LENGTH - 1)))
      as [Hshort|Hlong].
    - exists CR, rest. subst kept. rewrite firstn_all2 by done. split; [done|now left].
    - destruct (drop (Z.to_nat (IDSTRING_MAX_LENGTH - 1)) id) as [|c tail] eqn:Ed.
      + apply (f_equal length) in Ed. rewrite length_drop in Ed. simpl in Ed. lia.
      + exists c, (tail ++ CR :: rest). split.
        * rewrite <- (take_drop (Z.to_nat (IDSTRING_MAX_LENGTH - 1)) id) at 1.
          rewrite Ed. subst kept. now rewrite <- app_assoc.
        * right. subst kept. rewrite length_take. lia. }
  destruct Hsplit as (c & tail & Hsplit & Hstop).
  assert (Hkept : Forall (fun x => x <> CR) kept).
  { subst kept. rewrite <- (take_drop (Z.to_nat (IDSTRING_MAX_LENGTH - 1)) id) in Hid.
    now apply Forall_app in Hid as [? _]. }
  assert (Hklen : Z.of_nat (length kept) <= IDSTRING_MAX_LENGTH - 1).
  { subst kept. rewrite length_take. lia. }
  rewrite Hline, Hsplit.
  assert (Hrun := copy_id_run kept [] (_idStringBuffer s) c tail Hkept).
  cbn [app length Nat.add] in Hrun. change (Z.of_nat 0) with 0 in Hrun.
  rewrite Hrun; [|lia|exact Hstop|lia].
  do 3 f_equal. rewrite Nat2Z.id.
  rewrite (insert_app_r_alt kept) by lia. rewrite Nat.sub_diag.
  destruct (drop (length kept) (_idStringBuffer s)) as [|y suf] eqn:Ed.
  - apply (f_equal length) in Ed. rewrite length_drop in Ed. simpl in Ed. lia.
  - assert (Hd : drop (Datatypes.S (length kept)) (_idStringBuffer s) =
                 drop 1 (drop (length kept) (_idStringBuffer s)))
      by (rewrite drop_drop; f_equal; lia).
    rewrite Hd, Ed. reflexivity.
Qed.

(** X8.  A line that is neither a command echo nor empty makes
    [parseIDReply] return true with the text before the carriage return
    as the C string in the identity buffer, cut to
    [IDSTRING_MAX_LENGTH - 1] characters; a line that starts with [AT] or
    with the carriage return makes it return false and changes
    nothing. *)
Theorem identity_reply_stored (s : device) (id rest : list ascii) :
  Forall (fun x => x <> CR) id -> Forall (fun x => x <> NUL) id ->
  id <> [] -> take 2 id <> lit "AT" ->
  0 < IDSTRING_MAX_LENGTH ->
  Z.of_nat (length (_idStringBuffer s)) = IDSTRING_MAX_LENGTH ->
  (_lineBuffer s = id ++ CR :: rest ->
     exists s', parseIDReply s = Some (true, s') /\
                cstr (getIDString s') = take (Z.to_nat (IDSTRING_MAX_LENGTH - 1)) id /\
                length (getIDString s') = length (getIDString s)) /\
  (_lineBuffer s = lit "AT" ++ rest -> parseIDReply s = Some (false, s)) /\
  (_lineBuffer s = CR :: rest -> parseIDReply s = Some (false, s)).
Proof.
  intros Hcr Hnul Hne Hecho Hmax Hlen. split; [|split].
  - intros Hline. eexists. split.
    + now apply (parseIDReply_copies s id rest).
    + unfold getIDString. simpl_device. split.
      * apply cstr_app.
        rewrite <- (take_drop (Z.to_nat (IDSTRING_MAX_LENGTH - 1)) id) in Hnul.
        now apply Forall_app in Hnul as [? _].
      * rewrite length_app. cbn [length]. rewrite length_drop, length_take.
        destruct (_idStringBuffer s); simpl in *; lia.
  - intros Hline. unfold parseIDReply. rewrite Hline. reflexivity.
  - intros Hline. unfold parseIDReply. rewrite Hline. cbn [hd].
    rewrite Ascii.eqb_refl. now rewrite orb_true_r.
Qed.

Lemma sendIDRequest_fires (s : device) (type : ascii) :
  (2 <= length (_idStringBuffer s))%nat -> flag LINE_READ s = true ->
  type <> noRequest ->
  nth 1 (_idStringBuffer (requestIDString type s)) NUL = type /\
  nth 0 (_idStringBuffer (requestIDString type s)) NUL = NUL /\
  <[1%nat := noRequest]> (_idStringBuffer (requestIDString type s)) =
    <[1%nat := noRequest]> (<[0%nat := NUL]> (_idStringBuffer s)) /\
  flag LINE_READ (requestIDString type s) = true.
Proof.
  intros Hlen Hflag Hty. unfold requestIDString. simpl_device.
  destruct (_idStringBuffer s) as [|a [|b l]]; simpl in Hlen; try lia.
  repeat split; done.
Qed.

Lemma sendIDRequest_once (s s' : device) :
  (2 <= length (_idStringBuffer s))%nat ->
  sendIDRequest s = (true, s') -> sendIDRequest s' = (false, s').
Proof.
  intros Hlen Hrun.
  assert (Htag : nth 1 (_idStringBuffer s') NUL = noRequest).
  { unfold sendIDRequest in Hrun.
    destruct (negb (Ascii.eqb (nth 1 (_idStringBuffer s) NUL) noRequest)
              && Ascii.eqb (nth 0 (_idStringBuffer s) NUL) NUL
              && flag LINE_READ s); [|discriminate].
    assert (Hins : nth 1 (<[1%nat := noRequest]> (_idStringBuffer s)) NUL = noRequest).
    { destruct (_idStringBuffer s) as [|a [|b l]]; simpl in Hlen; try lia.
      reflexivity. }
    destruct (Ascii.eqb _ manufacturer);
      [|destruct (Ascii.eqb _ model);
        [|destruct (Ascii.eqb _ imei);
          [|destruct (Ascii.eqb _ imsi); [|discriminate]]]];
      injection Hrun as <-; exact Hins. }
  unfold sendIDRequest. rewrite Htag, Ascii.eqb_refl. reflexivity.
Qed.

(** X9.  After [requestIDString(type)], with [LINE_READ] set,
    [sendIDRequest] returns true and sends the command of the type:
    [AT+CGMI] for [manufacturer], [AT+CGMM] for [model], [AT+CGSN] for
    [imei], [AT+CIMI] for [imsi]; it resets the tag to [noRequest], so
    that whenever it has returned true a second call returns false and
    sends nothing. *)
Theorem identity_request_sent_once (s : device) :
  (2 <= length (_idStringBuffer s))%nat -> flag LINE_READ s = true ->
  NoDup [manufacturer; model; imei; imsi; noRequest] ->
  let served :=
    set_idStringBuffer (<[1%nat := noRequest]> (<[0%nat := NUL]> (_idStringBuffer s))) s in
  sendIDRequest (requestIDString manufacturer s) =
    (true, sendCommand (lit "AT+CGMI" ++ [NUL]) served) /\
  sendIDRequest (requestIDString model s) =
    (true, sendCommand (lit "AT+CGMM" ++ [NUL]) served) /\
  sendIDRequest (requestIDString imei s) =
    (true, sendCommand (lit "AT+CGSN" ++ [NUL]) served) /\
  sendIDRequest (requestIDString imsi s) =
    (true, sendCommand (lit "AT+CIMI" ++ [NUL]) served) /\
  (forall s1 s2 : device,
     (2 <= length (_idStringBuffer s1))%nat ->
     sendIDRequest s1 = (true, s2) -> sendIDRequest s2 = (false, s2)).
Proof.
  intros Hlen Hflag Hdup served.
  rewrite !list.NoDup_cons, !not_elem_of_cons in Hdup.
  destruct Hdup as ((M1 & M2 & M3 & M4 & _) & (D1 & D2 & D3 & _) &
                    (I1 & I2 & _) & (J1 & _) & _).
  assert (Hfire : forall type, type <> noRequest ->
            sendIDRequest (requestIDString type s) =
              let s := served in
              if Ascii.eqb type manufacturer
              then (true, sendCommand (lit "AT+CGMI" ++ [NUL]) s)
              else if Ascii.eqb type model
              then (true, sendCommand (lit "AT+CGMM" ++ [NUL]) s)
              else if Ascii.eqb type imei
              then (true, sendCommand (lit "AT+CGSN" ++ [NUL]) s)
              else if Ascii.eqb type imsi
              then (true, sendCommand (lit "AT+CIMI" ++ [NUL]) s)
              else (false, s)).
  { intros type Hty.
    destruct (sendIDRequest_fires s type Hlen Hflag Hty) as (E1 & E0 & Eb & Ef).
    unfold sendIDRequest. rewrite E1, E0, Ef, Eb.
    rewrite (proj2 (Ascii.eqb_neq _ _) Hty). cbn [negb andb].
    rewrite Ascii.eqb_refl. cbn [andb].
    subst served. unfold requestIDString.
    destruct s; reflexivity. }
  split; [|split; [|split; [|split]]].
  - rewrite Hfire by done. cbv zeta. now rewrite Ascii.eqb_refl.
  - rewrite Hfire by done. cbv zeta.
    rewrite (proj2 (Ascii.eqb_neq model manufacturer)) by congruence.
    now rewrite Ascii.eqb_refl.
  - rewrite Hfire by done. cbv zeta.
    rewrite (proj2 (Ascii.eqb_neq imei manufacturer)) by congruence.
    rewrite (proj2 (Ascii.eqb_neq imei model)) by congruence.
    now rewrite Ascii.eqb_refl.
  - rewrite Hfire by done. cbv zeta.
    rewrite (proj2 (Ascii.eqb_neq imsi manufacturer)) by congruence.
    rewrite (proj2 (Ascii.eqb_neq imsi model)) by congruence.
    rewrite (proj2 (Ascii.eqb_neq imsi imei)) by congruence.
    now rewrite Ascii.eqb_refl.
  - intros s1 s2. apply sendIDRequest_once.
Qed.

(** X10.  [checkConnectionState] looks for the data notification first: a
    line that begins with [+CIPRXGET: 1,0] sets [DATA_PENDING] and
    nothing else, whatever the close notification is.  Any other line
    that begins with the close notification clears [IP_CONNECTED] and
    the pending reply; a line that begins with neither changes
    nothing. *)
Theorem connection_notifications (s : device) (cv junk rest : list ascii) :
  Forall (fun c => c <> NUL) cv ->
  (_lineBuffer s = lit "+CIPRXGET: 1,0" ++ rest ->
     checkConnectionState (cv ++ NUL :: junk) s =
       set_stateBooleans (Z.lor (_stateBooleans s) DATA_PENDING) s) /\
  (take 14 (_lineBuffer s) <> lit "+CIPRXGET: 1,0" ->
   _lineBuffer s = cv ++ rest ->
     checkConnectionState (cv ++ NUL :: junk) s =
       set_stateBooleans (Z.land (_stateBooleans s) (Z.lnot IP_CONNECTED))
         (set_waitForReply None s)) /\
  (take 14 (_lineBuffer s) <> lit "+CIPRXGET: 1,0" ->
   take (length cv) (_lineBuffer s) <> cv ->
     checkConnectionState (cv ++ NUL :: junk) s = s).
Proof.
  intros Hcv.
  assert (Hdata : take 14 (_lineBuffer s) <> lit "+CIPRXGET: 1,0" ->
                  strncmp0 (_lineBuffer s) (lit "+CIPRXGET: 1,0" ++ [NUL]) 14 = false).
  { intros Hne.
    destruct (strncmp0 (_lineBuffer s) (lit "+CIPRXGET: 1,0" ++ [NUL]) 14) eqn:E;
      [|done].
    apply (strncmp0_only_starts (lit "+CIPRXGET: 1,0") _ [NUL]) in E;
      [done|repeat constructor; discriminate]. }
  unfold checkConnectionState. rewrite (cstr_app cv junk Hcv).
  split; [|split].
  - intros Hline. rewrite Hline. reflexivity.
  - intros Hne Hline. rewrite (Hdata Hne), Hline.
    now rewrite (strncmp0_starts cv rest (NUL :: junk) Hcv).
  - intros Hne Hncv. rewrite (Hdata Hne).
    destruct (strncmp0 (_lineBuffer s) (cv ++ NUL :: junk) (length cv)) eqn:E;
      [|done].
    now apply (strncmp0_only_starts cv _ (NUL :: junk)) in E.
Qed.


End Generic.

(** *** Over the buffered UART *)

Lemma bs_write_fits (data : list ascii) (u : BufferedSerial) :
  Z.of_nat (length data) <= txSpace u ->
  bs_write data u =
    (Z.of_nat (length data),
     {| rx := rx u; tx := tx u ++ data;
        txSpace := txSpace u - Z.of_nat (length data) |}).
Proof. intros Hfit. unfold bs_write. now rewrite take_ge by lia. Qed.

Lemma write_all_fits (xs : list ascii) : forall u : BufferedSerial,
  Z.of_nat (length xs) <= txSpace u ->
  write_all xs u =
    {| rx := rx u; tx := tx u ++ xs; txSpace := txSpace u - Z.of_nat (length xs) |}.
Proof.
  induction xs as [|x xs IH]; intros u Hfit.
  - cbn. rewrite app_nil_r, Z.sub_0_r. now destruct u.
  - unfold write_all in *. cbn [fold_left writeByte BufferedSerial_serial length] in *.
    rewrite bs_write_fits by (simpl; lia). cbn [snd].
    rewrite IH by (simpl; lia). cbn [rx tx txSpace length].
    rewrite <- app_assoc. cbn [app]. f_equal. lia.
Qed.

Section Mock.

Context {header : Header} {constants : EngineConstants}.

Local Abbreviation device := (SimCommDevice.t BufferedSerial).

Ltac simpl_device :=
  cbn [set_serial set_writeBuffer set_lineBuffer set_lbFill set_connectState
       set_bytesToWrite set_bytesToReceive set_bytesToRead set_waitForReply
       set_stateBooleans set_ip set_readBuffer set_sendState set_rssi
       set_idStringBuffer
       _serial _readBufferSize _writeBufferSize _readBuffer _writeBuffer
       _lineBuffer _lbFill _sendState _replyState _connectState _bytesToWrite
       _bytesToReceive _bytesToRead _waitForReply _stateBooleans _rssi
       _idStringBuffer _ip] in *.

Lemma flushReadBuffer_loop_run input : forall fuel (s : device) n,
  rx (_serial s) = input -> _bytesToRead s = Z.of_nat n -> Z.of_nat n < 65536 ->
  (Nat.min n (length input) < fuel)%nat ->
  flushReadBuffer_loop fuel s =
    Some (set_bytesToRead (Z.of_nat (n - Nat.min n (length input)))
            (set_serial (set_rx (drop (Nat.min n (length input)) input) (_serial s)) s)).
Proof.
  induction input as [|c input IH]; intros fuel s n Hrx Hb Hn Hfuel;
    (destruct fuel as [|fuel]; [lia|]);
    destruct s as [[rx0 tx0 sp] ? ? ? ? ? ? ? ? ? ? ? btr ? ? ? ? ?];
    simpl_device; cbn [rx tx txSpace set_rx] in *; subst rx0 btr;
    cbn [flushReadBuffer_loop bytesAvailable read BufferedSerial_serial bs_read];
    simpl_device; cbn [rx tx txSpace set_rx hd tl].
  - cbn [length]. change (Z.of_nat 0 =? 0) with true.
    rewrite andb_false_r, Nat.min_0_r, Nat.sub_0_r. reflexivity.
  - destruct n as [|n].
    + change (Z.of_nat 0 =? 0) with true. cbn [negb andb Nat.min Nat.sub drop].
      reflexivity.
    + rewrite !(proj2 (Z.eqb_neq _ _)) by (simpl; lia). cbn [negb andb].
      rewrite u16_small by lia.
      rewrite (IH fuel _ n); simpl_device; cbn [set_rx rx tx txSpace];
        [|done|lia|lia|simpl in Hfuel; lia].
      cbn [length Nat.min Nat.sub drop]. reflexivity.
Qed.

(** X12.  [flushReadBuffer] reads and discards the pending payload bytes
    that have arrived, [min(bytesToRead, bytesAvailable)] of them, and
    leaves the others in the UART; it lowers [bytesToRead] by that
    count, zeroes [bytesToReceive], and sets [LINE_READ] exactly when
    [bytesToRead] has reached zero.  Nothing goes to the read ring. *)
Theorem flushReadBuffer_spec (s : device) (fuel : nat) :
  0 <= _bytesToRead s < 65536 ->
  (Z.to_nat (_bytesToRead s) < fuel)%nat ->
  let k := Z.min (_bytesToRead s) (Z.of_nat (length (rx (_serial s)))) in
  exists s',
    flushReadBuffer fuel s = Some s' /\
    rx (_serial s') = drop (Z.to_nat k) (rx (_serial s)) /\
    tx (_serial s') = tx (_serial s) /\
    _bytesToRead s' = _bytesToRead s - k /\
    _bytesToReceive s' = 0 /\
    _readBuffer s' = _readBuffer s /\
    (_bytesToRead s <= Z.of_nat (length (rx (_serial s))) ->
       _stateBooleans s' = Z.lor (_stateBooleans s) LINE_READ) /\
    (Z.of_nat (length (rx (_serial s))) < _bytesToRead s ->
       _stateBooleans s' = _stateBooleans s).
Proof.
  intros Hb Hfuel k.
  pose proof (flushReadBuffer_loop_run (rx (_serial s)) fuel s
                (Z.to_nat (_bytesToRead s)) eq_refl ltac:(lia) ltac:(lia)
                ltac:(lia)) as Hrun.
  set (m := Nat.min (Z.to_nat (_bytesToRead s)) (length (rx (_serial s)))) in *.
  assert (Hk : Z.to_nat k = m) by (subst k m; lia).
  unfold flushReadBuffer. rewrite Hrun. simpl_device.
  eexists. split; [reflexivity|].
  destruct (Z.eqb_spec (Z.of_nat (Z.to_nat (_bytesToRead s) - m)) 0) as [E|E];
    simpl_device; cbn [set_rx rx tx]; rewrite Hk;
    (split; [done|]); (split; [done|]); (split; [lia|]); (split; [done|]);
    (split; [done|]); split; intros Hcase; (done || lia).
Qed.

Lemma receive_loop_run n : forall fuel (s : device),
  _bytesToRead s = Z.of_nat n -> Z.of_nat n < 65536 ->
  (n <= length (rx (_serial s)))%nat -> (n < fuel)%nat ->
  receive_loop fuel s =
    Some (set_bytesToRead 0
            (set_readBuffer
               (CircularBuffer.run_ops NUL (_readBufferSize s)
                  (map CircularBuffer.OpPush (take n (rx (_serial s))))
                  (_readBuffer s))
               (set_serial (set_rx (drop n (rx (_serial s))) (_serial s)) s))).
Proof.
  induction n as [|n IH]; intros fuel s Hb Hn Hrx Hfuel;
    (destruct fuel as [|fuel]; [lia|]);
    destruct s as [[rx0 tx0 sp] ? ? ? ? ? ? ? ? ? ? ? btr ? ? ? ? ?];
    simpl_device; cbn [rx tx txSpace set_rx] in *; subst btr;
    cbn [receive_loop]; simpl_device.
  - change (Z.of_nat 0 =? 0) with true. cbn iota. rewrite drop_0. reflexivity.
  - rewrite (proj2 (Z.eqb_neq _ _)) by lia.
    cbn [read BufferedSerial_serial bs_read].
    destruct rx0 as [|c input]; [simpl in Hrx; lia|].
    simpl_device. cbn [rx tx txSpace set_rx hd tl]. rewrite u16_small by lia.
    rewrite IH; simpl_device; cbn [set_rx rx tx txSpace];
      [|lia|lia|simpl in Hrx; lia|lia].
    reflexivity.
Qed.

Lemma receive_run (s : device) (fuel : nat) :
  0 <= _bytesToRead s < 65536 -> (Z.to_nat (_bytesToRead s) < fuel)%nat ->
  _bytesToRead s <= Z.of_nat (length (rx (_serial s))) ->
  receive fuel s =
    Some (true,
          set_stateBooleans (Z.lor (_stateBooleans s) LINE_READ)
            (set_bytesToRead 0
               (set_readBuffer
                  (CircularBuffer.run_ops NUL (_readBufferSize s)
                     (map CircularBuffer.OpPush
                        (take (Z.to_nat (_bytesToRead s)) (rx (_serial s))))
                     (_readBuffer s))
                  (set_serial
                     (set_rx (drop (Z.to_nat (_bytesToRead s)) (rx (_serial s)))
                        (_serial s)) s)))).
Proof.
  intros Hb Hfuel Hle. unfold receive. cbn [bytesAvailable BufferedSerial_serial].
  rewrite (proj2 (Z.leb_le _ _)) by lia.
  now rewrite (receive_loop_run (Z.to_nat (_bytesToRead s)) fuel s) by lia.
Qed.

(** X13.  [receive] is all or nothing.  With fewer than [bytesToRead]
    bytes waiting it returns false and changes nothing.  Otherwise it
    returns true, takes exactly [bytesToRead] bytes from the UART,
    leaves [bytesToRead] at zero and sets [LINE_READ]; when the read
    ring is coherent and has room for them, the bytes are appended to
    its unread contents in the order they arrived. *)
Theorem receive_all_or_nothing (s : device) (fuel : nat) :
  0 <= _bytesToRead s < 65536 -> (Z.to_nat (_bytesToRead s) < fuel)%nat ->
  0 < _readBufferSize s < 65536 ->
  (Z.of_nat (length (rx (_serial s))) < _bytesToRead s ->
     receive fuel s = Some (false, s)) /\
  (_bytesToRead s <= Z.of_nat (length (rx (_serial s))) ->
     exists s',
       receive fuel s = Some (true, s') /\
       rx (_serial s') = drop (Z.to_nat (_bytesToRead s)) (rx (_serial s)) /\
       _bytesToRead s' = 0 /\
       _stateBooleans s' = Z.lor (_stateBooleans s) LINE_READ /\
       (CircularBuffer.wf (_readBufferSize s) (_readBuffer s) ->
        CircularBuffer.coherent (_readBufferSize s) (_readBuffer s) ->
        _bytesToRead s <=
          CircularBuffer.availableSpace (_readBufferSize s) (_readBuffer s) ->
          CircularBuffer.contents NUL (_readBufferSize s) (_readBuffer s') =
            CircularBuffer.contents NUL (_readBufferSize s) (_readBuffer s) ++
            take (Z.to_nat (_bytesToRead s)) (rx (_serial s)) /\
          CircularBuffer.coherent (_readBufferSize s) (_readBuffer s'))).
Proof.
  intros Hb Hfuel HN. split.
  - intros Hlt. unfold receive. cbn [bytesAvailable BufferedSerial_serial].
    now rewrite (proj2 (Z.leb_gt _ _)) by lia.
  - intros Hle. rewrite receive_run by done.
    eexists. split; [reflexivity|]. simpl_device. cbn [set_rx rx].
    do 3 (split; [done|]).
    intros Hwf Hc Hroom.
    rewrite (RingFacts.availableSpace_eq _ HN) in Hroom by done.
    destruct (RingExtra.pushes_contents NUL (_readBufferSize s) HN
                (take (Z.to_nat (_bytesToRead s)) (rx (_serial s)))
                (_readBuffer s) Hwf Hc) as (H1 & H2 & _); [|done].
    rewrite length_take. lia.
Qed.

(** X14.  A granted receive window: after [parseCiprxget2] has read the
    line [+CIPRXGET: 2,0,<n>], with the [n] payload bytes waiting in the
    UART, [receive] moves exactly these bytes to the read ring, in
    order, leaves what follows them in the UART, and sets [LINE_READ]
    again; [bytesToRead] is back at zero and [bytesToReceive] is lower
    by [n]. *)
Theorem granted_window_received (s : device) (n : Z)
    (rest payload more : list ascii) (fuel : nat) :
  Z.of_nat (length payload) = n -> n < 65536 -> (length payload < fuel)%nat ->
  is_digit (hd NUL rest) = false ->
  0 <= _bytesToReceive s < 65536 -> _bytesToRead s = 0 ->
  _lineBuffer s = lit "+CIPRXGET: 2,0," ++ utoa n ++ rest ->
  rx (_serial s) = payload ++ more ->
  0 < _readBufferSize s < 65536 ->
  CircularBuffer.wf (_readBufferSize s) (_readBuffer s) ->
  CircularBuffer.coherent (_readBufferSize s) (_readBuffer s) ->
  n <= CircularBuffer.availableSpace (_readBufferSize s) (_readBuffer s) ->
  exists s1 s2,
    parseCiprxget2 s = Some (true, s1) /\
    receive fuel s1 = Some (true, s2) /\
    CircularBuffer.contents NUL (_readBufferSize s) (_readBuffer s2) =
      CircularBuffer.contents NUL (_readBufferSize s) (_readBuffer s) ++ payload /\
    rx (_serial s2) = more /\
    _bytesToRead s2 = 0 /\
    _bytesToReceive s2 = u16 (_bytesToReceive s - n) /\
    Z.land (_stateBooleans s2) LINE_READ = LINE_READ.
Proof.
  intros Hlen Hn Hfuel Hrest Ha Hb Hline Hrx HN Hwf Hc Hroom.
  pose proof (SimFacts.parseCiprxget2_grant s n rest
                ltac:(unfold INT_MAX; lia) Hrest Ha ltac:(lia) Hline) as Hparse.
  rewrite Hb, Z.add_0_l, (u16_small n) in Hparse by lia.
  eexists. eexists. split; [exact Hparse|].
  rewrite receive_run; simpl_device; [|lia|lia|rewrite Hrx, length_app; lia].
  split; [reflexivity|]. simpl_device. cbn [set_rx rx].
  rewrite Hrx, <- Hlen, Nat2Z.id, take_app_length, drop_app_length.
  rewrite (RingFacts.availableSpace_eq _ HN) in Hroom by done.
  destruct (RingExtra.pushes_contents NUL (_readBufferSize s) HN payload
              (_readBuffer s) Hwf Hc) as (H1 & _); [lia|].
  split; [exact H1|]. split; [done|]. split; [done|]. split; [done|].
  apply land_lor_mask.
Qed.

(** X15.  [sendDnsQuery] never sends part of a command: with fewer than
    [strlen(host) + 20] bytes of transmit space it returns false and
    writes nothing; otherwise it returns true and the UART has taken the
    whole of [AT+CDNSGIP=<q>host<q>] and the line end, [<q>] being the
    double quote. *)
Theorem sendDnsQuery_whole_or_nothing (s : device) (host junk : list ascii) :
  Forall (fun c => c <> NUL) host ->
  (txSpace (_serial s) < Z.of_nat (length host) + 20 ->
     sendDnsQuery (host ++ NUL :: junk) s = (false, s)) /\
  (Z.of_nat (length host) + 20 <= txSpace (_serial s) ->
     exists s',
       sendDnsQuery (host ++ NUL :: junk) s = (true, s') /\
       tx (_serial s') =
         tx (_serial s) ++ lit "AT+CDNSGIP=" ++ [QUOTE] ++ host ++ [QUOTE; CR; LF] /\
       txSpace (_serial s') = txSpace (_serial s) - (Z.of_nat (length host) + 15) /\
       rx (_serial s') = rx (_serial s)).
Proof.
  intros Hhost. unfold sendDnsQuery. rewrite (cstr_app host junk Hhost).
  cbn [spaceAvailable write BufferedSerial_serial]. split.
  - intros Hlt. now rewrite (proj2 (Z.ltb_lt _ _)) by lia.
  - intros Hle. rewrite (proj2 (Z.ltb_ge _ _)) by lia.
    eexists. split; [reflexivity|]. simpl_device.
    rewrite (bs_write_fits (lit "AT+CDNSGIP=" ++ [QUOTE])) by (simpl; lia).
    cbn [snd]. rewrite (bs_write_fits host) by (simpl; lia).
    cbn [snd rx tx txSpace]. rewrite bs_write_fits by (simpl; lia).
    cbn [snd rx tx txSpace]. rewrite <- !app_assoc.
    split; [reflexivity|]. split; [simpl; lia|reflexivity].
Qed.

(** X16.  [sendCiprxget2] returns false and writes nothing unless the
    UART receive queue has more than 8 free bytes and the read ring has
    room.  Otherwise it asks for
    [min(rxFree - 8, bytesToReceive, ring space, modem maximum)] bytes:
    it sends [AT+CIPRXGET=2,0,<g>] and the line end, and changes nothing
    but the UART.  The grant never exceeds the room of the read ring. *)
Theorem sendCiprxget2_grant (s : device) (capacity modemMax : Z) :
  let free := capacity - Z.of_nat (length (rx (_serial s))) in
  let room := CircularBuffer.availableSpace (_readBufferSize s) (_readBuffer s) in
  let g := Z.min (Z.min (Z.min (free - 8) (_bytesToReceive s)) room) modemMax in
  (free <= 8 \/ room <= 0 ->
     sendCiprxget2 (window := BufferedSerial_window capacity) modemMax s = (false, s)) /\
  (8 < free < 65536 -> 0 < room -> 0 <= _bytesToReceive s -> 0 <= modemMax ->
   28 <= txSpace (_serial s) ->
     sendCiprxget2 (window := BufferedSerial_window capacity) modemMax s =
       (true,
        set_serial
          {| rx := rx (_serial s);
             tx := tx (_serial s) ++ lit "AT+CIPRXGET=2,0," ++ utoa g ++ [CR; LF];
             txSpace := txSpace (_serial s) -
                        Z.of_nat (length (lit "AT+CIPRXGET=2,0," ++ utoa g ++ [CR; LF])) |}
          s) /\
     scan_digits 0 (utoa g) = g /\ 0 <= g <= room).
Proof.
  intros free room g. unfold sendCiprxget2.
  cbn [readBufferSize bytesAvailable write writeBuf BufferedSerial_serial
       BufferedSerial_window].
  fold free. fold room. split.
  - intros [Hfree|Hroom].
    + now rewrite (proj2 (Z.ltb_ge 8 free)) by lia.
    + rewrite (proj2 (Z.ltb_ge 0 room)) by lia. now rewrite andb_false_r.
  - intros Hfree Hroom Hb Hmax Hsp.
    rewrite (proj2 (Z.ltb_lt 8 free)), (proj2 (Z.ltb_lt 0 room)) by lia.
    cbn [andb]. rewrite (u16_small (free - 8)) by lia.
    cbv zeta. rewrite !clamp_min. fold g.
    assert (Hrange : 0 <= g < 65536) by (subst g; lia).
    assert (Hlen : (length (utoa g) <= 10)%nat).
    { unfold utoa. pose proof (length_utoa_aux 10 g []). simpl in *. lia. }
    simpl_device.
    change (take (Z.to_nat 16) (lit "AT+CIPRXGET=2,0," ++ [NUL]))
      with (lit "AT+CIPRXGET=2,0,").
    rewrite (bs_write_fits (lit "AT+CIPRXGET=2,0,")) by (simpl; lia).
    cbn [snd]. rewrite (bs_write_fits (utoa g)) by (simpl; lia).
    cbn [snd rx tx txSpace]. rewrite bs_write_fits by (simpl; lia).
    cbn [snd rx tx txSpace]. rewrite <- !app_assoc.
    split; [|split; [|subst g; lia]].
    + assert (Hspace :
        txSpace (_serial s) - Z.of_nat (length (lit "AT+CIPRXGET=2,0,")) -
          Z.of_nat (length (utoa g)) - Z.of_nat (length [CR; LF]) =
        txSpace (_serial s) -
          Z.of_nat (length (lit "AT+CIPRXGET=2,0," ++ utoa g ++ [CR; LF])))
        by (rewrite !length_app; simpl; lia).
      rewrite Hspace. destruct s; reflexivity.
    + unfold utoa. rewrite scan_utoa_aux; [reflexivity|].
      change (10 ^ Z.of_nat 10) with 10000000000. lia.
Qed.

(** X17.  The reserve of 22 bytes is enough: after [prepareSending] has
    returned true, [sendData] fits the whole payload into the transmit
    space that is left.  The UART then holds the command
    [AT+CIPSEND=0,<n>] followed by the [n] oldest bytes of the write
    ring, in order, which are gone from the ring, and at least 4 bytes of
    transmit space remain. *)
Theorem payload_fits_after_prepareSending (s : device) (fuel : nat) :
  22 <= txSpace (_serial s) < 65536 ->
  0 < _writeBufferSize s < 65536 ->
  CircularBuffer.wf (_writeBufferSize s) (_writeBuffer s) ->
  CircularBuffer.coherent (_writeBufferSize s) (_writeBuffer s) ->
  let n := Z.min (CircularBuffer._availableData (_writeBuffer s))
                 (txSpace (_serial s) - 22) in
  (Z.to_nat n < fuel)%nat ->
  exists s1 s2,
    prepareSending s = (true, s1) /\
    sendData fuel s1 = Some s2 /\
    tx (_serial s2) =
      tx (_serial s) ++ lit "AT+CIPSEND=0," ++ utoa n ++
      take (Z.to_nat n)
        (CircularBuffer.contents NUL (_writeBufferSize s) (_writeBuffer s)) /\
    CircularBuffer.contents NUL (_writeBufferSize s) (_writeBuffer s2) =
      drop (Z.to_nat n)
        (CircularBuffer.contents NUL (_writeBufferSize s) (_writeBuffer s)) /\
    4 <= txSpace (_serial s2).
Proof.
  intros Hsp HN Hwf Hc n Hfuel.
  destruct (CircularBuffer.wf_available _ _ Hwf) as [Hlo Hhi].
  assert (Hn : 0 <= n < 65536) by (subst n; lia).
  assert (Hpre : MIN_SPACE_AVAILABLE <= spaceAvailable (_serial s) < 65536)
    by (unfold MIN_SPACE_AVAILABLE; cbn [spaceAvailable BufferedSerial_serial]; lia).
  pose proof (SimFacts.prepareSending_emits s Hpre) as Hprep.
  cbv zeta in Hprep. unfold MIN_SPACE_AVAILABLE, CircularBuffer.availableData in Hprep.
  cbn [spaceAvailable BufferedSerial_serial] in Hprep. fold n in Hprep.
  destruct (snprintf_u_value n Hn) as [Hs _]. rewrite Hs in Hprep.
  assert (Hlen : (length (utoa n) <= 5)%nat).
  { rewrite <- Hs. unfold snprintf_u. rewrite length_take. lia. }
  cbn [write BufferedSerial_serial] in Hprep.
  rewrite (bs_write_fits (lit "AT+CIPSEND=0,")) in Hprep by (simpl; lia).
  cbn [snd] in Hprep.
  rewrite (bs_write_fits (utoa n)) in Hprep by (simpl; lia).
  cbn [snd rx tx txSpace] in Hprep.
  destruct (SimFacts.sendData_sends_oldest
              (set_waitForReply (Some ">"%string)
                 (set_serial
                    {| rx := rx (_serial s);
                       tx := (tx (_serial s) ++ lit "AT+CIPSEND=0,") ++ utoa n;
                       txSpace := txSpace (_serial s) -
                                  Z.of_nat (length (lit "AT+CIPSEND=0,")) -
                                  Z.of_nat (length (utoa n)) |}
                    (set_bytesToWrite n s))) fuel)
    as (s2 & Hrun & Hser & Hcont); simpl_device; try done; try lia.
  eexists. exists s2. split; [exact Hprep|]. split; [exact Hrun|].
  assert (Htake : Z.of_nat (length (take (Z.to_nat n)
             (CircularBuffer.contents NUL (_writeBufferSize s) (_writeBuffer s))))
           <= n) by (rewrite length_take; lia).
  rewrite Hser. rewrite write_all_fits by (simpl in *; lia).
  cbn [rx tx txSpace]. rewrite <- !app_assoc.
  split; [reflexivity|]. split; [exact Hcont|]. simpl in *. lia.
Qed.

(** The loop of [fillLineBuffer] over input that begins with characters
    [a], none of them a terminator and all within the line: it stores
    them and goes on with what follows. *)
Lemma fillLineBuffer_loop_resume a : forall fuel (s : device) pre suf b,
  rx (_serial s) = a ++ b ->
  _lineBuffer s = pre ++ suf ->
  _lbFill s = Z.of_nat (length pre) ->
  Forall (fun c => ~ is_terminator c) a ->
  Z.of_nat (length pre + length a) < LINE_MAX_LENGTH < Z.of_nat (length pre + length suf) ->
  fillLineBuffer_loop (length a + fuel) s =
    fillLineBuffer_loop fuel
      (set_lbFill (Z.of_nat (length pre + length a))
         (set_lineBuffer (pre ++ a ++ drop (length a) suf)
            (set_serial (set_rx b (_serial s)) s))).
Proof.
  induction a as [|c a IH]; intros fuel s pre suf b Hrx Hbuf Hfill Ha Hroom;
    destruct s as [[rx0 tx0 sp] ? ? ? ? buf fill ? ? ? ? ? ? ? ? ? ? ?];
    simpl_device; cbn [rx tx txSpace set_rx] in *; subst rx0 buf fill.
  - cbn [length app Nat.add]. now rewrite drop_0, Nat.add_0_r.
  - inversion Ha as [|? ? Hc Ha']; subst.
    apply LineReader.not_terminator_test in Hc.
    cbn [length Nat.add fillLineBuffer_loop bytesAvailable read
         BufferedSerial_serial bs_read].
    simpl_device. cbn [rx tx txSpace set_rx app hd tl].
    rewrite (proj2 (Z.eqb_neq _ _)) by (simpl; lia).
    destruct suf as [|y suf]; [simpl in Hroom; lia|].
    rewrite LineReader.store_at_cursor by done. cbn [tl].
    rewrite Hc. cbn [orb].
    rewrite (proj2 (Z.eqb_neq _ _)) by (simpl in Hroom; lia).
    rewrite (IH fuel _ (pre ++ [c]) suf b); simpl_device; cbn [rx tx txSpace set_rx];
      [|done|now rewrite <- app_assoc|rewrite length_app; simpl; lia|done
       |rewrite length_app; simpl in *; lia].
    rewrite length_app, <- !app_assoc. cbn [length app drop].
    replace (length pre + 1 + length a)%nat with (length pre + S (length a))%nat by lia.
    reflexivity.
Qed.

(** X18.  A line that arrives in two parts is put together: when one call
    of [fillLineBuffer] has taken bytes that hold no terminator and stay
    within the line, it returns false with the UART drained, and the
    next call, on the bytes that came after, gives the result and the
    state that one call on both parts together gives. *)
Theorem line_resumes_across_calls (s : device) (a b : list ascii) (fuel1 : nat) :
  line_inv s -> flag LINE_READ s = true ->
  Forall (fun c => ~ is_terminator c) a ->
  _lbFill s + Z.of_nat (length a) < LINE_MAX_LENGTH ->
  (length a < fuel1)%nat ->
  exists s1,
    fillLineBuffer fuel1 (set_serial (set_rx a (_serial s)) s) = Some (false, s1) /\
    rx (_serial s1) = [] /\
    _lbFill s1 = _lbFill s + Z.of_nat (length a) /\
    forall fuel,
      fillLineBuffer fuel (set_serial (set_rx b (_serial s1)) s1) =
      fillLineBuffer (length a + fuel) (set_serial (set_rx (a ++ b) (_serial s)) s).
Proof.
  intros (Hfill & Hlen & _) Hflag Ha Hfit Hfuel.
  set (f := Z.to_nat (_lbFill s)).
  set (pre := take f (_lineBuffer s)). set (suf := drop f (_lineBuffer s)).
  assert (Hpre : length pre = f) by (subst pre; rewrite length_take; lia).
  assert (Hsuf : length suf = (length (_lineBuffer s) - f)%nat)
    by (subst suf; apply length_drop).
  assert (Hbuf : _lineBuffer s = pre ++ suf) by (subst pre suf; now rewrite take_drop).
  assert (Hroom : Z.of_nat (length pre + length a) < LINE_MAX_LENGTH
                  < Z.of_nat (length pre + length suf)) by lia.
  assert (Hstep : forall fuel tail,
            fillLineBuffer_loop (length a + fuel)
              (set_serial (set_rx (a ++ tail) (_serial s)) s) =
            fillLineBuffer_loop fuel
              (set_lbFill (Z.of_nat (length pre + length a))
                 (set_lineBuffer (pre ++ a ++ drop (length a) suf)
                    (set_serial (set_rx tail (_serial s)) s)))).
  { intros fuel tail.
    rewrite (fillLineBuffer_loop_resume a fuel _ pre suf tail);
      simpl_device; cbn [rx set_rx]; [|done|done|lia|done|done].
    destruct s as [[? ? ?] ? ? ? ? ? ? ? ? ? ? ? ? ? ? ? ? ?]. reflexivity. }
  eexists. split; [|split; [|split]].
  - unfold fillLineBuffer.
    replace (flag LINE_READ (set_serial (set_rx a (_serial s)) s)) with true
      by (symmetry; exact Hflag).
    replace fuel1 with (length a + S (fuel1 - S (length a)))%nat by lia.
    pose proof (Hstep (S (fuel1 - S (length a))) []) as Hrun.
    rewrite app_nil_r in Hrun. rewrite Hrun.
    cbn [fillLineBuffer_loop bytesAvailable BufferedSerial_serial].
    simpl_device. cbn [rx set_rx length]. reflexivity.
  - reflexivity.
  - simpl_device. lia.
  - intros fuel. unfold fillLineBuffer.
    replace (flag LINE_READ (set_serial (set_rx (a ++ b) (_serial s)) s)) with true
      by (symmetry; exact Hflag).
    rewrite Hstep.
    match goal with
    | |- (if ?c then _ else _) = _ => replace c with true by (symmetry; exact Hflag)
    end.
    destruct s as [[? ? ?] ? ? ? ? ? ? ? ? ? ? ? ? ? ? ? ? ?]. reflexivity.
Qed.

End Mock.

Lemma lock_unlock_round_trip_witness :
  let s := sample_device (sample_uart [] 64) [] [] in
  serialUnlock (header := sample_header)
    (snd (serialLock (header := sample_header) s)) = s.
Proof.
  apply (lock_unlock_round_trip (header := sample_header)
           (sample_device (sample_uart [] 64) [] []) [] 0); reflexivity.
Defined.

Lemma rssi_request_reply_witness :
  let s := sample_device (sample_uart [] 64) (lit "+CSQ: 17,99" ++ [CR; LF]) [] in
  exists s', parseCsq (requestRSSI s) = Some (true, s') /\ getRSSI s' = 17.
Proof.
  destruct (rssi_request_reply
              (sample_device (sample_uart [] 64) (lit "+CSQ: 17,99" ++ [CR; LF]) [])
              17 ","%char (lit ",99" ++ [CR; LF] ++ replicate 48 NUL)
              ltac:(vm_compute; split; discriminate) eq_refl eq_refl eq_refl
              eq_refl eq_refl) as (_ & Hreply & _).
  destruct (Hreply eq_refl) as (s' & Hrun & _ & Hval).
  exists s'. split; [exact Hrun|]. apply Hval. reflexivity.
Defined.

Lemma handle_pending_once_witness :
  let s := set_stateBooleans 9 (sample_device (sample_uart [] 64) [] []) in
  fst (handleDisconnect (constants := sample_constants) 3 s) = true /\
  handleDisconnect (constants := sample_constants) 4
    (snd (handleDisconnect (constants := sample_constants) 3 s)) =
    (false, snd (handleDisconnect (constants := sample_constants) 3 s)) /\
  handleConnect (constants := sample_constants) 3 s = (false, s).
Proof.
  destruct (handle_pending_once (constants := sample_constants)
              (set_stateBooleans 9 (sample_device (sample_uart [] 64) [] []))
              3 4) as (Hd & _ & _ & Hc).
  destruct (Hd eq_refl) as (H1 & _ & H3).
  split; [exact H1|]. split; [exact H3|]. apply Hc. reflexivity.
Defined.

Section Witnesses.

#[local] Existing Instance sample_header.
#[local] Existing Instance sample_constants.

Local Ltac ring_wf := split; cbv; repeat split; solve [reflexivity | discriminate].
Local Ltac all_differ := repeat constructor; discriminate.

Lemma identity_reply_stored_witness :
  let s := sample_device (sample_uart [] 64) (lit "867564050638945" ++ [CR; LF]) [] in
  exists s', parseIDReply s = Some (true, s') /\
             cstr (getIDString s') = lit "867564050638945".
Proof.
  intros s.
  destruct (identity_reply_stored s (lit "867564050638945")
              (drop 16 (_lineBuffer s))
              ltac:(all_differ) ltac:(all_differ) ltac:(discriminate)
              ltac:(discriminate) eq_refl eq_refl) as (Hreply & _ & _).
  destruct (Hreply eq_refl) as (s' & Hrun & Hid & _).
  exists s'. split; [exact Hrun|exact Hid].
Defined.

Lemma identity_request_sent_once_witness :
  let s := sample_device (sample_uart [] 64) [] [] in
  fst (sendIDRequest (requestIDString imei s)) = true /\
  tx (_serial (snd (sendIDRequest (requestIDString imei s)))) =
    lit "AT+CGSN" ++ [CR; LF].
Proof.
  intros s.
  assert (Hdup : NoDup [manufacturer; model; imei; imsi; noRequest]).
  { repeat (apply list.NoDup_cons; split;
            [rewrite ?not_elem_of_cons; repeat split;
             solve [discriminate | apply not_elem_of_nil]|]).
    apply NoDup_nil_2. }
  destruct (identity_request_sent_once s ltac:(cbn; lia) eq_refl Hdup)
    as (_ & _ & Himei & _).
  rewrite Himei. split; reflexivity.
Defined.

Lemma connection_notifications_witness :
  let s := set_stateBooleans 3
             (sample_device (sample_uart [] 64) (lit "+CIPRXGET: 1,0" ++ [CR; LF]) []) in
  checkConnectionState (lit "0, CLOSED" ++ [NUL]) s = set_stateBooleans 7 s.
Proof.
  intros s.
  destruct (connection_notifications s (lit "0, CLOSED") [] (drop 14 (_lineBuffer s))
              ltac:(all_differ)) as (Hdata & _).
  exact (Hdata eq_refl).
Defined.


Lemma flushReadBuffer_spec_witness :
  let s := set_bytesToRead 2 (sample_device (sample_uart (lit "abc") 64) [] []) in
  exists s', flushReadBuffer 3 s = Some s' /\
             rx (_serial s') = lit "c" /\ _bytesToRead s' = 0.
Proof.
  intros s.
  destruct (flushReadBuffer_spec s 3 ltac:(split; [discriminate|reflexivity])
              ltac:(cbn; lia))
    as (s' & Hrun & Hrx & _ & Hb & _).
  exists s'. split; [exact Hrun|]. split; [exact Hrx|exact Hb].
Defined.

Lemma receive_all_or_nothing_witness :
  let s := set_bytesToRead 2 (sample_device (sample_uart (lit "abc") 64) [] []) in
  exists s', receive 3 s = Some (true, s') /\
             rx (_serial s') = lit "c" /\
             CircularBuffer.contents NUL 8 (_readBuffer s') = lit "ab".
Proof.
  intros s.
  destruct (receive_all_or_nothing s 3 ltac:(split; [discriminate|reflexivity])
              ltac:(cbn; lia) ltac:(split; reflexivity)) as (_ & Hall).
  destruct (Hall ltac:(discriminate)) as (s' & Hrun & Hrx & _ & _ & Hring).
  destruct (Hring ltac:(ring_wf) eq_refl ltac:(discriminate)) as (Hc & _).
  exists s'. split; [exact Hrun|]. split; [exact Hrx|exact Hc].
Defined.

Lemma granted_window_received_witness :
  let s := set_bytesToReceive 5
             (sample_device (sample_uart (lit "hello" ++ [CR; LF]) 64)
                (lit "+CIPRXGET: 2,0,5" ++ [CR; LF]) []) in
  exists s1 s2,
    parseCiprxget2 s = Some (true, s1) /\
    receive 6 s1 = Some (true, s2) /\
    CircularBuffer.contents NUL 8 (_readBuffer s2) = lit "hello" /\
    rx (_serial s2) = [CR; LF].
Proof.
  intros s.
  destruct (granted_window_received s 5 (drop 16 (_lineBuffer s)) (lit "hello")
              [CR; LF] 6 eq_refl eq_refl ltac:(cbn; lia) eq_refl
              ltac:(split; [discriminate|reflexivity]) eq_refl eq_refl eq_refl
              ltac:(split; reflexivity) ltac:(ring_wf) eq_refl ltac:(discriminate))
    as (s1 & s2 & Hparse & Hrun & Hc & Hrx & _).
  exists s1, s2. split; [exact Hparse|]. split; [exact Hrun|].
  split; [exact Hc|exact Hrx].
Defined.

Lemma sendDnsQuery_whole_or_nothing_witness :
  let s := sample_device (sample_uart [] 64) [] [] in
  exists s',
    sendDnsQuery (lit "example.com" ++ [NUL]) s = (true, s') /\
    tx (_serial s') =
      lit "AT+CDNSGIP=" ++ [QUOTE] ++ lit "example.com" ++ [QUOTE; CR; LF].
Proof.
  intros s.
  destruct (sendDnsQuery_whole_or_nothing s (lit "example.com") []
              ltac:(all_differ)) as (_ & Hsend).
  destruct (Hsend ltac:(discriminate)) as (s' & Hrun & Htx & _).
  exists s'. split; [exact Hrun|exact Htx].
Defined.

Lemma sendCiprxget2_grant_witness :
  let s := set_bytesToReceive 100 (sample_device (sample_uart [] 64) [] []) in
  fst (sendCiprxget2 (window := BufferedSerial_window 64) 1460 s) = true /\
  tx (_serial (snd (sendCiprxget2 (window := BufferedSerial_window 64) 1460 s))) =
    lit "AT+CIPRXGET=2,0,8" ++ [CR; LF].
Proof.
  intros s.
  destruct (sendCiprxget2_grant s 64 1460) as (_ & Hgrant).
  destruct (Hgrant ltac:(split; reflexivity) eq_refl ltac:(discriminate)
              ltac:(discriminate) ltac:(discriminate)) as (Hrun & _).
  rewrite Hrun. split; reflexivity.
Defined.

Lemma payload_fits_after_prepareSending_witness :
  let s := sample_device (sample_uart [] 64) [] (lit "hello") in
  exists s1 s2,
    prepareSending s = (true, s1) /\
    sendData 6 s1 = Some s2 /\
    tx (_serial s2) = lit "AT+CIPSEND=0,5" ++ lit "hello" /\
    CircularBuffer.contents NUL 8 (_writeBuffer s2) = [].
Proof.
  intros s.
  destruct (payload_fits_after_prepareSending s 6
              ltac:(split; [discriminate|reflexivity]) ltac:(split; reflexivity)
              ltac:(ring_wf) eq_refl ltac:(vm_compute; lia))
    as (s1 & s2 & Hprep & Hrun & Htx & Hc & _).
  exists s1, s2. split; [exact Hprep|]. split; [exact Hrun|].
  split; [exact Htx|exact Hc].
Defined.

Lemma line_resumes_across_calls_witness :
  let s := sample_device (sample_uart [] 64) [] [] in
  exists s1,
    fillLineBuffer 3 (set_serial (set_rx (lit "OK") (_serial s)) s) = Some (false, s1) /\
    fillLineBuffer 3 (set_serial (set_rx [CR; LF] (_serial s1)) s1) =
      fillLineBuffer 5 (set_serial (set_rx (lit "OK" ++ [CR; LF]) (_serial s)) s).
Proof.
  intros s.
  assert (Hinv : line_inv s).
  { split; [split; [discriminate|reflexivity]|].
    split; [reflexivity|constructor]. }
  assert (Hplain : Forall (fun c => ~ is_terminator c) (lit "OK")).
  { repeat constructor; intros [H|H]; discriminate H. }
  destruct (line_resumes_across_calls s (lit "OK") [CR; LF] 3 Hinv eq_refl Hplain
              eq_refl ltac:(vm_compute; lia)) as (s1 & Hfirst & _ & _ & Hnext).
  exists s1. split; [exact Hfirst|exact (Hnext 3%nat)].
Defined.

End Witnesses.

End EngineExtra.
